(** * FinTech planner: the financial store and the TRS calculation formulas

    This development embeds these parts of the repository:

    - [Store]: the zustand store [useFinancialStore] (types, initial state
      and every action), with JavaScript numbers idealised as rationals and
      [set] as the shallow merge of a partial state into the current one;
    - [TRS]: the formulas of the Technical Requirements Specification for
      ages, future costs, cash flow and ratios, with Python floats
      idealised as real numbers and [int] as [Z];
    - [PyFloat], [TRSFloat]: the Python reference implementations of the
      retirement corpus and of the extra SIP, on IEEE 754 binary64
      floats;
    - [FamilyDetailsForm]: the age helper of the family form;
    - [LiabilityForm], [AssetsForm], [GoalForm], [CashFlowForm]: the
      handlers of the forms that call the store;
    - [LoadTestData]: the loader of the test-data page;
    - [Pages]: the requests of the dashboard and of the report page.

    The theorems that follow the definitions relate them to the
    natural-language specification of the calculation engine. *)

From Stdlib Require Import ZArith QArith Qabs List String Bool Lia Lra.
From Stdlib Require Import Reals Rpower R_Ifp.
From Stdlib Require Import DecimalString DecimalZ.
From Stdlib Require Import SpecFloat.
Import ListNotations.

(* ================================================================== *)
(** * The store: [useFinancialStore] *)
(* ================================================================== *)

Module Store.

Local Open Scope Q_scope.

(** A JavaScript [number]. *)
Definition number := Q.

(** ** Type definitions *)

Inductive RelationshipType := PRIMARY | SPOUSE | CHILD | FATHER | MOTHER.
Inductive TargetType := AGE | DATE.
Inductive InvestmentType :=
  Inv_MF | Inv_Stock | Inv_FD | Inv_RD | Inv_Chit | Inv_Other.
(** ['Home' | 'Car' | 'Personal' | 'Other'] is the declared type; the loan
    form casts the value of its select to it, which can be ['Education']
    as well. *)
Inductive LiabilityType :=
  Loan_Home | Loan_Car | Loan_Personal | Loan_Other | Loan_Education.
Inductive AccountType := Acc_Savings | Acc_Current | Acc_FD | Acc_RD.
Inductive PolicyType :=
  Pol_Term | Pol_Endowment | Pol_ULIP | Pol_WholeLife | Pol_Health | Pol_Other.

(** An optional property [f?: T] is an [option T]: [None] is [undefined]. *)

Record FamilyMember := {
  fm_id : string;
  fm_name : string;
  fm_dob : option string;
  fm_pan : option string;
  relation_type : RelationshipType;
  expected_retirement_age : option number }.

Record ContactDetails := {
  mobile : option string;
  email : option string;
  designation : option string;
  organisation : option string }.

Record PrimaryUser := {
  pu_name : string;
  pu_dob : string;
  retire_age : number;
  pu_pension_till_age : number;
  life_expectancy : number }.

Record Spouse := {
  sp_name : string;
  sp_dob : string;
  working_status : bool;
  sp_retirement_age : option number;
  sp_pension_till_age : option number }.

Record UserProfile := {
  primary : PrimaryUser;
  spouse : option Spouse;
  family_members : list FamilyMember;
  contact_details : option ContactDetails;
  address : option string }.

(** [target_value: string | number] *)
Inductive TargetValue := TV_string (s : string) | TV_number (n : number).

Record Goal := {
  goal_id : string;
  goal_person_name : option string;
  goal_name : string;
  current_cost : number;
  target_type : TargetType;
  target_value : TargetValue }.

Record RealEstateAsset := {
  re_id : option string;
  re_person_name : option string;
  re_name : string;
  present_value : number;
  roi : option number;
  re_remarks : option string }.

Record BankAccount := {
  ba_id : option string;
  ba_person_name : option string;
  bank_name : string;
  account_type : AccountType;
  balance : number;
  ba_interest_rate : option number;
  maturity_date : option string;
  ba_remarks : option string }.

Record InvestmentAsset := {
  inv_id : option string;
  inv_type : InvestmentType;
  invested_amount : option number;
  current_value : number;
  monthly_sip : number;
  inv_start_date : option string;
  inv_end_date : option string;
  inv_remarks : option string }.

Record InsurancePolicy := {
  pol_id : option string;
  pol_person_name : option string;
  policy_name : string;
  policy_type : PolicyType;
  sum_assured : number;
  premium : number;
  premium_frequency : string;
  ppt : option number;
  pol_start_date : option string;
  pol_end_date : option string;
  maturity_amount : option number;
  pol_remarks : option string }.

Record Assets := {
  real_estate : list RealEstateAsset;
  bank_accounts : list BankAccount;
  investments : list InvestmentAsset;
  insurance_policies : list InsurancePolicy;
  liquid_cash : number }.

Record Liability := {
  liab_id : option string;
  liab_type : LiabilityType;
  total_loan_amount : option number;
  outstanding : number;
  emi : number;
  liab_interest_rate : number;
  tenure_months : number }.

Record EssentialExpenses := {
  house_rent : number;
  maintenance : number;
  property_tax : number;
  utilities : number;
  groceries : number;
  transportation : number;
  medical_expenses : number;
  children_school_fees : number;
  insurance_premiums : number;
  ess_other : number }.

Record LifestyleExpenses := {
  maid_expense : number;
  shopping : number;
  travel : number;
  dining_entertainment : number;
  life_other : number }.

Record InvestmentOutflows := {
  mutual_fund_sip : number;
  stock_sip : number;
  recurring_deposit : number;
  chit_fund : number;
  io_other : number }.

Record Inflows := {
  primary_income : number;
  spouse_income : number;
  rental_income : number;
  additional_income : number;
  in_other : number }.

Record Outflows := {
  essential : number;
  lifestyle : number;
  essential_details : option EssentialExpenses;
  lifestyle_details : option LifestyleExpenses;
  investment_details : option InvestmentOutflows;
  linked_emis : number;
  linked_investments : number }.

Record CashFlow := {
  inflows : Inflows;
  outflows : Outflows }.

Record Assumptions := {
  inflation : number;
  child_inflation : number;
  pre_retire_roi : number;
  post_retire_roi : number }.

(** [analysisResults: any | null].  What the pages store is the body of a
    JSON response other than [null]: a boolean, a number, a string, or an
    object or array, which is kept as its JSON text since nothing looks
    inside it. *)
Inductive AnalysisResults :=
| Res_boolean (b : bool)
| Res_number (x : number)
| Res_string (text : string)
| Res_object (json : string).

(** The data part of [FullState] (the actions are the functions below). *)
Record FullState := {
  user_profile : UserProfile;
  goals : list Goal;
  assets : Assets;
  liabilities : list Liability;
  cash_flow : CashFlow;
  assumptions : Assumptions;
  analysisResults : option AnalysisResults }.

(** ** [Partial<T>] arguments

    A property that is absent from the partial object is [None]. *)

Record PartialPrimaryUser := {
  pp_name : option string;
  pp_dob : option string;
  pp_retire_age : option number;
  pp_pension_till_age : option number;
  pp_life_expectancy : option number }.

Record PartialGoal := {
  pg_id : option string;
  pg_person_name : option string;
  pg_name : option string;
  pg_current_cost : option number;
  pg_target_type : option TargetType;
  pg_target_value : option TargetValue }.

Record PartialInflows := {
  pi_primary_income : option number;
  pi_spouse_income : option number;
  pi_rental_income : option number;
  pi_additional_income : option number;
  pi_other : option number }.

Record PartialOutflows := {
  po_essential : option number;
  po_lifestyle : option number;
  po_essential_details : option EssentialExpenses;
  po_lifestyle_details : option LifestyleExpenses;
  po_investment_details : option InvestmentOutflows;
  po_linked_emis : option number;
  po_linked_investments : option number }.

Record PartialCashFlow := {
  pc_inflows : option Inflows;
  pc_outflows : option Outflows }.

Record PartialEssentialExpenses := {
  pe_house_rent : option number;
  pe_maintenance : option number;
  pe_property_tax : option number;
  pe_utilities : option number;
  pe_groceries : option number;
  pe_transportation : option number;
  pe_medical_expenses : option number;
  pe_children_school_fees : option number;
  pe_insurance_premiums : option number;
  pe_other : option number }.

Record PartialLifestyleExpenses := {
  pl_maid_expense : option number;
  pl_shopping : option number;
  pl_travel : option number;
  pl_dining_entertainment : option number;
  pl_other : option number }.

Record PartialAssumptions := {
  pa_inflation : option number;
  pa_child_inflation : option number;
  pa_pre_retire_roi : option number;
  pa_post_retire_roi : option number }.

(** The partial state handed to zustand's [set]: one optional entry per
    top-level key. *)
Record PartialState := {
  ps_user_profile : option UserProfile;
  ps_goals : option (list Goal);
  ps_assets : option Assets;
  ps_liabilities : option (list Liability);
  ps_cash_flow : option CashFlow;
  ps_assumptions : option Assumptions;
  ps_analysisResults : option (option AnalysisResults) }.

(** ** Object spread *)

(** [{ ...{k: old}, ...{k?: p} }.k] for a required property [k]. *)
Definition spread {A : Type} (old : A) (p : option A) : A :=
  match p with Some v => v | None => old end.

(** The same for a property that is optional on the left as well. *)
Definition spread_opt {A : Type} (old p : option A) : option A :=
  match p with Some v => Some v | None => old end.

Definition spread_PrimaryUser (o : PrimaryUser) (p : PartialPrimaryUser)
  : PrimaryUser :=
  {| pu_name := spread (pu_name o) (pp_name p);
     pu_dob := spread (pu_dob o) (pp_dob p);
     retire_age := spread (retire_age o) (pp_retire_age p);
     pu_pension_till_age :=
       spread (pu_pension_till_age o) (pp_pension_till_age p);
     life_expectancy := spread (life_expectancy o) (pp_life_expectancy p) |}.

Definition spread_Goal (g : Goal) (p : PartialGoal) : Goal :=
  {| goal_id := spread (goal_id g) (pg_id p);
     goal_person_name := spread_opt (goal_person_name g) (pg_person_name p);
     goal_name := spread (goal_name g) (pg_name p);
     current_cost := spread (current_cost g) (pg_current_cost p);
     target_type := spread (target_type g) (pg_target_type p);
     target_value := spread (target_value g) (pg_target_value p) |}.

Definition spread_Inflows (o : Inflows) (p : PartialInflows) : Inflows :=
  {| primary_income := spread (primary_income o) (pi_primary_income p);
     spouse_income := spread (spouse_income o) (pi_spouse_income p);
     rental_income := spread (rental_income o) (pi_rental_income p);
     additional_income :=
       spread (additional_income o) (pi_additional_income p);
     in_other := spread (in_other o) (pi_other p) |}.

Definition spread_Outflows (o : Outflows) (p : PartialOutflows) : Outflows :=
  {| essential := spread (essential o) (po_essential p);
     lifestyle := spread (lifestyle o) (po_lifestyle p);
     essential_details :=
       spread_opt (essential_details o) (po_essential_details p);
     lifestyle_details :=
       spread_opt (lifestyle_details o) (po_lifestyle_details p);
     investment_details :=
       spread_opt (investment_details o) (po_investment_details p);
     linked_emis := spread (linked_emis o) (po_linked_emis p);
     linked_investments :=
       spread (linked_investments o) (po_linked_investments p) |}.

Definition spread_CashFlow (o : CashFlow) (p : PartialCashFlow) : CashFlow :=
  {| inflows := spread (inflows o) (pc_inflows p);
     outflows := spread (outflows o) (pc_outflows p) |}.

Definition spread_EssentialExpenses
  (o : EssentialExpenses) (p : PartialEssentialExpenses) : EssentialExpenses :=
  {| house_rent := spread (house_rent o) (pe_house_rent p);
     maintenance := spread (maintenance o) (pe_maintenance p);
     property_tax := spread (property_tax o) (pe_property_tax p);
     utilities := spread (utilities o) (pe_utilities p);
     groceries := spread (groceries o) (pe_groceries p);
     transportation := spread (transportation o) (pe_transportation p);
     medical_expenses := spread (medical_expenses o) (pe_medical_expenses p);
     children_school_fees :=
       spread (children_school_fees o) (pe_children_school_fees p);
     insurance_premiums :=
       spread (insurance_premiums o) (pe_insurance_premiums p);
     ess_other := spread (ess_other o) (pe_other p) |}.

Definition spread_LifestyleExpenses
  (o : LifestyleExpenses) (p : PartialLifestyleExpenses) : LifestyleExpenses :=
  {| maid_expense := spread (maid_expense o) (pl_maid_expense p);
     shopping := spread (shopping o) (pl_shopping p);
     travel := spread (travel o) (pl_travel p);
     dining_entertainment :=
       spread (dining_entertainment o) (pl_dining_entertainment p);
     life_other := spread (life_other o) (pl_other p) |}.

Definition spread_Assumptions (o : Assumptions) (p : PartialAssumptions)
  : Assumptions :=
  {| inflation := spread (inflation o) (pa_inflation p);
     child_inflation := spread (child_inflation o) (pa_child_inflation p);
     pre_retire_roi := spread (pre_retire_roi o) (pa_pre_retire_roi p);
     post_retire_roi := spread (post_retire_roi o) (pa_post_retire_roi p) |}.

(** [Object.values] lists the properties in insertion order, which for
    these objects is the order of declaration. *)
Definition Object_values_Essential (d : EssentialExpenses) : list number :=
  [ house_rent d; maintenance d; property_tax d; utilities d; groceries d;
    transportation d; medical_expenses d; children_school_fees d;
    insurance_premiums d; ess_other d ].

Definition Object_values_Lifestyle (d : LifestyleExpenses) : list number :=
  [ maid_expense d; shopping d; travel d; dining_entertainment d;
    life_other d ].

(** [xs.reduce(f, init)] *)
Definition reduce {A B : Type} (f : B -> A -> B) (xs : list A) (init : B) : B :=
  fold_left f xs init.

(** ** Initial state *)

(** [generateId()] draws a random identifier.  Every action that may call
    it takes the identifier that the call would return as an extra
    argument [fresh]. *)

Definition initialState : FullState :=
  {| user_profile :=
       {| primary := {| pu_name := EmptyString; pu_dob := EmptyString;
                        retire_age := 60; pu_pension_till_age := 85;
                        life_expectancy := 85 |};
          spouse := None;
          family_members := [];
          contact_details := None;
          address := None |};
     goals := [];
     assets := {| real_estate := []; bank_accounts := []; investments := [];
                  insurance_policies := []; liquid_cash := 0 |};
     liabilities := [];
     cash_flow :=
       {| inflows := {| primary_income := 0; spouse_income := 0;
                        rental_income := 0; additional_income := 0;
                        in_other := 0 |};
          outflows := {| essential := 0; lifestyle := 0;
                         essential_details := None;
                         lifestyle_details := None;
                         investment_details := None;
                         linked_emis := 0; linked_investments := 0 |} |};
     assumptions := {| inflation := 6 # 100; child_inflation := 10 # 100;
                       pre_retire_roi := 12 # 100;
                       post_retire_roi := 8 # 100 |};
     analysisResults := None |}.

(** ** zustand's [set]: shallow merge of a partial state *)

Definition set (s : FullState) (p : PartialState) : FullState :=
  {| user_profile := spread (user_profile s) (ps_user_profile p);
     goals := spread (goals s) (ps_goals p);
     assets := spread (assets s) (ps_assets p);
     liabilities := spread (liabilities s) (ps_liabilities p);
     cash_flow := spread (cash_flow s) (ps_cash_flow p);
     assumptions := spread (assumptions s) (ps_assumptions p);
     analysisResults := spread (analysisResults s) (ps_analysisResults p) |}.

Definition no_keys : PartialState :=
  {| ps_user_profile := None; ps_goals := None; ps_assets := None;
     ps_liabilities := None; ps_cash_flow := None; ps_assumptions := None;
     ps_analysisResults := None |}.

(** The object literals [{ user_profile: v }], [{ goals: v }], ... *)
Definition key_user_profile (v : UserProfile) : PartialState :=
  {| ps_user_profile := Some v; ps_goals := None; ps_assets := None;
     ps_liabilities := None; ps_cash_flow := None; ps_assumptions := None;
     ps_analysisResults := None |}.
Definition key_goals (v : list Goal) : PartialState :=
  {| ps_user_profile := None; ps_goals := Some v; ps_assets := None;
     ps_liabilities := None; ps_cash_flow := None; ps_assumptions := None;
     ps_analysisResults := None |}.
Definition key_assets (v : Assets) : PartialState :=
  {| ps_user_profile := None; ps_goals := None; ps_assets := Some v;
     ps_liabilities := None; ps_cash_flow := None; ps_assumptions := None;
     ps_analysisResults := None |}.
Definition key_liabilities (v : list Liability) : PartialState :=
  {| ps_user_profile := None; ps_goals := None; ps_assets := None;
     ps_liabilities := Some v; ps_cash_flow := None; ps_assumptions := None;
     ps_analysisResults := None |}.
Definition key_cash_flow (v : CashFlow) : PartialState :=
  {| ps_user_profile := None; ps_goals := None; ps_assets := None;
     ps_liabilities := None; ps_cash_flow := Some v; ps_assumptions := None;
     ps_analysisResults := None |}.
Definition key_assumptions (v : Assumptions) : PartialState :=
  {| ps_user_profile := None; ps_goals := None; ps_assets := None;
     ps_liabilities := None; ps_cash_flow := None; ps_assumptions := Some v;
     ps_analysisResults := None |}.
Definition key_analysisResults (v : option AnalysisResults) : PartialState :=
  {| ps_user_profile := None; ps_goals := None; ps_assets := None;
     ps_liabilities := None; ps_cash_flow := None; ps_assumptions := None;
     ps_analysisResults := Some v |}.

(** ** Identifiers *)

(** [id || generateId()] for [id: string]: the empty string is falsy. *)
Definition id_or (id fresh : string) : string :=
  if String.eqb id EmptyString then fresh else id.

(** [id || generateId()] for [id?: string]. *)
Definition opt_id_or (id : option string) (fresh : string) : string :=
  match id with
  | Some i => id_or i fresh
  | None => fresh
  end.

(** [x.id !== id] for [x.id: string] and for [x.id?: string]. *)
Definition id_differs (xid id : string) : bool := negb (String.eqb xid id).
Definition opt_id_differs (xid : option string) (id : string) : bool :=
  match xid with
  | Some i => id_differs i id
  | None => true
  end.

(** [{ ...x, id: v }] *)
Definition FamilyMember_with_id (m : FamilyMember) (v : string) :=
  {| fm_id := v; fm_name := fm_name m; fm_dob := fm_dob m; fm_pan := fm_pan m;
     relation_type := relation_type m;
     expected_retirement_age := expected_retirement_age m |}.
Definition Goal_with_id (g : Goal) (v : string) :=
  {| goal_id := v; goal_person_name := goal_person_name g;
     goal_name := goal_name g; current_cost := current_cost g;
     target_type := target_type g; target_value := target_value g |}.
Definition RealEstateAsset_with_id (a : RealEstateAsset) (v : string) :=
  {| re_id := Some v; re_person_name := re_person_name a; re_name := re_name a;
     present_value := present_value a; roi := roi a;
     re_remarks := re_remarks a |}.
Definition BankAccount_with_id (a : BankAccount) (v : string) :=
  {| ba_id := Some v; ba_person_name := ba_person_name a;
     bank_name := bank_name a; account_type := account_type a;
     balance := balance a; ba_interest_rate := ba_interest_rate a;
     maturity_date := maturity_date a; ba_remarks := ba_remarks a |}.
Definition InvestmentAsset_with_id (a : InvestmentAsset) (v : string) :=
  {| inv_id := Some v; inv_type := inv_type a;
     invested_amount := invested_amount a; current_value := current_value a;
     monthly_sip := monthly_sip a; inv_start_date := inv_start_date a;
     inv_end_date := inv_end_date a; inv_remarks := inv_remarks a |}.
Definition InsurancePolicy_with_id (a : InsurancePolicy) (v : string) :=
  {| pol_id := Some v; pol_person_name := pol_person_name a;
     policy_name := policy_name a; policy_type := policy_type a;
     sum_assured := sum_assured a; premium := premium a;
     premium_frequency := premium_frequency a; ppt := ppt a;
     pol_start_date := pol_start_date a; pol_end_date := pol_end_date a;
     maturity_amount := maturity_amount a; pol_remarks := pol_remarks a |}.
Definition Liability_with_id (l : Liability) (v : string) :=
  {| liab_id := Some v; liab_type := liab_type l;
     total_loan_amount := total_loan_amount l; outstanding := outstanding l;
     emi := emi l; liab_interest_rate := liab_interest_rate l;
     tenure_months := tenure_months l |}.

(** [{ ...state.user_profile, k: v }] and [{ ...state.assets, k: v }] *)
Definition UserProfile_with_primary (u : UserProfile) (v : PrimaryUser) :=
  {| primary := v; spouse := spouse u; family_members := family_members u;
     contact_details := contact_details u; address := address u |}.
Definition UserProfile_with_spouse (u : UserProfile) (v : option Spouse) :=
  {| primary := primary u; spouse := v; family_members := family_members u;
     contact_details := contact_details u; address := address u |}.
Definition UserProfile_with_family_members
  (u : UserProfile) (v : list FamilyMember) :=
  {| primary := primary u; spouse := spouse u; family_members := v;
     contact_details := contact_details u; address := address u |}.

Definition Assets_with_real_estate (a : Assets) (v : list RealEstateAsset) :=
  {| real_estate := v; bank_accounts := bank_accounts a;
     investments := investments a;
     insurance_policies := insurance_policies a;
     liquid_cash := liquid_cash a |}.
Definition Assets_with_bank_accounts (a : Assets) (v : list BankAccount) :=
  {| real_estate := real_estate a; bank_accounts := v;
     investments := investments a;
     insurance_policies := insurance_policies a;
     liquid_cash := liquid_cash a |}.
Definition Assets_with_investments (a : Assets) (v : list InvestmentAsset) :=
  {| real_estate := real_estate a; bank_accounts := bank_accounts a;
     investments := v;
     insurance_policies := insurance_policies a;
     liquid_cash := liquid_cash a |}.
Definition Assets_with_insurance_policies
  (a : Assets) (v : list InsurancePolicy) :=
  {| real_estate := real_estate a; bank_accounts := bank_accounts a;
     investments := investments a;
     insurance_policies := v;
     liquid_cash := liquid_cash a |}.
Definition Assets_with_liquid_cash (a : Assets) (v : number) :=
  {| real_estate := real_estate a; bank_accounts := bank_accounts a;
     investments := investments a;
     insurance_policies := insurance_policies a;
     liquid_cash := v |}.

(** [{ ...state.cash_flow, k: v }] *)
Definition CashFlow_with_inflows (c : CashFlow) (v : Inflows) :=
  {| inflows := v; outflows := outflows c |}.
Definition CashFlow_with_outflows (c : CashFlow) (v : Outflows) :=
  {| inflows := inflows c; outflows := v |}.

(** ** Actions *)

(** *** Profile *)

Definition setProfile (s : FullState) (profile : UserProfile) : FullState :=
  set s (key_user_profile profile).

Definition updatePrimaryUser (s : FullState) (p : PartialPrimaryUser)
  : FullState :=
  set s (key_user_profile
           (UserProfile_with_primary (user_profile s)
              (spread_PrimaryUser (primary (user_profile s)) p))).

Definition setSpouse (s : FullState) (sp : option Spouse) : FullState :=
  set s (key_user_profile (UserProfile_with_spouse (user_profile s) sp)).

Definition addFamilyMember (s : FullState) (member : FamilyMember)
  (fresh : string) : FullState :=
  set s (key_user_profile
           (UserProfile_with_family_members (user_profile s)
              (family_members (user_profile s)
               ++ [FamilyMember_with_id member (id_or (fm_id member) fresh)]))).

Definition removeFamilyMember (s : FullState) (id : string) : FullState :=
  set s (key_user_profile
           (UserProfile_with_family_members (user_profile s)
              (filter (fun m => id_differs (fm_id m) id)
                 (family_members (user_profile s))))).

(** *** Goals *)

Definition addGoal (s : FullState) (goal : Goal) (fresh : string)
  : FullState :=
  set s (key_goals
           (goals s ++ [Goal_with_id goal (id_or (goal_id goal) fresh)])).

Definition updateGoal (s : FullState) (id : string) (updates : PartialGoal)
  : FullState :=
  set s (key_goals
           (map (fun g => if String.eqb (goal_id g) id
                          then spread_Goal g updates else g)
              (goals s))).

Definition removeGoal (s : FullState) (id : string) : FullState :=
  set s (key_goals (filter (fun g => id_differs (goal_id g) id) (goals s))).

(** *** Linked values *)

Definition totalEmi (s : FullState) : number :=
  reduce (fun sum l => sum + emi l) (liabilities s) 0.

Definition totalSip (s : FullState) : number :=
  reduce (fun sum i => sum + monthly_sip i) (investments (assets s)) 0.

Definition Outflows_with_linked (o : Outflows) (e i : number) : Outflows :=
  {| essential := essential o;
     lifestyle := lifestyle o;
     essential_details := essential_details o;
     lifestyle_details := lifestyle_details o;
     investment_details := investment_details o;
     linked_emis := e;
     linked_investments := i |}.

Definition recalculateLinkedValues (s : FullState) : FullState :=
  set s (key_cash_flow
           (CashFlow_with_outflows (cash_flow s)
              (Outflows_with_linked (outflows (cash_flow s))
                 (totalEmi s) (totalSip s)))).

(** *** Assets *)

Definition addRealEstate (s : FullState) (asset : RealEstateAsset)
  (fresh : string) : FullState :=
  set s (key_assets
           (Assets_with_real_estate (assets s)
              (real_estate (assets s)
               ++ [RealEstateAsset_with_id asset
                     (opt_id_or (re_id asset) fresh)]))).

Definition removeRealEstate (s : FullState) (id : string) : FullState :=
  set s (key_assets
           (Assets_with_real_estate (assets s)
              (filter (fun a => opt_id_differs (re_id a) id)
                 (real_estate (assets s))))).

Definition addBankAccount (s : FullState) (account : BankAccount)
  (fresh : string) : FullState :=
  set s (key_assets
           (Assets_with_bank_accounts (assets s)
              (bank_accounts (assets s)
               ++ [BankAccount_with_id account
                     (opt_id_or (ba_id account) fresh)]))).

Definition removeBankAccount (s : FullState) (id : string) : FullState :=
  set s (key_assets
           (Assets_with_bank_accounts (assets s)
              (filter (fun a => opt_id_differs (ba_id a) id)
                 (bank_accounts (assets s))))).

(** The two investment actions call [set] and then
    [get().recalculateLinkedValues()]. *)
Definition addInvestment (s : FullState) (investment : InvestmentAsset)
  (fresh : string) : FullState :=
  recalculateLinkedValues
    (set s (key_assets
              (Assets_with_investments (assets s)
                 (investments (assets s)
                  ++ [InvestmentAsset_with_id investment
                        (opt_id_or (inv_id investment) fresh)])))).

Definition removeInvestment (s : FullState) (id : string) : FullState :=
  recalculateLinkedValues
    (set s (key_assets
              (Assets_with_investments (assets s)
                 (filter (fun a => opt_id_differs (inv_id a) id)
                    (investments (assets s)))))).

Definition addInsurancePolicy (s : FullState) (policy : InsurancePolicy)
  (fresh : string) : FullState :=
  set s (key_assets
           (Assets_with_insurance_policies (assets s)
              (insurance_policies (assets s)
               ++ [InsurancePolicy_with_id policy
                     (opt_id_or (pol_id policy) fresh)]))).

Definition removeInsurancePolicy (s : FullState) (id : string) : FullState :=
  set s (key_assets
           (Assets_with_insurance_policies (assets s)
              (filter (fun p => opt_id_differs (pol_id p) id)
                 (insurance_policies (assets s))))).

Definition updateLiquidCash (s : FullState) (amount : number) : FullState :=
  set s (key_assets (Assets_with_liquid_cash (assets s) amount)).

(** *** Liabilities *)

Definition addLiability (s : FullState) (liability : Liability)
  (fresh : string) : FullState :=
  recalculateLinkedValues
    (set s (key_liabilities
              (liabilities s
               ++ [Liability_with_id liability
                     (opt_id_or (liab_id liability) fresh)]))).

Definition removeLiability (s : FullState) (id : string) : FullState :=
  recalculateLinkedValues
    (set s (key_liabilities
              (filter (fun l => opt_id_differs (liab_id l) id)
                 (liabilities s)))).

(** *** Cash flow *)

Definition updateCashFlow (s : FullState) (newCashFlow : PartialCashFlow)
  : FullState :=
  set s (key_cash_flow (spread_CashFlow (cash_flow s) newCashFlow)).

Definition updateInflows (s : FullState) (p : PartialInflows) : FullState :=
  set s (key_cash_flow
           (CashFlow_with_inflows (cash_flow s)
              (spread_Inflows (inflows (cash_flow s)) p))).

Definition updateOutflows (s : FullState) (p : PartialOutflows) : FullState :=
  set s (key_cash_flow
           (CashFlow_with_outflows (cash_flow s)
              (spread_Outflows (outflows (cash_flow s)) p))).

Definition default_EssentialExpenses : EssentialExpenses :=
  {| house_rent := 0; maintenance := 0; property_tax := 0; utilities := 0;
     groceries := 0; transportation := 0; medical_expenses := 0;
     children_school_fees := 0; insurance_premiums := 0; ess_other := 0 |}.

Definition default_LifestyleExpenses : LifestyleExpenses :=
  {| maid_expense := 0; shopping := 0; travel := 0;
     dining_entertainment := 0; life_other := 0 |}.

(** [a || b] for an optional object: every object is truthy. *)
Definition or_default {A : Type} (a : option A) (b : A) : A :=
  match a with Some v => v | None => b end.

Definition updateEssentialDetails (s : FullState)
  (details : PartialEssentialExpenses) : FullState :=
  let currentDetails :=
    or_default (essential_details (outflows (cash_flow s)))
      default_EssentialExpenses in
  let newDetails := spread_EssentialExpenses currentDetails details in
  let essential' :=
    reduce (fun a b => a + b) (Object_values_Essential newDetails) 0 in
  let o := outflows (cash_flow s) in
  set s (key_cash_flow
           (CashFlow_with_outflows (cash_flow s)
              {| essential := essential';
                 lifestyle := lifestyle o;
                 essential_details := Some newDetails;
                 lifestyle_details := lifestyle_details o;
                 investment_details := investment_details o;
                 linked_emis := linked_emis o;
                 linked_investments := linked_investments o |})).

Definition updateLifestyleDetails (s : FullState)
  (details : PartialLifestyleExpenses) : FullState :=
  let currentDetails :=
    or_default (lifestyle_details (outflows (cash_flow s)))
      default_LifestyleExpenses in
  let newDetails := spread_LifestyleExpenses currentDetails details in
  let lifestyle' :=
    reduce (fun a b => a + b) (Object_values_Lifestyle newDetails) 0 in
  let o := outflows (cash_flow s) in
  set s (key_cash_flow
           (CashFlow_with_outflows (cash_flow s)
              {| essential := essential o;
                 lifestyle := lifestyle';
                 essential_details := essential_details o;
                 lifestyle_details := Some newDetails;
                 investment_details := investment_details o;
                 linked_emis := linked_emis o;
                 linked_investments := linked_investments o |})).

(** *** Assumptions, payload, reset, analysis results *)

Definition updateAssumptions (s : FullState) (p : PartialAssumptions)
  : FullState :=
  set s (key_assumptions (spread_Assumptions (assumptions s) p)).

Record Payload := {
  payload_user_profile : UserProfile;
  payload_goals : list Goal;
  payload_assets : Assets;
  payload_liabilities : list Liability;
  payload_cash_flow : CashFlow;
  payload_assumptions : Assumptions }.

Definition getPayload (s : FullState) : Payload :=
  {| payload_user_profile := user_profile s;
     payload_goals := goals s;
     payload_assets := assets s;
     payload_liabilities := liabilities s;
     payload_cash_flow := cash_flow s;
     payload_assumptions := assumptions s |}.

(** [set(initialState)]: every key of [initialState] is written. *)
Definition reset (s : FullState) : FullState :=
  set s {| ps_user_profile := Some (user_profile initialState);
           ps_goals := Some (goals initialState);
           ps_assets := Some (assets initialState);
           ps_liabilities := Some (liabilities initialState);
           ps_cash_flow := Some (cash_flow initialState);
           ps_assumptions := Some (assumptions initialState);
           ps_analysisResults := Some (analysisResults initialState) |}.

Definition setAnalysisResults (s : FullState)
  (results : option AnalysisResults) : FullState :=
  set s (key_analysisResults results).

(** ** The public operations as a transition system *)

Inductive Action :=
| A_setProfile (profile : UserProfile)
| A_updatePrimaryUser (p : PartialPrimaryUser)
| A_setSpouse (sp : option Spouse)
| A_addFamilyMember (member : FamilyMember) (fresh : string)
| A_removeFamilyMember (id : string)
| A_addGoal (goal : Goal) (fresh : string)
| A_updateGoal (id : string) (updates : PartialGoal)
| A_removeGoal (id : string)
| A_addRealEstate (asset : RealEstateAsset) (fresh : string)
| A_removeRealEstate (id : string)
| A_addBankAccount (account : BankAccount) (fresh : string)
| A_removeBankAccount (id : string)
| A_addInvestment (investment : InvestmentAsset) (fresh : string)
| A_removeInvestment (id : string)
| A_addInsurancePolicy (policy : InsurancePolicy) (fresh : string)
| A_removeInsurancePolicy (id : string)
| A_updateLiquidCash (amount : number)
| A_addLiability (liability : Liability) (fresh : string)
| A_removeLiability (id : string)
| A_updateCashFlow (newCashFlow : PartialCashFlow)
| A_updateInflows (p : PartialInflows)
| A_updateOutflows (p : PartialOutflows)
| A_updateEssentialDetails (details : PartialEssentialExpenses)
| A_updateLifestyleDetails (details : PartialLifestyleExpenses)
| A_updateAssumptions (p : PartialAssumptions)
| A_recalculateLinkedValues
| A_getPayload
| A_reset
| A_setAnalysisResults (results : option AnalysisResults).

Definition step (s : FullState) (a : Action) : FullState :=
  match a with
  | A_setProfile profile => setProfile s profile
  | A_updatePrimaryUser p => updatePrimaryUser s p
  | A_setSpouse sp => setSpouse s sp
  | A_addFamilyMember member fresh => addFamilyMember s member fresh
  | A_removeFamilyMember id => removeFamilyMember s id
  | A_addGoal goal fresh => addGoal s goal fresh
  | A_updateGoal id updates => updateGoal s id updates
  | A_removeGoal id => removeGoal s id
  | A_addRealEstate asset fresh => addRealEstate s asset fresh
  | A_removeRealEstate id => removeRealEstate s id
  | A_addBankAccount account fresh => addBankAccount s account fresh
  | A_removeBankAccount id => removeBankAccount s id
  | A_addInvestment investment fresh => addInvestment s investment fresh
  | A_removeInvestment id => removeInvestment s id
  | A_addInsurancePolicy policy fresh => addInsurancePolicy s policy fresh
  | A_removeInsurancePolicy id => removeInsurancePolicy s id
  | A_updateLiquidCash amount => updateLiquidCash s amount
  | A_addLiability liability fresh => addLiability s liability fresh
  | A_removeLiability id => removeLiability s id
  | A_updateCashFlow newCashFlow => updateCashFlow s newCashFlow
  | A_updateInflows p => updateInflows s p
  | A_updateOutflows p => updateOutflows s p
  | A_updateEssentialDetails details => updateEssentialDetails s details
  | A_updateLifestyleDetails details => updateLifestyleDetails s details
  | A_updateAssumptions p => updateAssumptions s p
  | A_recalculateLinkedValues => recalculateLinkedValues s
  | A_getPayload => s
  | A_reset => reset s
  | A_setAnalysisResults results => setAnalysisResults s results
  end.

(** The state after a sequence of calls, oldest first. *)
Definition run (s : FullState) (acts : list Action) : FullState :=
  fold_left step acts s.

(** A state of the store is reachable when some sequence of calls leads to
    it from the initial state. *)
Definition reachable (s : FullState) : Prop :=
  exists acts, s = run initialState acts.

(** The linkage between the tables and the two derived cash-flow fields. *)
Definition linked_in_sync (s : FullState) : Prop :=
  linked_emis (outflows (cash_flow s)) = totalEmi s /\
  linked_investments (outflows (cash_flow s)) = totalSip s.

(** The calls that hand the store a value for a linked field: an
    [updateOutflows] whose argument has a [linked_emis] or
    [linked_investments] property, and an [updateCashFlow] whose argument
    has an [outflows] property. *)
Definition writes_linked_fields (a : Action) : bool :=
  match a with
  | A_updateOutflows p =>
      match po_linked_emis p, po_linked_investments p with
      | None, None => false
      | _, _ => true
      end
  | A_updateCashFlow p =>
      match pc_outflows p with
      | None => false
      | Some _ => true
      end
  | _ => false
  end.
(** The calls that end by re-deriving both linked fields from the tables:
    [recalculateLinkedValues] itself, the four table actions that call
    it, and [reset]. *)
Definition resyncs (a : Action) : bool :=
  match a with
  | A_recalculateLinkedValues
  | A_addInvestment _ _ | A_removeInvestment _
  | A_addLiability _ _ | A_removeLiability _
  | A_reset => true
  | _ => false
  end.

(** ** The sums of the specification *)

(** Σ x.f over a table, as the specification writes it. *)
Definition Sigma {A : Type} (f : A -> number) (xs : list A) : number :=
  fold_right (fun x acc => f x + acc) 0 xs.

(** The values that a partial details object supplies, absent properties
    left out. *)
Definition supplied (fields : list (option number)) : list number :=
  flat_map (fun o => match o with Some v => [v] | None => [] end) fields.

Definition supplied_Essential (d : PartialEssentialExpenses) : list number :=
  supplied [ pe_house_rent d; pe_maintenance d; pe_property_tax d;
             pe_utilities d; pe_groceries d; pe_transportation d;
             pe_medical_expenses d; pe_children_school_fees d;
             pe_insurance_premiums d; pe_other d ].

Definition supplied_Lifestyle (d : PartialLifestyleExpenses) : list number :=
  supplied [ pl_maid_expense d; pl_shopping d; pl_travel d;
             pl_dining_entertainment d; pl_other d ].

(** One field of the merged details, as the specification words the
    merge: the value that the call supplies; else the value stored
    before; else, with no details stored, the default 0. *)
Definition merged_field (supplied_value stored_value : option number)
  : number :=
  match supplied_value, stored_value with
  | Some v, _ => v
  | None, Some v => v
  | None, None => 0
  end.

End Store.


(* ================================================================== *)
(** * The calculation formulas of the TRS *)
(* ================================================================== *)

Module TRS.

Local Open Scope R_scope.

(** ** Python arithmetic

    In this module a [float] is a real number and an [int] an integer; a
    computation that raises (here only [ZeroDivisionError]) or leaves the
    floats is [None]. *)

Definition bind {A B : Type} (m : option A) (k : A -> option B) : option B :=
  match m with
  | Some a => k a
  | None => None
  end.

Notation "x <- m ;; k" := (bind m (fun x => k))
  (at level 61, m at next level, right associativity).

(** [x ** y] on floats: a positive base takes every exponent; zero raised
    to a negative power raises; a negative base takes integral exponents
    only (any other exponent yields a [complex]). *)
Definition float_pow (x y : R) : option R :=
  if Rlt_dec 0 x then Some (Rpower x y)
  else if Req_dec_T x 0 then
    if Rlt_dec y 0 then None
    else if Req_dec_T y 0 then Some 1
    else Some 0
  else
    if Req_dec_T (frac_part y) 0 then Some (powerRZ x (Int_part y))
    else None.

(** A [datetime.date], as its proleptic Gregorian ordinal
    ([date.toordinal()]); the difference of two dates is a number of
    days. *)
Definition date := Z.

(** ** 3.1 Time-based calculations *)

(** [today] stands for the one reading of [date.today()]. *)
Definition calculate_age (today dob : date) : R :=
  let days_lived := (today - dob)%Z in
  IZR days_lived / 365.25.

Definition YearsToRetire (RetirementAge CurrentAge : R) : R :=
  RetirementAge - CurrentAge.

Definition MonthsToRetire (YearsToRetire : R) : R := YearsToRetire * 12.

Definition YearsToGoal_age (TargetAge CurrentAge : R) : R :=
  TargetAge - CurrentAge.

Definition YearsToGoal_date (today TargetDate : date) : R :=
  IZR (TargetDate - today) / 365.25.

(** ** 3.2 Future value *)


(** ** 3.5 Cash flow *)

Record MonthlyInflow := {
  PrimaryIncome : R;
  SpouseIncome : R;
  RentalIncome : R;
  AdditionalIncome : R;
  OtherIncome : R }.

Record EssentialItems := {
  HouseRent : R;
  Maintenance : R;
  PropertyTax : R;
  Utilities : R;
  Groceries : R;
  Transportation : R;
  MedicalExpenses : R;
  ChildrenSchoolFees : R;
  InsurancePremiums : R;
  EssentialOther : R }.

Record LifestyleItems := {
  MaidExpense : R;
  Shopping : R;
  Travel : R;
  DiningEntertainment : R;
  LifestyleOther : R }.

Record InvestmentItems := {
  MutualFundSIP : R;
  StockSIP : R;
  RecurringDeposit : R;
  ChitFund : R;
  InvestmentOther : R }.

(** One month of cash flow; [Liabilities_EMI] is the EMI column of the
    liabilities table. *)
Record CashFlowSheet := {
  Inflow : MonthlyInflow;
  Essential : EssentialItems;
  Lifestyle : LifestyleItems;
  Investments : InvestmentItems;
  Liabilities_EMI : list R }.

Definition SUM (xs : list R) : R := fold_right Rplus 0 xs.

Definition TotalInflow (c : CashFlowSheet) : R :=
  let i := Inflow c in
  PrimaryIncome i + SpouseIncome i + RentalIncome i + AdditionalIncome i
  + OtherIncome i.

Definition TotalEssential (c : CashFlowSheet) : R :=
  let e := Essential c in
  HouseRent e + Maintenance e + PropertyTax e + Utilities e + Groceries e
  + Transportation e + MedicalExpenses e + ChildrenSchoolFees e
  + InsurancePremiums e + EssentialOther e.

Definition TotalLifestyle (c : CashFlowSheet) : R :=
  let l := Lifestyle c in
  MaidExpense l + Shopping l + Travel l + DiningEntertainment l
  + LifestyleOther l.

Definition TotalInvestments (c : CashFlowSheet) : R :=
  let v := Investments c in
  MutualFundSIP v + StockSIP v + RecurringDeposit v + ChitFund v
  + InvestmentOther v.

Definition TotalEMIs (c : CashFlowSheet) : R := SUM (Liabilities_EMI c).

Definition TotalOutflows (c : CashFlowSheet) : R :=
  TotalEssential c + TotalLifestyle c + TotalEMIs c + TotalInvestments c.

Definition Leftover (c : CashFlowSheet) : R :=
  TotalInflow c - TotalOutflows c.

(** ** 3.6 Financial ratios *)

Definition SavingsRate (c : CashFlowSheet) : R :=
  Leftover c / TotalInflow c * 100.

Definition EMIBurden (c : CashFlowSheet) : R :=
  TotalEMIs c / TotalInflow c * 100.

Definition InvestmentRate (c : CashFlowSheet) : R :=
  TotalInvestments c / TotalInflow c * 100.

Definition EssentialExpensePct (c : CashFlowSheet) : R :=
  TotalEssential c / TotalInflow c * 100.

Definition LifestyleExpensePct (c : CashFlowSheet) : R :=
  TotalLifestyle c / TotalInflow c * 100.

(** ** 5. Validation rules used below *)

(** 5.1 Cash flow: total inflow > 0. *)
Definition valid_total_inflow (c : CashFlowSheet) : Prop := 0 < TotalInflow c.

End TRS.

(* ================================================================== *)
(** * Python floats *)
(* ================================================================== *)

(** The reference implementations of the retirement corpus and of the
    extra SIP subtract two nearly equal numbers, so what they return can
    turn on one rounding.  They are run on the floats that Python has:
    IEEE 754 binary64, with the operations of [SpecFloat]. *)
Module PyFloat.

Local Open Scope Z_scope.

(** 53 bits of precision, exponents below 1024. *)
Definition prec : Z := 53.
Definition emax : Z := 1024.

(** A float is a [spec_float]; the binary64 numbers are those that
    [valid_binary prec emax] accepts. *)
Definition float := spec_float.

(** The exceptions that float arithmetic raises. *)
Inductive Exception := ZeroDivisionError | OverflowError.

Inductive Result (A : Type) :=
| Value (a : A)
| Raise (e : Exception).

Arguments Value {A} a.
Arguments Raise {A} e.

Definition bind {A B : Type} (m : Result A) (k : A -> Result B) : Result B :=
  match m with
  | Value a => k a
  | Raise e => Raise e
  end.

Notation "x <- m ;; k" := (bind m (fun x => k))
  (at level 61, m at next level, right associativity).

(** [0.0], [1.0] and [12.0] *)
Definition zero : float := S754_zero false.
Definition one : float := S754_finite false 4503599627370496 (-52).
Definition twelve : float := S754_finite false 6755399441055744 (-49).

(** What an [int] becomes next to a [float]: the nearest float, ties to
    even; an [int] beyond the largest float raises. *)
Definition float_of_int (n : Z) : Result float :=
  match binary_normalize prec emax n 0 false with
  | S754_infinity _ => Raise OverflowError
  | x => Value x
  end.

(** [a + b], [a - b], [a * b]: the rounded result, which may be an
    infinity or a NaN; none of them raises. *)
Definition add : float -> float -> float := SFadd prec emax.
Definition sub : float -> float -> float := SFsub prec emax.
Definition mul : float -> float -> float := SFmul prec emax.

(** [a / b]: a divisor equal to zero raises, of either sign. *)
Definition truediv (a b : float) : Result float :=
  if SFeqb b zero then Raise ZeroDivisionError
  else Value (SFdiv prec emax a b).

Definition is_infinity (x : float) : bool :=
  match x with
  | S754_infinity _ => true
  | _ => false
  end.


(** Whether [w] is an odd integer, [fmod(fabs(w), 2.0) == 1.0]. *)
Definition is_odd_integer (w : float) : bool :=
  match w with
  | S754_finite _ m e =>
      match e with
      | Z0 => Z.odd (Zpos m)
      | Zpos _ => false
      | Zneg k =>
          (Zpos m mod 2 ^ Zpos k =? 0) && Z.odd (Zpos m / 2 ^ Zpos k)
      end
  | _ => false
  end.

(** The number that a float stands for; an infinity and a NaN stand for
    none. *)
Definition to_Q (x : float) : option Q :=
  match x with
  | S754_zero _ => Some 0%Q
  | S754_finite s m e =>
      Some ((if s then - inject_Z (Zpos m) else inject_Z (Zpos m))
            * Qpower 2 e)%Q
  | _ => None
  end.

(** [x] is a binary64 number, and the number is [q]. *)
Definition stands_for (x : float) (q : Q) : Prop :=
  valid_binary prec emax x = true /\
  match to_Q x with
  | Some v => (v == q)%Q
  | None => False
  end.

Section Libm.

(** [pow] of the C library, for a positive finite base other than 1 and a
    finite exponent other than 0.  Its rounding is the library's own, so
    it is left open; it reports a range error by an infinite result. *)
Variable libm_pow : float -> float -> float.

(** [v ** n] for a [float] and an [int].  The exponent is converted first.
    An exponent of zero gives 1.0 and a NaN base gives NaN; an infinite
    base gives an infinity or a zero; a zero base raises for a negative
    exponent; a negative base is raised in absolute value and the sign
    restored for an odd exponent; a base of absolute value 1.0 gives 1.0
    without a call to the C library; and a range error of the library is
    an [OverflowError]. *)
Definition float_pow (v : float) (n : Z) : Result float :=
  w <- float_of_int n ;;
  if SFeqb w zero then Value one
  else
    match v with
    | S754_nan => Value v
    | S754_infinity s =>
        if SFltb zero w then
          Value (if is_odd_integer w then v else SFabs v)
        else
          Value (if is_odd_integer w then S754_zero s else zero)
    | S754_zero _ =>
        if SFltb w zero then Raise ZeroDivisionError
        else Value (if is_odd_integer w then v else zero)
    | S754_finite s _ _ =>
        let negate_result := s && is_odd_integer w in
        let iv := SFabs v in
        if SFeqb iv one then
          Value (if negate_result then SFopp one else one)
        else
          let ix := libm_pow iv w in
          if is_infinity ix then Raise OverflowError
          else Value (if negate_result then SFopp ix else ix)
    end.

End Libm.

End PyFloat.

(* ================================================================== *)
(** * The reference implementations of TRS 3.3 and 3.4 *)
(* ================================================================== *)

Module TRSFloat.

Import PyFloat.
Local Open Scope Z_scope.

Section Libm.

Variable libm_pow : float -> float -> float.

(** ** 3.3 Retirement corpus *)


(** ** 3.4 SIP requirement *)

(** The first [return] hands back the [int] 0, which is [zero] here. *)
Definition calculate_extra_sip_required
  (retirement_gap : float) (months_to_retire : Z) (annual_roi : float)
  : Result float :=
  if SFleb retirement_gap zero || (months_to_retire <=? 0) then Value zero
  else
    monthly_rate <- truediv annual_roi twelve ;;
    if SFltb zero monthly_rate then
      p <- float_pow libm_pow (add one monthly_rate) months_to_retire ;;
      truediv (mul retirement_gap monthly_rate)
              (mul (sub p one) (add one monthly_rate))
    else
      n <- float_of_int months_to_retire ;;
      truediv retirement_gap n.

End Libm.

(** ** The expressions of the specification, on exact rationals *)

Local Open Scope Q_scope.


(** The payment of an annuity-due,
    [(G * r) / (((1+r)^n - 1) * (1+r))]. *)
Definition annuity_due_pmt (G : Q) (n : Z) (r : Q) : Q :=
  (G * r) / ((Qpower (1 + r) n - 1) * (1 + r)).

End TRSFloat.

(* ================================================================== *)
(** * The family form: [calculateAge] *)
(* ================================================================== *)

Module FamilyDetailsForm.

Local Open Scope Z_scope.

(** The result type [number | null]; the number is an integer or [NaN]. *)
Inductive AgeResult := null | NaN | Num (n : Z).

(** [365.25 * 24 * 60 * 60 * 1000] *)
Definition ms_per_year : Z := 31557600000.

Section Clock.

(** [new Date(dob).getTime()], in milliseconds since the epoch; [None]
    is the [NaN] time of an invalid date. *)
Variable Date_getTime : string -> option Z.

(** [new Date().getTime()] *)
Variable today_getTime : Z.

Definition calculateAge (dob : string) : AgeResult :=
  if String.eqb dob EmptyString then null
  else
    match Date_getTime dob with
    | None => NaN
    | Some birthDate => Num ((today_getTime - birthDate) / ms_per_year)
    end.

End Clock.

(** Milliseconds in a day, to compare with day counts. *)
Definition ms_per_day : Z := 86400000.

End FamilyDetailsForm.


(* ================================================================== *)
(** * Sample data *)
(* ================================================================== *)

Module Samples.

Import Store.
Local Open Scope Q_scope.
Local Open Scope string_scope.

(** The two loans of the family test profile. *)
Definition home_loan : Liability :=
  {| liab_id := Some "lib-1"; liab_type := Loan_Home;
     total_loan_amount := Some 5000000; outstanding := 3000000;
     emi := 35000; liab_interest_rate := 85 # 10; tenure_months := 180 |}.

Definition car_loan : Liability :=
  {| liab_id := Some "lib-2"; liab_type := Loan_Car;
     total_loan_amount := Some 800000; outstanding := 400000;
     emi := 18000; liab_interest_rate := 9; tenure_months := 48 |}.

Definition mutual_fund : InvestmentAsset :=
  {| inv_id := None; inv_type := Inv_MF; invested_amount := Some 500000;
     current_value := 650000; monthly_sip := 25000;
     inv_start_date := None; inv_end_date := None; inv_remarks := None |}.

Definition no_outflow_keys : PartialOutflows :=
  {| po_essential := None; po_lifestyle := None;
     po_essential_details := None; po_lifestyle_details := None;
     po_investment_details := None;
     po_linked_emis := None; po_linked_investments := None |}.

(** [{ linked_emis: 999 }] *)
Definition only_linked_emis_999 : PartialOutflows :=
  {| po_essential := None; po_lifestyle := None;
     po_essential_details := None; po_lifestyle_details := None;
     po_investment_details := None;
     po_linked_emis := Some 999; po_linked_investments := None |}.

(** [{ essential: 60000 }], the lump-sum mode of the cash-flow form. *)
Definition only_essential_60000 : PartialOutflows :=
  {| po_essential := Some 60000; po_lifestyle := None;
     po_essential_details := None; po_lifestyle_details := None;
     po_investment_details := None;
     po_linked_emis := None; po_linked_investments := None |}.

(** A store whose linked fields hold stale values next to the two loans. *)
Definition stale_store : FullState :=
  {| user_profile := user_profile initialState;
     goals := [];
     assets := assets initialState;
     liabilities := [home_loan; car_loan];
     cash_flow :=
       {| inflows := inflows (cash_flow initialState);
          outflows := {| essential := 60000; lifestyle := 25000;
                         essential_details := None;
                         lifestyle_details := None;
                         investment_details := None;
                         linked_emis := 1; linked_investments := 7 |} |};
     assumptions := assumptions initialState;
     analysisResults := None |}.

(** A session that never hands the store a linked value. *)
Definition tidy_session : list Action :=
  [ A_addLiability home_loan "x1";
    A_addInvestment mutual_fund "x2";
    A_updateOutflows only_essential_60000;
    A_addLiability car_loan "x3";
    A_removeLiability "lib-1" ].

(** A session whose only call sets [linked_emis] by hand. *)
Definition stale_session : list Action :=
  [ A_updateOutflows only_linked_emis_999 ].

(** [{ groceries: 15000, other: 3000 }] *)
Definition groceries_and_other : PartialEssentialExpenses :=
  {| pe_house_rent := None; pe_maintenance := None; pe_property_tax := None;
     pe_utilities := None; pe_groceries := Some 15000;
     pe_transportation := None; pe_medical_expenses := None;
     pe_children_school_fees := None; pe_insurance_premiums := None;
     pe_other := Some 3000 |}.

(** [{ house_rent: 20000, groceries: 12000 }] *)
Definition rent_and_groceries : PartialEssentialExpenses :=
  {| pe_house_rent := Some 20000; pe_maintenance := None;
     pe_property_tax := None; pe_utilities := None;
     pe_groceries := Some 12000; pe_transportation := None;
     pe_medical_expenses := None; pe_children_school_fees := None;
     pe_insurance_premiums := None; pe_other := None |}.

(** [{ travel: 4000 }] *)
Definition only_travel : PartialLifestyleExpenses :=
  {| pl_maid_expense := None; pl_shopping := None; pl_travel := Some 4000;
     pl_dining_entertainment := None; pl_other := None |}.
(** A month in which the outflows exceed the inflow: the leftover is
    negative. *)
Definition overspent_month : TRS.CashFlowSheet :=
  {| TRS.Inflow :=
       {| TRS.PrimaryIncome := 100000; TRS.SpouseIncome := 0;
          TRS.RentalIncome := 0; TRS.AdditionalIncome := 0;
          TRS.OtherIncome := 0 |}%R;
     TRS.Essential :=
       {| TRS.HouseRent := 40000; TRS.Maintenance := 0;
          TRS.PropertyTax := 0; TRS.Utilities := 5000;
          TRS.Groceries := 15000; TRS.Transportation := 0;
          TRS.MedicalExpenses := 0; TRS.ChildrenSchoolFees := 0;
          TRS.InsurancePremiums := 0; TRS.EssentialOther := 0 |}%R;
     TRS.Lifestyle :=
       {| TRS.MaidExpense := 0; TRS.Shopping := 20000; TRS.Travel := 0;
          TRS.DiningEntertainment := 0; TRS.LifestyleOther := 0 |}%R;
     TRS.Investments :=
       {| TRS.MutualFundSIP := 10000; TRS.StockSIP := 0;
          TRS.RecurringDeposit := 0; TRS.ChitFund := 0;
          TRS.InvestmentOther := 0 |}%R;
     TRS.Liabilities_EMI := [35000; 18000]%R |}.
(** 17 January 2026, the date of the TRS, as an ordinal and as a time in
    milliseconds; a birth date one hundred days earlier. *)
Definition day_2026_01_17 : TRS.date := 739633%Z.
Definition day_2025_10_09 : TRS.date := 739533%Z.
Definition time_2026_01_17 : Z := 1768608000000%Z.

(** The floats [1000.0], [2500.0], [2 ** -60], [-(2 ** -60)],
    [12 * 2 ** -60] and [1e-15]. *)
Definition float_1000 : PyFloat.float :=
  S754_finite false 8796093022208000 (-43).
Definition float_2500 : PyFloat.float :=
  S754_finite false 5497558138880000 (-41).
Definition float_12_2_pow_m60 : PyFloat.float :=
  S754_finite false 6755399441055744 (-109).
Definition float_1e_15 : PyFloat.float :=
  S754_finite false 5070602400912918 (-102).

(** A C library whose [pow] answers NaN to everything. *)
Definition no_libm_pow (v w : PyFloat.float) : PyFloat.float := S754_nan.

(** [new Date(dob).getTime()] on the one date string used below. *)
Definition Date_getTime (dob : string) : option Z :=
  if String.eqb dob "2025-10-09" then Some 1759968000000%Z else None.

End Samples.

(* ================================================================== *)
(** * Predicates and merges over the store *)
(* ================================================================== *)

Module StoreLaws.

Import Store.
Local Open Scope Q_scope.

(** [{ ...d1, ...d2 }] on two partial objects. *)
Definition merge_PartialEssential (d1 d2 : PartialEssentialExpenses)
  : PartialEssentialExpenses :=
  {| pe_house_rent := spread_opt (pe_house_rent d1) (pe_house_rent d2);
     pe_maintenance := spread_opt (pe_maintenance d1) (pe_maintenance d2);
     pe_property_tax := spread_opt (pe_property_tax d1) (pe_property_tax d2);
     pe_utilities := spread_opt (pe_utilities d1) (pe_utilities d2);
     pe_groceries := spread_opt (pe_groceries d1) (pe_groceries d2);
     pe_transportation :=
       spread_opt (pe_transportation d1) (pe_transportation d2);
     pe_medical_expenses :=
       spread_opt (pe_medical_expenses d1) (pe_medical_expenses d2);
     pe_children_school_fees :=
       spread_opt (pe_children_school_fees d1) (pe_children_school_fees d2);
     pe_insurance_premiums :=
       spread_opt (pe_insurance_premiums d1) (pe_insurance_premiums d2);
     pe_other := spread_opt (pe_other d1) (pe_other d2) |}.

Definition merge_PartialLifestyle (d1 d2 : PartialLifestyleExpenses)
  : PartialLifestyleExpenses :=
  {| pl_maid_expense := spread_opt (pl_maid_expense d1) (pl_maid_expense d2);
     pl_shopping := spread_opt (pl_shopping d1) (pl_shopping d2);
     pl_travel := spread_opt (pl_travel d1) (pl_travel d2);
     pl_dining_entertainment :=
       spread_opt (pl_dining_entertainment d1) (pl_dining_entertainment d2);
     pl_other := spread_opt (pl_other d1) (pl_other d2) |}.

(** Every entry of the five tables carries an [id]. *)
Definition tables_have_ids (s : FullState) : Prop :=
  Forall (fun l => liab_id l <> None) (liabilities s) /\
  Forall (fun a => re_id a <> None) (real_estate (assets s)) /\
  Forall (fun a => ba_id a <> None) (bank_accounts (assets s)) /\
  Forall (fun a => inv_id a <> None) (investments (assets s)) /\
  Forall (fun a => pol_id a <> None) (insurance_policies (assets s)).

(** The two expense totals agree with the itemised details, where details
    are stored. *)
Definition itemised_in_sync (s : FullState) : Prop :=
  let o := outflows (cash_flow s) in
  match essential_details o with
  | Some m =>
      essential o = reduce (fun a b => a + b) (Object_values_Essential m) 0
  | None => True
  end /\
  match lifestyle_details o with
  | Some m =>
      lifestyle o = reduce (fun a b => a + b) (Object_values_Lifestyle m) 0
  | None => True
  end.

(** The calls that hand the store an expense total or a details object
    directly: an [updateOutflows] whose argument has one of the four
    properties, and an [updateCashFlow] whose argument has [outflows]. *)
Definition writes_expense_fields (a : Action) : bool :=
  match a with
  | A_updateOutflows p =>
      match po_essential p, po_lifestyle p,
            po_essential_details p, po_lifestyle_details p with
      | None, None, None, None => false
      | _, _, _, _ => true
      end
  | A_updateCashFlow p =>
      match pc_outflows p with
      | None => false
      | Some _ => true
      end
  | _ => false
  end.

(** The update that changes nothing: [{}]. *)
Definition empty_PartialGoal : PartialGoal :=
  {| pg_id := None; pg_person_name := None; pg_name := None;
     pg_current_cost := None; pg_target_type := None;
     pg_target_value := None |}.

End StoreLaws.

(* ================================================================== *)
(** * The forms and pages that drive the store *)
(* ================================================================== *)

(** JavaScript truthiness and [||] on the values the forms handle. *)
Module Js.

Import Store.
Local Open Scope Q_scope.

(** A number is falsy when it is zero. *)
Definition truthy (x : number) : bool := negb (Qeq_bool x 0).

(** A [number | undefined] is falsy when it is [undefined] or zero. *)
Definition truthy_opt (o : option number) : bool :=
  match o with
  | Some x => truthy x
  | None => false
  end.

(** [a || b] for [a: number | undefined] and [b: number]. *)
Definition num_or (a : option number) (b : number) : number :=
  match a with
  | Some x => if truthy x then x else b
  | None => b
  end.

(** [x > 0] *)
Definition positive (x : number) : bool := negb (Qle_bool x 0).

(** A string is falsy when it is empty. *)
Definition nonempty (s : string) : bool := negb (String.eqb s EmptyString).


(** The body of a JSON response is falsy when it is [false], [0] or the
    empty string; every object and array is truthy. *)
Definition truthy_results (r : AnalysisResults) : bool :=
  match r with
  | Res_boolean b => b
  | Res_number x => truthy x
  | Res_string text => nonempty text
  | Res_object _ => true
  end.

(** [analysisResults] as a condition: [null] is falsy too. *)
Definition truthy_cached (o : option AnalysisResults) : bool :=
  match o with
  | Some r => truthy_results r
  | None => false
  end.

(** [String(n)] and [n.toString()] for an integer [n]. *)
Definition Number_toString (n : Z) : string :=
  NilZero.string_of_int (Z.to_int n).

End Js.

(** [LiabilityForm]: the loan form. *)
Module LiabilityForm.

Import Store Js.
Local Open Scope Q_scope.

(** The form state [data: Partial<Liability>].  It always holds a [type]:
    it starts as ['Home'] and the select assigns one of its five values,
    ['Education'] among them.  The form never gives the loan an [id]. *)
Record LoanData := {
  d_type : LiabilityType;
  d_total_loan_amount : option number;
  d_outstanding : option number;
  d_emi : option number;
  d_interest_rate : option number;
  d_tenure_months : option number }.

(** The state that [setData] restores after a loan is added. *)
Definition blank : LoanData :=
  {| d_type := Loan_Home; d_total_loan_amount := Some 0;
     d_outstanding := Some 0; d_emi := Some 0;
     d_interest_rate := Some (85 # 10); d_tenure_months := Some 120 |}.

(** [handleAddLoan]: the new store and the new form state. *)
Definition handleAddLoan (s : FullState) (data : LoanData) (fresh : string)
  : FullState * LoanData :=
  match d_outstanding data, d_emi data with
  | Some out, Some e =>
      if truthy out && truthy e then
        (addLiability s
           {| liab_id := None;
              liab_type := d_type data;
              total_loan_amount := Some (num_or (d_total_loan_amount data) out);
              outstanding := out;
              emi := e;
              liab_interest_rate := num_or (d_interest_rate data) (85 # 10);
              tenure_months := num_or (d_tenure_months data) 120 |}
           fresh,
         blank)
      else (s, data)
  | _, _ => (s, data)
  end.

End LiabilityForm.

(** [AssetsForm]: the four add handlers. *)
Module AssetsForm.

Import Store Js.
Local Open Scope Q_scope.



Record InvestmentData := {
  i_type : option InvestmentType;
  i_invested_amount : option number;
  i_current_value : option number;
  i_monthly_sip : option number;
  i_start_date : option string;
  i_end_date : option string;
  i_remarks : option string }.




Definition handleAddInvestment (s : FullState) (d : InvestmentData)
  (fresh : string) : FullState :=
  match i_type d, i_current_value d with
  | Some ty, Some value =>
      addInvestment s
        {| inv_id := None; inv_type := ty;
           invested_amount := i_invested_amount d;
           current_value := value;
           monthly_sip := num_or (i_monthly_sip d) 0;
           inv_start_date := i_start_date d;
           inv_end_date := i_end_date d;
           inv_remarks := i_remarks d |}
        fresh
  | _, _ => s
  end.


End AssetsForm.

(** [GoalForm]: adding a goal. *)
Module GoalForm.

Import Store Js.
Local Open Scope Q_scope.

(** The form state [newGoal]. *)
Record NewGoal := {
  n_person_name : string;
  n_name : string;
  n_current_cost : number;
  n_target_type : TargetType;
  n_target_value : string }.

Definition blank : NewGoal :=
  {| n_person_name := EmptyString; n_name := EmptyString;
     n_current_cost := 0; n_target_type := AGE;
     n_target_value := EmptyString |}.

Record Template := {
  t_name : string;
  defaultCost : number;
  targetAge : Z }.

(** [applyTemplate] *)
Definition applyTemplate (newGoal : NewGoal) (template : Template) : NewGoal :=
  {| n_person_name := n_person_name newGoal;
     n_name := t_name template;
     n_current_cost := defaultCost template;
     n_target_type := if (0 <? targetAge template)%Z then AGE else DATE;
     n_target_value :=
       if (0 <? targetAge template)%Z
       then Number_toString (targetAge template)
       else EmptyString |}.

(** [handleAddGoal]; [now] is the value of [Date.now()] and [fresh] the
    identifier that [generateId()] would draw inside [addGoal]. *)
Definition handleAddGoal (s : FullState) (newGoal : NewGoal) (now : Z)
  (fresh : string) : FullState * NewGoal :=
  if nonempty (n_name newGoal)
     && positive (n_current_cost newGoal)
     && nonempty (n_target_value newGoal)
  then
    (addGoal s
       {| goal_id := Number_toString now;
          goal_person_name :=
            if nonempty (n_person_name newGoal)
            then Some (n_person_name newGoal) else None;
          goal_name :=
            if nonempty (n_person_name newGoal)
            then (n_person_name newGoal ++ " " ++ n_name newGoal)%string
            else n_name newGoal;
          current_cost := n_current_cost newGoal;
          target_type := n_target_type newGoal;
          target_value := TV_string (n_target_value newGoal) |}
       fresh,
     blank)
  else (s, newGoal).

End GoalForm.

(** [CashFlowForm]: submitting income, expenses and assumptions. *)
Module CashFlowForm.

Import Store Js.
Local Open Scope Q_scope.

(** The four income fields of the form (it has none for [other]). *)
Record InflowFields := {
  f_primary_income : number;
  f_spouse_income : number;
  f_rental_income : number;
  f_additional_income : number }.

Record SimpleTotals := {
  st_essential : number;
  st_lifestyle : number }.

(** The three rates of the form (it has none for [child_inflation]). *)
Record LocalAssumptions := {
  la_inflation : number;
  la_pre_retire_roi : number;
  la_post_retire_roi : number }.

(** The state of the form when it is submitted. *)
Record FormState := {
  form_inflows : InflowFields;
  form_essential : EssentialExpenses;
  form_lifestyle : LifestyleExpenses;
  simpleTotals : SimpleTotals;
  showEssentialDetails : bool;
  showLifestyleDetails : bool;
  localAssumptions : LocalAssumptions }.

(** The objects of the form as the [Partial] arguments of the store. *)
Definition inflows_arg (i : InflowFields) : PartialInflows :=
  {| pi_primary_income := Some (f_primary_income i);
     pi_spouse_income := Some (f_spouse_income i);
     pi_rental_income := Some (f_rental_income i);
     pi_additional_income := Some (f_additional_income i);
     pi_other := None |}.

Definition essential_arg (e : EssentialExpenses) : PartialEssentialExpenses :=
  {| pe_house_rent := Some (house_rent e);
     pe_maintenance := Some (maintenance e);
     pe_property_tax := Some (property_tax e);
     pe_utilities := Some (utilities e);
     pe_groceries := Some (groceries e);
     pe_transportation := Some (transportation e);
     pe_medical_expenses := Some (medical_expenses e);
     pe_children_school_fees := Some (children_school_fees e);
     pe_insurance_premiums := Some (insurance_premiums e);
     pe_other := Some (ess_other e) |}.

Definition lifestyle_arg (l : LifestyleExpenses) : PartialLifestyleExpenses :=
  {| pl_maid_expense := Some (maid_expense l);
     pl_shopping := Some (shopping l);
     pl_travel := Some (travel l);
     pl_dining_entertainment := Some (dining_entertainment l);
     pl_other := Some (life_other l) |}.

Definition assumptions_arg (a : LocalAssumptions) : PartialAssumptions :=
  {| pa_inflation := Some (la_inflation a);
     pa_child_inflation := None;
     pa_pre_retire_roi := Some (la_pre_retire_roi a);
     pa_post_retire_roi := Some (la_post_retire_roi a) |}.

(** [{ essential: v }] and [{ lifestyle: v }] *)
Definition only_essential (v : number) : PartialOutflows :=
  {| po_essential := Some v; po_lifestyle := None;
     po_essential_details := None; po_lifestyle_details := None;
     po_investment_details := None;
     po_linked_emis := None; po_linked_investments := None |}.

Definition only_lifestyle (v : number) : PartialOutflows :=
  {| po_essential := None; po_lifestyle := Some v;
     po_essential_details := None; po_lifestyle_details := None;
     po_investment_details := None;
     po_linked_emis := None; po_linked_investments := None |}.

(** The totals that the form displays. *)
Definition totalInflow (f : FormState) : number :=
  f_primary_income (form_inflows f) + f_spouse_income (form_inflows f)
  + f_rental_income (form_inflows f) + f_additional_income (form_inflows f).

Definition totalEssential (f : FormState) : number :=
  if showEssentialDetails f
  then reduce (fun a b => a + b) (Object_values_Essential (form_essential f)) 0
  else st_essential (simpleTotals f).

Definition totalLifestyle (f : FormState) : number :=
  if showLifestyleDetails f
  then reduce (fun a b => a + b) (Object_values_Lifestyle (form_lifestyle f)) 0
  else st_lifestyle (simpleTotals f).

Definition totalExpenses (f : FormState) : number :=
  totalEssential f + totalLifestyle f.

Definition leftover (f : FormState) : number :=
  totalInflow f - totalExpenses f.

(** The store calls of [handleSubmit], in order. *)
Definition handleSubmit (s : FullState) (f : FormState) : FullState :=
  let s1 := updateInflows s (inflows_arg (form_inflows f)) in
  let s2 :=
    if showEssentialDetails f
    then updateEssentialDetails s1 (essential_arg (form_essential f))
    else updateOutflows s1 (only_essential (st_essential (simpleTotals f))) in
  let s3 :=
    if showLifestyleDetails f
    then updateLifestyleDetails s2 (lifestyle_arg (form_lifestyle f))
    else updateOutflows s2 (only_lifestyle (st_lifestyle (simpleTotals f))) in
  updateAssumptions s3 (assumptions_arg (localAssumptions f)).

End CashFlowForm.

(** The test-data page: [handleLoadData]. *)
Module LoadTestData.

Import Store.
Local Open Scope Q_scope.

(** [xs.forEach(x => add(x))], where the [k]-th call of an add action on
    this page may draw the identifier [fresh k]; the result is the store
    and the number of add calls made so far. *)
Definition forEach_add {A : Type}
  (add : FullState -> A -> string -> FullState)
  (xs : list A) (fresh : nat -> string) (sn : FullState * nat)
  : FullState * nat :=
  fold_left (fun sn x => (add (fst sn) x (fresh (snd sn)), S (snd sn)))
    xs sn.

(** A whole object handed to an action that takes a [Partial]. *)
Definition Inflows_arg (i : Inflows) : PartialInflows :=
  {| pi_primary_income := Some (primary_income i);
     pi_spouse_income := Some (spouse_income i);
     pi_rental_income := Some (rental_income i);
     pi_additional_income := Some (additional_income i);
     pi_other := Some (in_other i) |}.

Definition Outflows_arg (o : Outflows) : PartialOutflows :=
  {| po_essential := Some (essential o);
     po_lifestyle := Some (lifestyle o);
     po_essential_details := essential_details o;
     po_lifestyle_details := lifestyle_details o;
     po_investment_details := investment_details o;
     po_linked_emis := Some (linked_emis o);
     po_linked_investments := Some (linked_investments o) |}.

Definition Assumptions_arg (a : Assumptions) : PartialAssumptions :=
  {| pa_inflation := Some (inflation a);
     pa_child_inflation := Some (child_inflation a);
     pa_pre_retire_roi := Some (pre_retire_roi a);
     pa_post_retire_roi := Some (post_retire_roi a) |}.

(** The store calls of [handleLoadData] for the data of one profile,
    which has the six sections of a payload. *)
Definition handleLoadData (s : FullState) (data : Payload)
  (fresh : nat -> string) : FullState :=
  let up := payload_user_profile data in
  let a := payload_assets data in
  let o := outflows (payload_cash_flow data) in
  let s := reset s in
  let s := setProfile s up in
  let s := match spouse up with
           | Some sp => setSpouse s (Some sp)
           | None => s
           end in
  let sn := forEach_add addGoal (payload_goals data) fresh (s, O) in
  let sn := forEach_add addRealEstate (real_estate a) fresh sn in
  let sn := forEach_add addBankAccount (bank_accounts a) fresh sn in
  let sn := forEach_add addInvestment (investments a) fresh sn in
  let sn := forEach_add addInsurancePolicy (insurance_policies a) fresh sn in
  let s := updateLiquidCash (fst sn) (liquid_cash a) in
  let sn := forEach_add addLiability (payload_liabilities data) fresh
              (s, snd sn) in
  let s := updateInflows (fst sn)
             (Inflows_arg (inflows (payload_cash_flow data))) in
  let s := updateOutflows s (Outflows_arg o) in
  let s := match essential_details o with
           | Some d => updateEssentialDetails s (CashFlowForm.essential_arg d)
           | None => s
           end in
  let s := match lifestyle_details o with
           | Some d => updateLifestyleDetails s (CashFlowForm.lifestyle_arg d)
           | None => s
           end in
  let s := updateAssumptions s (Assumptions_arg (payload_assumptions data)) in
  recalculateLinkedValues s.

End LoadTestData.

(** What a table holds after a [forEach] of adds. *)
Module LoadLaws.

Import Store.

(** The entries [xs], each with the identifier that its add call assigns:
    [stamp x f] is [x] as stored when the call may draw [f]; the first
    call draws [fresh n]. *)
Fixpoint stamped {A : Type} (stamp : A -> string -> A) (xs : list A)
  (fresh : nat -> string) (n : nat) : list A :=
  match xs with
  | [] => []
  | x :: rest => stamp x (fresh n) :: stamped stamp rest fresh (S n)
  end.

Definition stamp_Liability (l : Liability) (f : string) : Liability :=
  Liability_with_id l (opt_id_or (liab_id l) f).

Definition stamp_Investment (a : InvestmentAsset) (f : string)
  : InvestmentAsset :=
  InvestmentAsset_with_id a (opt_id_or (inv_id a) f).

Definition stamp_Goal (g : Goal) (f : string) : Goal :=
  Goal_with_id g (id_or (goal_id g) f).

(** The number of add calls that [handleLoadData] makes before it comes
    to the investments, and before it comes to the liabilities. *)
Definition calls_before_investments (data : Payload) : nat :=
  (List.length (payload_goals data)
   + List.length (real_estate (payload_assets data))
   + List.length (bank_accounts (payload_assets data)))%nat.

Definition calls_before_liabilities (data : Payload) : nat :=
  (calls_before_investments data
   + List.length (investments (payload_assets data))
   + List.length (insurance_policies (payload_assets data)))%nat.

End LoadLaws.

(** The pages that ask for the analysis. *)
Module Pages.

Import Store Js.

(** What a page ends up showing: the value handed to [setResults], or the
    error message. *)
Inductive Shown :=
| Results (data : option AnalysisResults)
| Error.

(** What comes of the request: the parsed body of the response, [None]
    for a body of [null]; or a failure, when the request is rejected, the
    status is not ok or the body is not JSON. *)
Inductive Response :=
| Body (data : option AnalysisResults)
| Failed.

Section Server.

(** The analysis endpoint. *)
Variable analyze : Payload -> Response.

(** [fetchData] of the summary dashboard: it always asks the server. *)
Definition dashboard_fetchData (s : FullState) : FullState * Shown :=
  let s1 := recalculateLinkedValues s in
  match analyze (getPayload s1) with
  | Body data => (setAnalysisResults s1 data, Results data)
  | Failed => (s1, Error)
  end.

(** [fetchData] of the report page: [if (cachedResults)] shows cached
    results as they are. *)
Definition report_fetchData (s : FullState) : FullState * Shown :=
  let cachedResults := analysisResults s in
  if truthy_cached cachedResults then (s, Results cachedResults)
  else
    let s1 := recalculateLinkedValues s in
    match analyze (getPayload s1) with
    | Body data => (setAnalysisResults s1 data, Results data)
    | Failed => (s1, Error)
    end.

End Server.

(** The calls that leave cached analysis results in place: all but
    [reset] and [setAnalysisResults]. *)
Definition keeps_cache (a : Action) : bool :=
  match a with
  | A_reset | A_setAnalysisResults _ => false
  | _ => true
  end.

End Pages.

(** Form states and templates used in the examples. *)
Module FormSamples.

Import Store.
Local Open Scope Q_scope.
Local Open Scope string_scope.

(** An education loan typed with an EMI and an outstanding amount only,
    the rate cleared to zero. *)
Definition loan_without_rate : LiabilityForm.LoanData :=
  {| LiabilityForm.d_type := Loan_Education;
     LiabilityForm.d_total_loan_amount := Some 0;
     LiabilityForm.d_outstanding := Some 400000;
     LiabilityForm.d_emi := Some 18000;
     LiabilityForm.d_interest_rate := Some 0;
     LiabilityForm.d_tenure_months := None |}.

(** A loan typed in full. *)
Definition loan_with_rate : LiabilityForm.LoanData :=
  {| LiabilityForm.d_type := Loan_Car;
     LiabilityForm.d_total_loan_amount := Some 500000;
     LiabilityForm.d_outstanding := Some 400000;
     LiabilityForm.d_emi := Some 9000;
     LiabilityForm.d_interest_rate := Some (95 # 10);
     LiabilityForm.d_tenure_months := Some 84 |}.

Definition fund_without_sip : AssetsForm.InvestmentData :=
  {| AssetsForm.i_type := Some Inv_MF;
     AssetsForm.i_invested_amount := None;
     AssetsForm.i_current_value := Some 0;
     AssetsForm.i_monthly_sip := None;
     AssetsForm.i_start_date := None;
     AssetsForm.i_end_date := None;
     AssetsForm.i_remarks := None |}.


(** Two of the goal templates of the form. *)
Definition template_graduation : GoalForm.Template :=
  {| GoalForm.t_name := "Graduation"; GoalForm.defaultCost := 1000000;
     GoalForm.targetAge := 18 |}.

Definition template_car : GoalForm.Template :=
  {| GoalForm.t_name := "Car"; GoalForm.defaultCost := 1200000;
     GoalForm.targetAge := 0 |}.

Definition goal_car : GoalForm.NewGoal :=
  {| GoalForm.n_person_name := EmptyString; GoalForm.n_name := "Car";
     GoalForm.n_current_cost := 1200000; GoalForm.n_target_type := DATE;
     GoalForm.n_target_value := "2030-01-01" |}.

Definition goal_marriage : GoalForm.NewGoal :=
  {| GoalForm.n_person_name := "Arjun"; GoalForm.n_name := "Marriage";
     GoalForm.n_current_cost := 2500000; GoalForm.n_target_type := AGE;
     GoalForm.n_target_value := "25" |}.

(** The cash-flow form in lump-sum mode for the essential expenses and in
    itemised mode for the lifestyle expenses. *)
Definition mixed_form : CashFlowForm.FormState :=
  {| CashFlowForm.form_inflows :=
       {| CashFlowForm.f_primary_income := 150000;
          CashFlowForm.f_spouse_income := 80000;
          CashFlowForm.f_rental_income := 0;
          CashFlowForm.f_additional_income := 5000 |};
     CashFlowForm.form_essential := default_EssentialExpenses;
     CashFlowForm.form_lifestyle :=
       {| maid_expense := 5000; shopping := 8000; travel := 4000;
          dining_entertainment := 6000; life_other := 2000 |};
     CashFlowForm.simpleTotals :=
       {| CashFlowForm.st_essential := 60000;
          CashFlowForm.st_lifestyle := 1 |};
     CashFlowForm.showEssentialDetails := false;
     CashFlowForm.showLifestyleDetails := true;
     CashFlowForm.localAssumptions :=
       {| CashFlowForm.la_inflation := 6 # 100;
          CashFlowForm.la_pre_retire_roi := 12 # 100;
          CashFlowForm.la_post_retire_roi := 8 # 100 |} |}.

(** A profile in the shape of the test-data page: two loans and one
    fund, lump sums that disagree with the details, and linked values
    that disagree with the tables. *)
Definition profile : Payload :=
  {| payload_user_profile := user_profile initialState;
     payload_goals := [];
     payload_assets :=
       {| real_estate := []; bank_accounts := [];
          investments := [Samples.mutual_fund];
          insurance_policies := []; liquid_cash := 200000 |};
     payload_liabilities := [Samples.home_loan; Samples.car_loan];
     payload_cash_flow :=
       {| inflows := inflows (cash_flow initialState);
          outflows :=
            {| essential := 1; lifestyle := 25000;
               essential_details :=
                 Some {| house_rent := 0; maintenance := 5000;
                         property_tax := 1000; utilities := 5000;
                         groceries := 15000; transportation := 8000;
                         medical_expenses := 5000;
                         children_school_fees := 15000;
                         insurance_premiums := 3000; ess_other := 3000 |};
               lifestyle_details := None;
               investment_details := None;
               linked_emis := 2; linked_investments := 3 |} |};
     payload_assumptions := assumptions initialState |}.

(** A page on which every draw of [generateId()] gives the same
    string. *)
Definition same_id (n : nat) : string := "x".

(** The body of an analysis response: an object; and another body, a
    string. *)
Definition report_body : AnalysisResults := Res_object "{}".
Definition stale_body : AnalysisResults := Res_string "stale".

End FormSamples.

(* ================================================================== *)
(** * Properties of the store *)
(* ================================================================== *)

Section StoreFacts.

Import Store.
Local Open Scope Q_scope.

(** ** Sums *)

Lemma reduce_from (A : Type) (f : A -> number) (xs : list A) (a : number) :
  reduce (fun sum x => sum + f x) xs a == a + Sigma f xs.
Proof.
  unfold reduce, number in *. revert a.
  induction xs as [|x xs IH]; intros a; simpl.
  - ring.
  - rewrite IH. ring.
Qed.

Lemma reduce_Sigma (A : Type) (f : A -> number) (xs : list A) :
  reduce (fun sum x => sum + f x) xs 0 == Sigma f xs.
Proof. rewrite reduce_from. unfold number. ring. Qed.

Lemma totalEmi_Sigma (s : FullState) : totalEmi s == Sigma emi (liabilities s).
Proof. apply reduce_Sigma. Qed.

Lemma totalSip_Sigma (s : FullState) :
  totalSip s == Sigma monthly_sip (investments (assets s)).
Proof. apply reduce_Sigma. Qed.

(** ** One call to [recalculateLinkedValues] *)

Lemma recalculate_tables (s : FullState) :
  liabilities (recalculateLinkedValues s) = liabilities s /\
  assets (recalculateLinkedValues s) = assets s.
Proof. split; reflexivity. Qed.

Lemma recalculate_in_sync (s : FullState) :
  linked_in_sync (recalculateLinkedValues s).
Proof. split; reflexivity. Qed.

(** C3: after one call to [recalculateLinkedValues], from any state and
    whatever the two linked fields held before, [linked_emis] is the sum
    of [emi] over the liabilities of the state and [linked_investments]
    is the sum of [monthly_sip] over its investments (the tables
    themselves are untouched); with two liabilities whose EMIs are 35000
    and 18000, [linked_emis] is 53000 afterwards. *)
Theorem recalculateLinkedValues_rederives (s : FullState) :
  let s' := recalculateLinkedValues s in
  liabilities s' = liabilities s /\
  investments (assets s') = investments (assets s) /\
  linked_emis (outflows (cash_flow s')) == Sigma emi (liabilities s') /\
  linked_investments (outflows (cash_flow s'))
    == Sigma monthly_sip (investments (assets s')) /\
  (forall l1 l2 : Liability,
      liabilities s = [l1; l2] -> emi l1 == 35000 -> emi l2 == 18000 ->
      linked_emis (outflows (cash_flow s')) == 53000).
Proof.
  cbv zeta.
  split; [reflexivity|]. split; [reflexivity|].
  split; [apply (totalEmi_Sigma s)|].
  split; [apply (totalSip_Sigma s)|].
  intros l1 l2 Hl H1 H2.
  change (linked_emis (outflows (cash_flow (recalculateLinkedValues s))))
    with (totalEmi s).
  rewrite totalEmi_Sigma, Hl. unfold Sigma; simpl.
  rewrite H1, H2. reflexivity.
Qed.

Lemma recalculateLinkedValues_rederives_witness :
  linked_emis (outflows (cash_flow Samples.stale_store)) = 1 /\
  linked_emis
    (outflows (cash_flow (recalculateLinkedValues Samples.stale_store)))
  == 53000.
Proof.
  split; [reflexivity|].
  destruct (recalculateLinkedValues_rederives Samples.stale_store)
    as (_ & _ & _ & _ & H).
  apply (H Samples.home_loan Samples.car_loan); reflexivity.
Defined.

(** C9: a call to [recalculateLinkedValues] leaves [user_profile],
    [goals], [assets], [liabilities], [assumptions], the cached analysis
    results, [cash_flow.inflows] and every field of [cash_flow.outflows]
    other than [linked_emis] and [linked_investments] as they were. *)
Theorem recalculateLinkedValues_frame (s : FullState) :
  let s' := recalculateLinkedValues s in
  let o := outflows (cash_flow s) in
  let o' := outflows (cash_flow s') in
  user_profile s' = user_profile s /\
  goals s' = goals s /\
  assets s' = assets s /\
  liabilities s' = liabilities s /\
  assumptions s' = assumptions s /\
  analysisResults s' = analysisResults s /\
  inflows (cash_flow s') = inflows (cash_flow s) /\
  essential o' = essential o /\
  lifestyle o' = lifestyle o /\
  essential_details o' = essential_details o /\
  lifestyle_details o' = lifestyle_details o /\
  investment_details o' = investment_details o.
Proof. cbv zeta. repeat split. Qed.

(** ** The itemised expense actions *)

Lemma Sigma_supplied_cons (o : option number) (os : list (option number)) :
  Sigma (fun v => v) (supplied (o :: os))
  == spread 0 o + Sigma (fun v => v) (supplied os).
Proof.
  destruct o; unfold supplied, Sigma, number in *; simpl;
    [reflexivity | ring].
Qed.

Lemma Sigma_supplied_nil : Sigma (fun v : number => v) (supplied []) == 0.
Proof. reflexivity. Qed.

(** C10: [updateEssentialDetails d] stores as [essential_details] an
    object each of whose ten fields is the value that [d] supplies, else
    the value of the details stored before, else 0 when none were stored,
    and sets [essential] to the sum of those ten fields;
    [updateLifestyleDetails] does the same over its five fields.  When no
    details were stored before, the new total is the sum of just the
    fields that [d] supplies, whatever lump sum [essential] (or
    [lifestyle]) held. *)
Theorem updateDetails_totals (s : FullState) :
  (forall d : PartialEssentialExpenses,
      let stored := essential_details (outflows (cash_flow s)) in
      let o' := outflows (cash_flow (updateEssentialDetails s d)) in
      exists m : EssentialExpenses,
        essential_details o' = Some m /\
        house_rent m
        = merged_field (pe_house_rent d) (option_map house_rent stored) /\
        maintenance m
        = merged_field (pe_maintenance d) (option_map maintenance stored) /\
        property_tax m
        = merged_field (pe_property_tax d)
            (option_map property_tax stored) /\
        utilities m
        = merged_field (pe_utilities d) (option_map utilities stored) /\
        groceries m
        = merged_field (pe_groceries d) (option_map groceries stored) /\
        transportation m
        = merged_field (pe_transportation d)
            (option_map transportation stored) /\
        medical_expenses m
        = merged_field (pe_medical_expenses d)
            (option_map medical_expenses stored) /\
        children_school_fees m
        = merged_field (pe_children_school_fees d)
            (option_map children_school_fees stored) /\
        insurance_premiums m
        = merged_field (pe_insurance_premiums d)
            (option_map insurance_premiums stored) /\
        ess_other m
        = merged_field (pe_other d) (option_map ess_other stored) /\
        essential o'
        == house_rent m + maintenance m + property_tax m + utilities m
           + groceries m + transportation m + medical_expenses m
           + children_school_fees m + insurance_premiums m + ess_other m /\
        (stored = None ->
         essential o' == Sigma (fun v => v) (supplied_Essential d)))
  /\
  (forall d : PartialLifestyleExpenses,
      let stored := lifestyle_details (outflows (cash_flow s)) in
      let o' := outflows (cash_flow (updateLifestyleDetails s d)) in
      exists m : LifestyleExpenses,
        lifestyle_details o' = Some m /\
        maid_expense m
        = merged_field (pl_maid_expense d)
            (option_map maid_expense stored) /\
        shopping m
        = merged_field (pl_shopping d) (option_map shopping stored) /\
        travel m
        = merged_field (pl_travel d) (option_map travel stored) /\
        dining_entertainment m
        = merged_field (pl_dining_entertainment d)
            (option_map dining_entertainment stored) /\
        life_other m
        = merged_field (pl_other d) (option_map life_other stored) /\
        lifestyle o'
        == maid_expense m + shopping m + travel m + dining_entertainment m
           + life_other m /\
        (stored = None ->
         lifestyle o' == Sigma (fun v => v) (supplied_Lifestyle d))).
Proof.
  split; intros d; cbv zeta.
  - eexists. split; [reflexivity|].
    destruct d as [d1 d2 d3 d4 d5 d6 d7 d8 d9 d10].
    destruct (essential_details (outflows (cash_flow s))) as [e|] eqn:Es.
    + unfold updateEssentialDetails. rewrite Es.
      repeat (split;
              [solve [ destruct d1, d2, d3, d4, d5, d6, d7, d8, d9, d10;
                       reflexivity ] |]).
      split; [|discriminate].
      unfold reduce, Object_values_Essential. simpl. unfold number. ring.
    + unfold updateEssentialDetails. rewrite Es.
      repeat (split;
              [solve [ destruct d1, d2, d3, d4, d5, d6, d7, d8, d9, d10;
                       reflexivity ] |]).
      split.
      * unfold reduce, Object_values_Essential. simpl. unfold number. ring.
      * intros _. unfold reduce, Object_values_Essential, supplied_Essential.
        rewrite !Sigma_supplied_cons, Sigma_supplied_nil.
        simpl. unfold number. ring.
  - eexists. split; [reflexivity|].
    destruct d as [d1 d2 d3 d4 d5].
    destruct (lifestyle_details (outflows (cash_flow s))) as [e|] eqn:Es.
    + unfold updateLifestyleDetails. rewrite Es.
      repeat (split;
              [solve [ destruct d1, d2, d3, d4, d5; reflexivity ] |]).
      split; [|discriminate].
      unfold reduce, Object_values_Lifestyle. simpl. unfold number. ring.
    + unfold updateLifestyleDetails. rewrite Es.
      repeat (split;
              [solve [ destruct d1, d2, d3, d4, d5; reflexivity ] |]).
      split.
      * unfold reduce, Object_values_Lifestyle. simpl. unfold number. ring.
      * intros _. unfold reduce, Object_values_Lifestyle, supplied_Lifestyle.
        rewrite !Sigma_supplied_cons, Sigma_supplied_nil.
        simpl. unfold number. ring.
Qed.

Lemma updateDetails_totals_witness :
  essential
    (outflows
       (cash_flow
          (updateEssentialDetails
             (updateOutflows initialState Samples.only_essential_60000)
             Samples.groceries_and_other)))
  == 18000 /\
  (exists m : EssentialExpenses,
      essential_details
        (outflows
           (cash_flow
              (updateEssentialDetails
                 (updateEssentialDetails initialState
                    Samples.groceries_and_other)
                 Samples.rent_and_groceries)))
      = Some m /\
      house_rent m = 20000 /\ groceries m = 12000 /\ ess_other m = 3000 /\
      maintenance m = 0) /\
  essential
    (outflows
       (cash_flow
          (updateEssentialDetails
             (updateEssentialDetails initialState
                Samples.groceries_and_other)
             Samples.rent_and_groceries)))
  == 35000 /\
  lifestyle
    (outflows
       (cash_flow (updateLifestyleDetails initialState Samples.only_travel)))
  == 4000.
Proof.
  destruct (updateDetails_totals
              (updateOutflows initialState Samples.only_essential_60000))
    as [He _].
  destruct (He Samples.groceries_and_other)
    as (m0 & _ & _ & _ & _ & _ & _ & _ & _ & _ & _ & _ & _ & H0).
  destruct (updateDetails_totals
              (updateEssentialDetails initialState
                 Samples.groceries_and_other))
    as [Hs _].
  destruct (Hs Samples.rent_and_groceries)
    as (m & Hm & Hrent & Hmaint & _ & _ & Hgro & _ & _ & _ & _ & Hoth
        & Hsum & _).
  destruct (updateDetails_totals initialState) as [_ Hl].
  destruct (Hl Samples.only_travel) as (m1 & _ & _ & _ & _ & _ & _ & _ & H1).
  split; [rewrite (H0 eq_refl); reflexivity|].
  split.
  - exists m. split; [exact Hm|].
    split; [exact Hrent|]. split; [exact Hgro|].
    split; [exact Hoth | exact Hmaint].
  - split.
    + rewrite Hsum.
      injection Hm as <-. reflexivity.
    + rewrite (H1 eq_refl). reflexivity.
Defined.

(** ** The linkage along a run of the store *)

Lemma initialState_in_sync : linked_in_sync initialState.
Proof. split; reflexivity. Qed.

Lemma spread_None (A : Type) (old : A) : spread old None = old.
Proof. reflexivity. Qed.

(** Every call that is not handed a linked value keeps the linkage: it
    either leaves both tables and both fields alone, or ends with
    [recalculateLinkedValues], or writes the initial state. *)
Lemma step_keeps_sync (s : FullState) (a : Action) :
  linked_in_sync s ->
  writes_linked_fields a = false ->
  linked_in_sync (step s a).
Proof.
  intros Hs Hw.
  destruct a; simpl in *;
    try exact Hs;
    try apply recalculate_in_sync;
    try (destruct Hs as [He Hi]; split; [exact He | exact Hi]).
  - (* updateCashFlow *)
    destruct newCashFlow as [pin pout]. simpl in Hw.
    destruct pout as [o|]; [discriminate|].
    destruct Hs as [He Hi]. split; [exact He | exact Hi].
  - (* updateOutflows *)
    destruct Hs as [He Hi].
    destruct (po_linked_emis p) eqn:E1; [discriminate|].
    destruct (po_linked_investments p) eqn:E2; [discriminate|].
    unfold linked_in_sync, updateOutflows, totalEmi, totalSip; simpl.
    rewrite E1, E2. split; [exact He | exact Hi].
Qed.

Lemma run_keeps_sync (acts : list Action) (s : FullState) :
  linked_in_sync s ->
  Forall (fun a => writes_linked_fields a = false) acts ->
  linked_in_sync (run s acts).
Proof.
  revert s. induction acts as [|a acts IH]; intros s Hs Hall.
  - exact Hs.
  - inversion Hall as [|? ? Ha Hrest]; subst.
    simpl. apply IH; [apply step_keeps_sync; assumption | exact Hrest].
Qed.

Lemma resync_gives_sync (s : FullState) (a : Action) :
  resyncs a = true -> linked_in_sync (step s a).
Proof.
  intros Hr.
  destruct a; simpl in Hr; try discriminate Hr; simpl;
    first [apply recalculate_in_sync | split; reflexivity].
Qed.

(** C2, as the store has it: in every state reached from the initial
    state by public operations none of which is an [updateOutflows] call
    that supplies [linked_emis] or [linked_investments], or an
    [updateCashFlow] call that supplies [outflows], [linked_emis] equals
    the sum of [emi] over the liabilities and [linked_investments] the sum
    of [monthly_sip] over the investments.  The same holds, from any state
    whatever, once a call that re-derives the fields has been followed by
    such operations only.  An [updateOutflows] call that supplies a linked
    field stores the value it is handed. *)
Theorem linked_in_sync_without_direct_writes :
  (forall acts : list Action,
      Forall (fun a => writes_linked_fields a = false) acts ->
      let s := run initialState acts in
      linked_in_sync s /\
      linked_emis (outflows (cash_flow s)) == Sigma emi (liabilities s) /\
      linked_investments (outflows (cash_flow s))
        == Sigma monthly_sip (investments (assets s))) /\
  (forall (s : FullState) (before : list Action) (a : Action)
          (after : list Action),
      resyncs a = true ->
      Forall (fun a => writes_linked_fields a = false) after ->
      linked_in_sync (run s (before ++ a :: after))) /\
  (forall (s : FullState) (p : PartialOutflows) (v : number),
      (po_linked_emis p = Some v ->
       linked_emis (outflows (cash_flow (updateOutflows s p))) = v) /\
      (po_linked_investments p = Some v ->
       linked_investments (outflows (cash_flow (updateOutflows s p))) = v)).
Proof.
  split; [|split].
  - intros acts Hall s.
    assert (Hsync : linked_in_sync s)
      by (apply run_keeps_sync; [apply initialState_in_sync | exact Hall]).
    split; [exact Hsync|].
    destruct Hsync as [He Hi]. rewrite He, Hi.
    split; [apply totalEmi_Sigma | apply totalSip_Sigma].
  - intros s before a after Hr Hall.
    unfold run. rewrite fold_left_app. simpl.
    apply run_keeps_sync; [|exact Hall].
    apply resync_gives_sync. exact Hr.
  - intros s p v. split; intros Hp; simpl; rewrite Hp; reflexivity.
Qed.

Lemma linked_in_sync_without_direct_writes_witness :
  linked_emis (outflows (cash_flow (run initialState Samples.tidy_session)))
  == 18000 /\
  linked_investments
    (outflows (cash_flow (run initialState Samples.tidy_session)))
  == 25000 /\
  linked_in_sync
    (run Samples.stale_store
       ([A_updateOutflows Samples.only_linked_emis_999]
        ++ A_recalculateLinkedValues
           :: [A_updateOutflows Samples.only_essential_60000])) /\
  linked_emis
    (outflows
       (cash_flow (updateOutflows initialState Samples.only_linked_emis_999)))
  = 999.
Proof.
  destruct linked_in_sync_without_direct_writes as (Hrun & Hre & Hset).
  assert (Hall : Forall (fun a => writes_linked_fields a = false)
                   Samples.tidy_session)
    by (repeat constructor).
  destruct (Hrun Samples.tidy_session Hall) as (_ & He & Hi).
  split; [rewrite He; reflexivity|].
  split; [rewrite Hi; reflexivity|].
  split.
  - apply Hre; [reflexivity | repeat constructor].
  - apply (Hset initialState Samples.only_linked_emis_999 999). reflexivity.
Defined.

(** C2 as stated fails: one [updateOutflows] call on the initial store
    sets [linked_emis] to 999 while the liabilities table is empty. *)
Lemma linked_emis_set_by_hand :
  reachable (run initialState Samples.stale_session) /\
  liabilities (run initialState Samples.stale_session) = [] /\
  linked_emis (outflows (cash_flow (run initialState Samples.stale_session)))
  = 999 /\
  ~ linked_emis
      (outflows (cash_flow (run initialState Samples.stale_session)))
    == Sigma emi (liabilities (run initialState Samples.stale_session)).
Proof.
  split; [exists Samples.stale_session; reflexivity|].
  split; [reflexivity|]. split; [reflexivity|].
  intros H. vm_compute in H. discriminate H.
Qed.

End StoreFacts.


(* ================================================================== *)
(** * Properties of the TRS formulas *)
(* ================================================================== *)

Section TRSFacts.

Import TRS.
Local Open Scope R_scope.

(** ** Powers *)






(** ** 3.6 The dashboard ratios *)

(** C1: for every cash-flow sheet that passes validation (total inflow
    strictly positive), the five ratios -- leftover, EMIs, investments,
    essential and lifestyle expenses, each divided by the total inflow and
    multiplied by 100 -- add up to 100, hence to 100 within 0.01; the
    leftover may be negative. *)
Theorem ratios_sum_to_100 (c : CashFlowSheet) :
  valid_total_inflow c ->
  SavingsRate c + EMIBurden c + InvestmentRate c
    + EssentialExpensePct c + LifestyleExpensePct c = 100 /\
  Rabs (SavingsRate c + EMIBurden c + InvestmentRate c
        + EssentialExpensePct c + LifestyleExpensePct c - 100) <= 0.01.
Proof.
  unfold valid_total_inflow. intros Hpos.
  assert (Hsum : SavingsRate c + EMIBurden c + InvestmentRate c
                 + EssentialExpensePct c + LifestyleExpensePct c = 100).
  { unfold SavingsRate, EMIBurden, InvestmentRate, EssentialExpensePct,
      LifestyleExpensePct, Leftover, TotalOutflows.
    field. lra. }
  split; [exact Hsum|].
  rewrite Hsum.
  replace (100 - 100) with 0 by ring.
  rewrite Rabs_R0. lra.
Qed.

Lemma ratios_sum_to_100_witness :
  Leftover Samples.overspent_month < 0 /\
  SavingsRate Samples.overspent_month + EMIBurden Samples.overspent_month
    + InvestmentRate Samples.overspent_month
    + EssentialExpensePct Samples.overspent_month
    + LifestyleExpensePct Samples.overspent_month = 100.
Proof.
  split.
  - unfold Leftover, TotalOutflows, TotalInflow, TotalEssential,
      TotalLifestyle, TotalEMIs, TotalInvestments, SUM; simpl. lra.
  - apply (ratios_sum_to_100 Samples.overspent_month).
    unfold valid_total_inflow, TotalInflow; simpl. lra.
Defined.

(** ** 3.2 The future cost *)



End TRSFacts.


(* ================================================================== *)
(** * The reference implementations on Python's floats *)
(* ================================================================== *)

Section FloatFacts.

Import PyFloat TRSFloat.
Local Open Scope Z_scope.

(** A base of 1.0 never reaches the C library. *)
Lemma float_pow_one (libm_pow : float -> float -> float) (n : Z) (w : float) :
  float_of_int n = Value w -> float_pow libm_pow one n = Value one.
Proof.
  intros Hw. unfold float_pow. rewrite Hw. cbn [bind].
  destruct (SFeqb w zero); reflexivity.
Qed.



Lemma truediv_twelve (a : float) :
  truediv a twelve = Value (SFdiv prec emax a twelve).
Proof. reflexivity. Qed.

(** ** 3.3 The retirement corpus *)



(** ** 3.4 The extra SIP *)

(** C5, on the code: the extra SIP is 0 whenever the gap is <= 0 or the
    months to retirement are <= 0.  Otherwise, with r = ROI / 12: when r
    is not positive it is G / n; when r is positive it is
    (G * r) / (((1+r)^n - 1) * (1+r)) with each operation rounded, a
    divisor of zero raising.  The sum 1 + r is rounded first: for every
    positive rate that it absorbs, the power is 1.0 whatever the C
    library, the divisor is 0.0, and the call raises
    [ZeroDivisionError].  So it does for a gap of 1000 over 12 months at
    the ROI 12 * 2^(-60), where the payment is between 83.33 and 83.34. *)
Theorem calculate_extra_sip_required_raises_at_absorbed_rate
  (libm_pow : float -> float -> float) :
  (forall (G roi : float) (n : Z),
      SFleb G zero = true \/ n <= 0 ->
      calculate_extra_sip_required libm_pow G n roi = Value zero) /\
  (forall (G roi : float) (n : Z),
      SFleb G zero = false -> 0 < n ->
      SFltb zero (SFdiv prec emax roi twelve) = false ->
      calculate_extra_sip_required libm_pow G n roi
      = (w <- float_of_int n ;; truediv G w)) /\
  (forall (G roi p : float) (n : Z),
      SFleb G zero = false -> 0 < n ->
      SFltb zero (SFdiv prec emax roi twelve) = true ->
      float_pow libm_pow (add one (SFdiv prec emax roi twelve)) n
      = Value p ->
      calculate_extra_sip_required libm_pow G n roi
      = truediv (mul G (SFdiv prec emax roi twelve))
          (mul (sub p one) (add one (SFdiv prec emax roi twelve)))) /\
  (forall (G roi w : float) (n : Z),
      SFleb G zero = false -> 0 < n ->
      float_of_int n = Value w ->
      SFltb zero (SFdiv prec emax roi twelve) = true ->
      add one (SFdiv prec emax roi twelve) = one ->
      calculate_extra_sip_required libm_pow G n roi
      = Raise ZeroDivisionError) /\
  (stands_for Samples.float_1000 1000 /\
   stands_for Samples.float_12_2_pow_m60 (12 * 2 ^ (-60)) /\
   calculate_extra_sip_required libm_pow
     Samples.float_1000 12 Samples.float_12_2_pow_m60
   = Raise ZeroDivisionError /\
   (8333 # 100 < annuity_due_pmt 1000 12 (2 ^ (-60)) < 8334 # 100)%Q).
Proof.
  split; [|split; [|split; [|split]]].
  - intros G roi n [HG|Hn]; unfold calculate_extra_sip_required.
    + rewrite HG. reflexivity.
    + apply Z.leb_le in Hn. rewrite Hn, orb_true_r. reflexivity.
  - intros G roi n HG Hn Hr. unfold calculate_extra_sip_required.
    apply Z.leb_gt in Hn. rewrite HG, Hn. cbn [orb].
    rewrite truediv_twelve. cbn [bind]. rewrite Hr. reflexivity.
  - intros G roi p n HG Hn Hr Hp. unfold calculate_extra_sip_required.
    apply Z.leb_gt in Hn. rewrite HG, Hn. cbn [orb].
    rewrite truediv_twelve. cbn [bind]. rewrite Hr, Hp. reflexivity.
  - intros G roi w n HG Hn Hw Hr Hadd. unfold calculate_extra_sip_required.
    apply Z.leb_gt in Hn. rewrite HG, Hn. cbn [orb].
    rewrite truediv_twelve. cbn [bind]. rewrite Hr, Hadd.
    rewrite (float_pow_one libm_pow n w Hw). cbn [bind].
    reflexivity.
  - split; [split; vm_compute; reflexivity|].
    split; [split; vm_compute; reflexivity|].
    split; [reflexivity|].
    split; vm_compute; reflexivity.
Qed.

Lemma calculate_extra_sip_required_raises_at_absorbed_rate_witness :
  calculate_extra_sip_required Samples.no_libm_pow
    Samples.float_2500 240 Samples.float_1e_15
  = Raise ZeroDivisionError.
Proof.
  destruct (calculate_extra_sip_required_raises_at_absorbed_rate
              Samples.no_libm_pow) as (_ & _ & _ & H & _).
  apply (H Samples.float_2500 Samples.float_1e_15
           (S754_finite false 8444249301319680 (-45)) 240);
    reflexivity.
Defined.

End FloatFacts.


(* ================================================================== *)
(** * Ages *)
(* ================================================================== *)

Section AgeFacts.

Local Open Scope R_scope.

(** C6, as the code has it: the age of the calculation formulas is the
    number of days lived divided by 365.25, a fraction that gives the days
    back when multiplied by 365.25; the age that the family form computes
    from a non-empty, valid date is the whole number of 365.25-day years
    elapsed, rounded down. *)
Theorem age_fractional_in_formula_floored_in_form :
  (forall today dob : TRS.date,
      TRS.calculate_age today dob = IZR (today - dob) / 365.25 /\
      TRS.calculate_age today dob * 365.25 = IZR (today - dob)) /\
  (forall (Date_getTime : string -> option Z) (now : Z)
          (dob : string) (birth : Z),
      dob <> EmptyString ->
      Date_getTime dob = Some birth ->
      exists a : Z,
        FamilyDetailsForm.calculateAge Date_getTime now dob
        = FamilyDetailsForm.Num a /\
        (a * FamilyDetailsForm.ms_per_year <= now - birth
         < (a + 1) * FamilyDetailsForm.ms_per_year)%Z).
Proof.
  split.
  - intros today dob. unfold TRS.calculate_age. split; [reflexivity|].
    cbv zeta. lra.
  - intros parse now dob birth Hne Hparse.
    exists ((now - birth) / FamilyDetailsForm.ms_per_year)%Z.
    unfold FamilyDetailsForm.calculateAge.
    destruct (String.eqb_spec dob EmptyString) as [He|_]; [contradiction|].
    rewrite Hparse. split; [reflexivity|].
    unfold FamilyDetailsForm.ms_per_year.
    pose proof (Z.div_mod (now - birth) 31557600000 ltac:(lia)) as Hdm.
    pose proof (Z.mod_pos_bound (now - birth) 31557600000 ltac:(lia)) as Hb.
    lia.
Qed.

Lemma age_fractional_in_formula_floored_in_form_witness :
  FamilyDetailsForm.calculateAge Samples.Date_getTime
    Samples.time_2026_01_17 "2025-10-09"
  = FamilyDetailsForm.Num 0.
Proof.
  destruct age_fractional_in_formula_floored_in_form as [_ Hform].
  destruct (Hform Samples.Date_getTime Samples.time_2026_01_17
              "2025-10-09"%string 1759968000000%Z)
    as (a & Ha & Hlo & Hhi).
  - discriminate.
  - reflexivity.
  - rewrite Ha. f_equal.
    unfold FamilyDetailsForm.ms_per_year, Samples.time_2026_01_17 in *. lia.
Defined.

(** C6 as stated fails on the family form: one hundred days after the
    birth date it computes the age 0, whereas one hundred days divided by
    365.25 is the age of the formula and is not 0. *)
Lemma calculateAge_is_floored :
  FamilyDetailsForm.calculateAge Samples.Date_getTime
    Samples.time_2026_01_17 "2025-10-09"
  = FamilyDetailsForm.Num 0 /\
  (Samples.time_2026_01_17 - 1759968000000
   = 100 * FamilyDetailsForm.ms_per_day)%Z /\
  TRS.calculate_age Samples.day_2026_01_17 Samples.day_2025_10_09
  = 100 / 365.25 /\
  IZR 0 <> 100 / 365.25.
Proof.
  split; [reflexivity|]. split; [reflexivity|]. split.
  - unfold TRS.calculate_age, Samples.day_2026_01_17, Samples.day_2025_10_09.
    simpl. reflexivity.
  - lra.
Qed.

End AgeFacts.

(* ================================================================== *)
(** * Further properties of the family form's age *)
(* ================================================================== *)

Section MoreAgeFacts.

Import FamilyDetailsForm.
Local Open Scope Z_scope.

Lemma calculateAge_value
  (Date_getTime : string -> option Z) (now : Z) (dob : string) (birth : Z) :
  dob <> EmptyString ->
  Date_getTime dob = Some birth ->
  calculateAge Date_getTime now dob = Num ((now - birth) / ms_per_year).
Proof.
  intros Hne Hparse. unfold calculateAge.
  destruct (String.eqb_spec dob EmptyString) as [He|_]; [contradiction|].
  rewrite Hparse. reflexivity.
Qed.

(** The three kinds of result of [calculateAge]: [null] exactly for the
    empty string, [NaN] exactly for a non-empty string that is not a valid
    date, a number otherwise.  A birth date in the future is not rejected:
    its age is a negative number. *)
Theorem calculateAge_results
  (Date_getTime : string -> option Z) (now : Z) (dob : string) :
  (calculateAge Date_getTime now dob = null <-> dob = EmptyString) /\
  (calculateAge Date_getTime now dob = NaN <->
   dob <> EmptyString /\ Date_getTime dob = None) /\
  (forall birth : Z,
      dob <> EmptyString -> Date_getTime dob = Some birth ->
      exists a : Z,
        calculateAge Date_getTime now dob = Num a /\
        (now < birth -> a <= -1) /\
        (birth <= now -> 0 <= a)).
Proof.
  split; [|split].
  - unfold calculateAge.
    destruct (String.eqb_spec dob EmptyString) as [He|Hne].
    + split; intros; [exact He | reflexivity].
    + split; [|contradiction].
      destruct (Date_getTime dob); discriminate.
  - unfold calculateAge.
    destruct (String.eqb_spec dob EmptyString) as [He|Hne].
    + split; [discriminate | intros [H _]; contradiction].
    + destruct (Date_getTime dob) as [b|].
      * split; [discriminate | intros [_ H]; discriminate].
      * split; intros; [split; [exact Hne | reflexivity] | reflexivity].
  - intros birth Hne Hparse.
    exists ((now - birth) / ms_per_year).
    split; [apply calculateAge_value; assumption|].
    unfold ms_per_year. split; intros H.
    + assert ((now - birth) / 31557600000 < 0)
        by (apply Z.div_lt_upper_bound; lia).
      lia.
    + apply Z.div_pos; lia.
Qed.

Lemma calculateAge_results_witness :
  calculateAge Samples.Date_getTime 0 "2025-10-09" = Num (-56) /\
  calculateAge Samples.Date_getTime 0 "yesterday" = NaN.
Proof.
  destruct (calculateAge_results Samples.Date_getTime 0 "2025-10-09")
    as (_ & _ & Hnum).
  destruct (calculateAge_results Samples.Date_getTime 0 "yesterday")
    as (_ & Hnan & _).
  split.
  - destruct (Hnum 1759968000000) as (a & Ha & _ & _);
      [discriminate | reflexivity |].
    pose proof Ha as Hv. unfold calculateAge in Hv. simpl in Hv.
    injection Hv as <-. rewrite Ha. reflexivity.
  - apply Hnan. split; [discriminate | reflexivity].
Defined.

(** Birthdays.  At a moment [k] calendar years after the birth date --
    365 k days plus [L] leap days plus [t] milliseconds into the day --
    the form reports the age [k] only if the leap days and the time of day
    make up the quarter day per year that the 365.25-day year counts:
    it reports [k] when [k] quarter days <= [L] days + [t], and [k - 1]
    otherwise. *)
Theorem calculateAge_on_birthday
  (Date_getTime : string -> option Z) (now : Z) (dob : string)
  (birth k L t : Z) :
  dob <> EmptyString ->
  Date_getTime dob = Some birth ->
  now - birth = (365 * k + L) * ms_per_day + t ->
  0 <= t < ms_per_day ->
  0 <= k <= 1000 -> 0 <= L -> 4 * L <= k + 4 ->
  (k * 21600000 <= L * ms_per_day + t ->
   calculateAge Date_getTime now dob = Num k) /\
  (L * ms_per_day + t < k * 21600000 ->
   calculateAge Date_getTime now dob = Num (k - 1)).
Proof.
  intros Hne Hparse Hel Ht Hk HL HLk.
  rewrite (calculateAge_value Date_getTime now dob birth Hne Hparse).
  rewrite Hel. unfold ms_per_year, ms_per_day in *.
  split; intros Hcmp; f_equal; symmetry.
  - apply (Z.div_unique_pos _ _ k (L * 86400000 + t - k * 21600000)); lia.
  - apply (Z.div_unique_pos _ _ (k - 1)
             (365 * 86400000 + L * 86400000 + t - (k - 1) * 21600000));
      lia.
Qed.

Lemma calculateAge_on_birthday_witness :
  calculateAge Samples.Date_getTime (1759968000000 + 365 * ms_per_day)
    "2025-10-09" = Num 0 /\
  calculateAge Samples.Date_getTime
    (1759968000000 + 365 * ms_per_day + 21600000) "2025-10-09" = Num 1.
Proof.
  split.
  - apply (calculateAge_on_birthday Samples.Date_getTime _ "2025-10-09"
             1759968000000 1 0 0);
      try discriminate; try reflexivity; unfold ms_per_day; lia.
  - apply (calculateAge_on_birthday Samples.Date_getTime _ "2025-10-09"
             1759968000000 1 0 21600000);
      try discriminate; try reflexivity; unfold ms_per_day; lia.
Defined.

(** The form and the formula agree up to rounding down: when the elapsed
    time is a whole number of days, the age of the form is the integer
    part of the age that [calculate_age] gives for that number of days. *)
Theorem calculateAge_is_integer_part_of_calculate_age
  (Date_getTime : string -> option Z) (now : Z) (dob : string)
  (birth : Z) (today born : TRS.date) :
  dob <> EmptyString ->
  Date_getTime dob = Some birth ->
  now - birth = (today - born) * ms_per_day ->
  calculateAge Date_getTime now dob
  = Num (Int_part (TRS.calculate_age today born)).
Proof.
  intros Hne Hparse Hel.
  rewrite (calculateAge_value Date_getTime now dob birth Hne Hparse).
  rewrite Hel. f_equal. unfold TRS.calculate_age. cbv zeta.
  set (d := today - born).
  unfold ms_per_year, ms_per_day.
  assert (Hq : d * 86400000 / 31557600000 = 4 * d / 1461).
  { replace (d * 86400000) with ((4 * d) * 21600000) by lia.
    replace 31557600000 with (1461 * 21600000) by lia.
    apply Z.div_mul_cancel_r; lia. }
  rewrite Hq.
  apply Int_part_spec.
  pose proof (Z.div_mod (4 * d) 1461 ltac:(lia)) as Hdm.
  pose proof (Z.mod_pos_bound (4 * d) 1461 ltac:(lia)) as Hb.
  set (a := 4 * d / 1461) in *.
  assert (H1 : (1461 * a <= 4 * d)%Z) by lia.
  assert (H2 : (4 * d < 1461 * (a + 1))%Z) by lia.
  apply IZR_le in H1. apply IZR_lt in H2.
  rewrite !mult_IZR in H1, H2. rewrite plus_IZR in H2.
  split; lra.
Qed.

Lemma calculateAge_is_integer_part_of_calculate_age_witness :
  calculateAge Samples.Date_getTime Samples.time_2026_01_17 "2025-10-09"
  = Num (Int_part
           (TRS.calculate_age Samples.day_2026_01_17 Samples.day_2025_10_09)).
Proof.
  apply (calculateAge_is_integer_part_of_calculate_age
           Samples.Date_getTime Samples.time_2026_01_17 "2025-10-09"
           1759968000000);
    [discriminate | reflexivity | reflexivity].
Defined.

End MoreAgeFacts.

(* ================================================================== *)
(** * Further properties of the store *)
(* ================================================================== *)

Section MoreStoreFacts.

Import Store StoreLaws.
Local Open Scope Q_scope.

(** ** Lists *)

Lemma filter_keeps_all (A : Type) (f : A -> bool) (xs : list A) :
  Forall (fun x => f x = true) xs -> filter f xs = xs.
Proof.
  induction 1 as [|x xs Hx _ IH]; simpl; [reflexivity|].
  rewrite Hx, IH. reflexivity.
Qed.

Lemma filter_drops_last (A : Type) (f : A -> bool) (xs : list A) (y : A) :
  Forall (fun x => f x = true) xs -> f y = false ->
  filter f (xs ++ [y]) = xs.
Proof.
  intros Hall Hy. rewrite filter_app. cbn [filter]. rewrite Hy.
  rewrite app_nil_r. apply filter_keeps_all. exact Hall.
Qed.

Lemma Forall_filter (A : Type) (P : A -> Prop) (f : A -> bool)
  (xs : list A) :
  Forall P xs -> Forall P (filter f xs).
Proof.
  induction 1 as [|x xs Hx _ IH]; simpl; [constructor|].
  destruct (f x); [constructor; assumption | exact IH].
Qed.

Lemma Sigma_app (A : Type) (f : A -> number) (xs ys : list A) :
  Sigma f (xs ++ ys) == Sigma f xs + Sigma f ys.
Proof.
  unfold Sigma, number in *.
  induction xs as [|x xs IH]; simpl; [ring | rewrite IH; ring].
Qed.

Lemma Sigma_partition (A : Type) (f : A -> number) (p : A -> bool)
  (xs : list A) :
  Sigma f xs
  == Sigma f (filter p xs) + Sigma f (filter (fun x => negb (p x)) xs).
Proof.
  unfold Sigma, number in *.
  induction xs as [|x xs IH]; simpl; [ring|].
  destruct (p x); simpl; rewrite IH; ring.
Qed.

Lemma reduce_is_Sigma (A : Type) (f : A -> number) (xs : list A) :
  reduce (fun sum x => sum + f x) xs 0 == Sigma f xs.
Proof.
  assert (H : forall a : Q,
             fold_left (fun sum x => sum + f x) xs a == a + Sigma f xs).
  { unfold Sigma, number in *.
    induction xs as [|x xs IH]; intros a; simpl; [ring|].
    rewrite IH. ring. }
  unfold reduce. rewrite H. unfold number. ring.
Qed.

Lemma opt_id_differs_same (i : string) : opt_id_differs (Some i) i = false.
Proof.
  unfold opt_id_differs, id_differs. rewrite String.eqb_refl. reflexivity.
Qed.

Lemma opt_id_differs_true (x : option string) (i : string) :
  x <> Some i -> opt_id_differs x i = true.
Proof.
  intros Hx. destruct x as [j|]; [|reflexivity].
  unfold opt_id_differs, id_differs.
  destruct (String.eqb_spec j i) as [->|_]; [contradiction | reflexivity].
Qed.

Lemma opt_id_differs_spec (x : option string) (i : string) :
  opt_id_differs x i = true <-> x <> Some i.
Proof.
  split; [|apply opt_id_differs_true].
  intros H ->. rewrite opt_id_differs_same in H. discriminate.
Qed.

(** ** Adding and removing *)

(** Adding a liability appends it, under its own [id] when that is a
    non-empty string and under the generated one otherwise, and leaves
    [linked_emis] at the old sum of EMIs plus the new EMI, whatever the
    field held before; adding an investment does the same for
    [monthly_sip] and [linked_investments]. *)
Theorem add_appends_and_relinks (s : FullState) (fresh : string) :
  (forall l : Liability,
      let s' := addLiability s l fresh in
      liabilities s'
      = liabilities s ++ [Liability_with_id l (opt_id_or (liab_id l) fresh)] /\
      (forall i : string,
          liab_id l = Some i -> i <> EmptyString ->
          opt_id_or (liab_id l) fresh = i) /\
      (liab_id l = None \/ liab_id l = Some EmptyString ->
       opt_id_or (liab_id l) fresh = fresh) /\
      linked_emis (outflows (cash_flow s'))
      == Sigma emi (liabilities s) + emi l) /\
  (forall a : InvestmentAsset,
      let s' := addInvestment s a fresh in
      investments (assets s')
      = investments (assets s)
        ++ [InvestmentAsset_with_id a (opt_id_or (inv_id a) fresh)] /\
      linked_investments (outflows (cash_flow s'))
      == Sigma monthly_sip (investments (assets s)) + monthly_sip a).
Proof.
  split.
  - intros l. cbv zeta. split; [reflexivity|]. split; [|split].
    + intros i Hi Hne. rewrite Hi. unfold opt_id_or, id_or.
      destruct (String.eqb_spec i EmptyString) as [He|_];
        [contradiction | reflexivity].
    + intros [H|H]; rewrite H; reflexivity.
    + change (linked_emis (outflows (cash_flow (addLiability s l fresh))))
        with (reduce (fun sum x => sum + emi x)
                (liabilities s
                 ++ [Liability_with_id l (opt_id_or (liab_id l) fresh)]) 0).
      rewrite reduce_is_Sigma, Sigma_app.
      unfold Sigma at 2. simpl. unfold number. ring.
  - intros a. cbv zeta. split; [reflexivity|].
    change (linked_investments
              (outflows (cash_flow (addInvestment s a fresh))))
      with (reduce (fun sum x => sum + monthly_sip x)
              (investments (assets s)
               ++ [InvestmentAsset_with_id a (opt_id_or (inv_id a) fresh)])
              0).
    rewrite reduce_is_Sigma, Sigma_app.
    unfold Sigma at 2. simpl. unfold number. ring.
Qed.

Lemma add_appends_and_relinks_witness :
  linked_emis
    (outflows
       (cash_flow (addLiability Samples.stale_store Samples.home_loan "g")))
  == 88000.
Proof.
  destruct (add_appends_and_relinks Samples.stale_store "g") as [Hl _].
  destruct (Hl Samples.home_loan) as (_ & _ & _ & H).
  rewrite H. reflexivity.
Defined.

(** Removing by [id] deletes every liability that carries that [id] and no
    other, keeps the rest in order, and leaves [linked_emis] at the sum of
    the EMIs that remain: the sum before equals [linked_emis] after plus
    the EMIs removed.  With an [id] that no liability carries, the table
    is unchanged. *)
Theorem removeLiability_removes_matching (s : FullState) (i : string) :
  let s' := removeLiability s i in
  liabilities s' = filter (fun l => opt_id_differs (liab_id l) i)
                     (liabilities s) /\
  Forall (fun l => liab_id l <> Some i) (liabilities s') /\
  (forall l : Liability,
      In l (liabilities s') <-> In l (liabilities s) /\ liab_id l <> Some i) /\
  Sigma emi (liabilities s)
  == linked_emis (outflows (cash_flow s'))
     + Sigma emi (filter (fun l => negb (opt_id_differs (liab_id l) i))
                    (liabilities s)) /\
  (Forall (fun l => liab_id l <> Some i) (liabilities s) ->
   liabilities s' = liabilities s).
Proof.
  cbv zeta.
  split; [reflexivity|]. split; [|split; [|split]].
  - apply Forall_forall. intros l Hl.
    change (liabilities (removeLiability s i))
      with (filter (fun l => opt_id_differs (liab_id l) i) (liabilities s))
      in Hl.
    apply filter_In in Hl. destruct Hl as [_ Hd].
    apply opt_id_differs_spec. exact Hd.
  - intros l.
    change (liabilities (removeLiability s i))
      with (filter (fun l => opt_id_differs (liab_id l) i) (liabilities s)).
    rewrite filter_In, opt_id_differs_spec. reflexivity.
  - change (linked_emis (outflows (cash_flow (removeLiability s i))))
      with (reduce (fun sum x => sum + emi x)
              (filter (fun l => opt_id_differs (liab_id l) i)
                 (liabilities s)) 0).
    rewrite reduce_is_Sigma.
    apply Sigma_partition.
  - intros Hall.
    change (liabilities (removeLiability s i))
      with (filter (fun l => opt_id_differs (liab_id l) i) (liabilities s)).
    apply filter_keeps_all.
    apply Forall_forall. intros l Hl.
    apply opt_id_differs_true.
    rewrite Forall_forall in Hall. apply Hall. exact Hl.
Qed.

Lemma removeLiability_removes_matching_witness :
  liabilities (removeLiability Samples.stale_store "nobody")
  = [Samples.home_loan; Samples.car_loan].
Proof.
  destruct (removeLiability_removes_matching Samples.stale_store "nobody")
    as (_ & _ & _ & _ & H).
  apply H. repeat constructor; discriminate.
Defined.

(** Add, then remove: when no stored liability carries the [id] under
    which a new one is stored, adding it and removing that [id] leaves the
    store as one [recalculateLinkedValues] would; likewise for an
    investment. *)
Theorem add_then_remove_round_trip (s : FullState) (fresh : string) :
  (forall l : Liability,
      let i := opt_id_or (liab_id l) fresh in
      Forall (fun x => liab_id x <> Some i) (liabilities s) ->
      removeLiability (addLiability s l fresh) i
      = recalculateLinkedValues s) /\
  (forall a : InvestmentAsset,
      let i := opt_id_or (inv_id a) fresh in
      Forall (fun x => inv_id x <> Some i) (investments (assets s)) ->
      removeInvestment (addInvestment s a fresh) i
      = recalculateLinkedValues s).
Proof.
  split.
  - intros l i Hall.
    assert (Hf : filter (fun x => opt_id_differs (liab_id x) i)
                   (liabilities s ++ [Liability_with_id l i])
                 = liabilities s).
    { apply filter_drops_last; [|apply opt_id_differs_same].
      apply Forall_forall. intros x Hx. apply opt_id_differs_true.
      rewrite Forall_forall in Hall. apply Hall. exact Hx. }
    unfold removeLiability, addLiability, recalculateLinkedValues,
      totalEmi, totalSip, set. simpl.
    fold i. rewrite Hf. reflexivity.
  - intros a i Hall.
    assert (Hf : filter (fun x => opt_id_differs (inv_id x) i)
                   (investments (assets s) ++ [InvestmentAsset_with_id a i])
                 = investments (assets s)).
    { apply filter_drops_last; [|apply opt_id_differs_same].
      apply Forall_forall. intros x Hx. apply opt_id_differs_true.
      rewrite Forall_forall in Hall. apply Hall. exact Hx. }
    unfold removeInvestment, addInvestment, recalculateLinkedValues,
      totalEmi, totalSip, set. simpl.
    fold i. rewrite Hf.
    destruct s as [up gs [re ba inv pol lc] ls cf asm ar]. reflexivity.
Qed.

Lemma add_then_remove_round_trip_witness :
  removeLiability (addLiability initialState Samples.home_loan "g") "lib-1"
  = recalculateLinkedValues initialState.
Proof.
  destruct (add_then_remove_round_trip initialState "g") as [H _].
  apply (H Samples.home_loan). constructor.
Defined.

(** ** Identifiers along a run *)

Lemma step_keeps_ids (s : FullState) (a : Action) :
  tables_have_ids s -> tables_have_ids (step s a).
Proof.
  intros (Hl & Hre & Hba & Hinv & Hpol).
  assert (Hnew : forall (A : Type) (P : A -> Prop) (xs : list A) (y : A),
             Forall P xs -> P y -> Forall P (xs ++ [y])).
  { intros A P xs y Hxs Hy. apply Forall_app. split; [exact Hxs|].
    constructor; [exact Hy | constructor]. }
  destruct a; unfold tables_have_ids; simpl;
    repeat split;
    first [ assumption
          | apply Forall_filter; assumption
          | apply Hnew; [assumption | discriminate]
          | constructor ].
Qed.

(** Every entry of the five tables (liabilities, real estate, bank
    accounts, investments, insurance policies) of a state reached from the
    initial one carries an [id], so that the remove action of its table
    can address it: removing by that [id] takes the entry out. *)
Theorem tables_have_ids_along_runs (acts : list Action) :
  let s := run initialState acts in
  tables_have_ids s /\
  (forall l : Liability,
      In l (liabilities s) ->
      exists i : string,
        liab_id l = Some i /\ ~ In l (liabilities (removeLiability s i))) /\
  (forall a : InvestmentAsset,
      In a (investments (assets s)) ->
      exists i : string,
        inv_id a = Some i /\
        ~ In a (investments (assets (removeInvestment s i)))).
Proof.
  cbv zeta.
  assert (Hids : forall (acts : list Action) (s : FullState),
             tables_have_ids s -> tables_have_ids (run s acts)).
  { intros l. induction l as [|a l IH]; intros s Hs; [exact Hs|].
    simpl. apply IH. apply step_keeps_ids. exact Hs. }
  assert (H0 : tables_have_ids initialState)
    by (unfold tables_have_ids; simpl; repeat split; constructor).
  specialize (Hids acts initialState H0).
  split; [exact Hids|].
  destruct Hids as (Hl & _ & _ & Hinv & _).
  split.
  - intros l Hin. rewrite Forall_forall in Hl. specialize (Hl l Hin).
    destruct (liab_id l) as [i|] eqn:Hi; [|contradiction].
    exists i. split; [reflexivity|].
    change (liabilities (removeLiability (run initialState acts) i))
      with (filter (fun x => opt_id_differs (liab_id x) i)
              (liabilities (run initialState acts))).
    rewrite filter_In, Hi, opt_id_differs_same. intros [_ H]. discriminate.
  - intros a Hin. rewrite Forall_forall in Hinv. specialize (Hinv a Hin).
    destruct (inv_id a) as [i|] eqn:Hi; [|contradiction].
    exists i. split; [reflexivity|].
    change (investments
              (assets (removeInvestment (run initialState acts) i)))
      with (filter (fun x => opt_id_differs (inv_id x) i)
              (investments (assets (run initialState acts)))).
    rewrite filter_In, Hi, opt_id_differs_same. intros [_ H]. discriminate.
Qed.

Lemma tables_have_ids_along_runs_witness :
  exists i : string,
    liab_id Samples.home_loan = Some i /\
    ~ In Samples.home_loan
        (liabilities
           (removeLiability
              (run initialState [A_addLiability Samples.home_loan "g"]) i)).
Proof.
  destruct (tables_have_ids_along_runs
              [A_addLiability Samples.home_loan "g"]) as (_ & Hl & _).
  apply (Hl Samples.home_loan). left. reflexivity.
Defined.

(** ** Goals *)

Lemma spread_Goal_empty (g : Goal) : spread_Goal g empty_PartialGoal = g.
Proof. destruct g. reflexivity. Qed.

Lemma map_unchanged (A : Type) (f : A -> A) (xs : list A) :
  Forall (fun x => f x = x) xs -> map f xs = xs.
Proof.
  induction 1 as [|x xs Hx _ IH]; simpl; [reflexivity|].
  rewrite Hx, IH. reflexivity.
Qed.

(** [updateGoal] keeps the number and the order of the goals and touches
    only the goals list.  An update that carries no [id] leaves the list
    of goal ids as it was; an [id] that no goal has, or the empty update,
    leaves every goal as it was. *)
Theorem updateGoal_keeps_shape
  (s : FullState) (id : string) (updates : PartialGoal) :
  let s' := updateGoal s id updates in
  List.length (goals s') = List.length (goals s) /\
  (user_profile s' = user_profile s /\ assets s' = assets s /\
   liabilities s' = liabilities s /\ cash_flow s' = cash_flow s /\
   assumptions s' = assumptions s /\
   analysisResults s' = analysisResults s) /\
  (pg_id updates = None ->
   map goal_id (goals s') = map goal_id (goals s)) /\
  (Forall (fun g => goal_id g <> id) (goals s) -> goals s' = goals s) /\
  (updates = empty_PartialGoal -> goals s' = goals s).
Proof.
  cbv zeta. split; [|split; [|split; [|split]]].
  - unfold updateGoal. simpl. apply length_map.
  - repeat split.
  - intros Hid. unfold updateGoal. simpl. rewrite map_map.
    apply map_ext. intros g.
    destruct (String.eqb (goal_id g) id); [|reflexivity].
    simpl. rewrite Hid. reflexivity.
  - intros Hall. unfold updateGoal. simpl. apply map_unchanged.
    apply Forall_forall. intros g Hg.
    rewrite Forall_forall in Hall. specialize (Hall g Hg).
    destruct (String.eqb_spec (goal_id g) id) as [He|_];
      [contradiction | reflexivity].
  - intros ->. unfold updateGoal. simpl. apply map_unchanged.
    apply Forall_forall. intros g _.
    destruct (String.eqb (goal_id g) id);
      [apply spread_Goal_empty | reflexivity].
Qed.

Lemma updateGoal_keeps_shape_witness :
  goals (updateGoal initialState "g1" empty_PartialGoal) = [].
Proof.
  destruct (updateGoal_keeps_shape initialState "g1" empty_PartialGoal)
    as (_ & _ & _ & _ & H).
  rewrite (H eq_refl). reflexivity.
Defined.

(** ** Itemised expenses *)

Lemma spread_spread (A : Type) (o : A) (a b : option A) :
  spread (spread o a) b = spread o (spread_opt a b).
Proof. destruct a, b; reflexivity. Qed.

(** Two itemised updates in a row are one update with the second partial
    object spread over the first; in particular repeating an update
    changes nothing more. *)
Theorem updateDetails_compose (s : FullState) :
  (forall d1 d2 : PartialEssentialExpenses,
      updateEssentialDetails (updateEssentialDetails s d1) d2
      = updateEssentialDetails s (merge_PartialEssential d1 d2)) /\
  (forall d : PartialEssentialExpenses,
      updateEssentialDetails (updateEssentialDetails s d) d
      = updateEssentialDetails s d) /\
  (forall d1 d2 : PartialLifestyleExpenses,
      updateLifestyleDetails (updateLifestyleDetails s d1) d2
      = updateLifestyleDetails s (merge_PartialLifestyle d1 d2)) /\
  (forall d : PartialLifestyleExpenses,
      updateLifestyleDetails (updateLifestyleDetails s d) d
      = updateLifestyleDetails s d).
Proof.
  assert (He : forall d1 d2 : PartialEssentialExpenses,
             updateEssentialDetails (updateEssentialDetails s d1) d2
             = updateEssentialDetails s (merge_PartialEssential d1 d2)).
  { intros d1 d2.
    unfold updateEssentialDetails, spread_EssentialExpenses,
      merge_PartialEssential, Object_values_Essential, set. simpl.
    rewrite !spread_spread. reflexivity. }
  assert (Hl : forall d1 d2 : PartialLifestyleExpenses,
             updateLifestyleDetails (updateLifestyleDetails s d1) d2
             = updateLifestyleDetails s (merge_PartialLifestyle d1 d2)).
  { intros d1 d2.
    unfold updateLifestyleDetails, spread_LifestyleExpenses,
      merge_PartialLifestyle, Object_values_Lifestyle, set. simpl.
    rewrite !spread_spread. reflexivity. }
  assert (Hsame : forall (A : Type) (a : option A), spread_opt a a = a)
    by (intros A [x|]; reflexivity).
  split; [exact He|]. split; [|split; [exact Hl|]].
  - intros d. rewrite He. f_equal.
    destruct d. unfold merge_PartialEssential. simpl.
    rewrite !Hsame. reflexivity.
  - intros d. rewrite Hl. f_equal.
    destruct d. unfold merge_PartialLifestyle. simpl.
    rewrite !Hsame. reflexivity.
Qed.

Lemma step_keeps_itemised (s : FullState) (a : Action) :
  itemised_in_sync s ->
  writes_expense_fields a = false ->
  itemised_in_sync (step s a).
Proof.
  intros Hs Hw.
  destruct a; simpl in Hw; try discriminate Hw;
    try exact Hs;
    try (destruct Hs as [He Hl]; split; [exact He | exact Hl]).
  - (* updateCashFlow *)
    destruct newCashFlow as [pin [po|]]; [discriminate|].
    destruct Hs as [He Hl]. split; [exact He | exact Hl].
  - (* updateOutflows *)
    destruct p as [pe pl ped pld pid ple pli]. simpl in Hw.
    destruct pe; [discriminate|]. destruct pl; [discriminate|].
    destruct ped; [discriminate|]. destruct pld; [discriminate|].
    destruct Hs as [He Hl]. split; [exact He | exact Hl].
  - (* updateEssentialDetails *)
    destruct Hs as [_ Hl]. split; [reflexivity | exact Hl].
  - (* updateLifestyleDetails *)
    destruct Hs as [He _]. split; [exact He | reflexivity].
  - (* reset *)
    split; exact I.
Qed.

(** The lump-sum and the itemised mode reconcile as long as no call hands
    the store an expense total or a details object directly: in every
    state reached from the initial one by calls other than an
    [updateOutflows] with [essential], [lifestyle], [essential_details] or
    [lifestyle_details], or an [updateCashFlow] with [outflows], stored
    essential details add up to [essential] and stored lifestyle details
    to [lifestyle]. *)
Theorem itemised_totals_along_runs (acts : list Action) :
  Forall (fun a => writes_expense_fields a = false) acts ->
  let o := outflows (cash_flow (run initialState acts)) in
  (forall m : EssentialExpenses,
      essential_details o = Some m ->
      essential o
      == house_rent m + maintenance m + property_tax m + utilities m
         + groceries m + transportation m + medical_expenses m
         + children_school_fees m + insurance_premiums m + ess_other m) /\
  (forall m : LifestyleExpenses,
      lifestyle_details o = Some m ->
      lifestyle o
      == maid_expense m + shopping m + travel m + dining_entertainment m
         + life_other m).
Proof.
  intros Hall. cbv zeta.
  assert (Hrun : forall (acts : list Action) (s : FullState),
             itemised_in_sync s ->
             Forall (fun a => writes_expense_fields a = false) acts ->
             itemised_in_sync (run s acts)).
  { intros l. induction l as [|a l IH]; intros s Hs Hl; [exact Hs|].
    inversion Hl as [|? ? Ha Hrest]; subst. simpl.
    apply IH; [apply step_keeps_itemised; assumption | exact Hrest]. }
  assert (H0 : itemised_in_sync initialState) by (split; exact I).
  destruct (Hrun acts initialState H0 Hall) as [He Hl].
  cbv zeta in He, Hl.
  split; intros m Hm.
  - rewrite Hm in He. rewrite He.
    unfold reduce, Object_values_Essential. simpl. unfold number. ring.
  - rewrite Hm in Hl. rewrite Hl.
    unfold reduce, Object_values_Lifestyle. simpl. unfold number. ring.
Qed.

Lemma itemised_totals_along_runs_witness :
  essential
    (outflows
       (cash_flow
          (run initialState
             [A_updateEssentialDetails Samples.groceries_and_other;
              A_addLiability Samples.home_loan "g"])))
  == 18000.
Proof.
  assert (Hall : Forall (fun a => writes_expense_fields a = false)
                   [A_updateEssentialDetails Samples.groceries_and_other;
                    A_addLiability Samples.home_loan "g"])
    by (repeat constructor).
  destruct (itemised_totals_along_runs _ Hall) as [He _].
  rewrite (He _ eq_refl). reflexivity.
Defined.

End MoreStoreFacts.

(* ================================================================== *)
(** * Properties of the forms *)
(* ================================================================== *)

Section FormFacts.

Import Store Js.
Local Open Scope Q_scope.

Lemma truthy_spec (x : number) : truthy x = true <-> ~ x == 0.
Proof.
  unfold truthy. rewrite negb_true_iff.
  split.
  - intros Hf He. apply Qeq_bool_iff in He. congruence.
  - intros Hn. destruct (Qeq_bool x 0) eqn:E; [|reflexivity].
    apply Qeq_bool_iff in E. contradiction.
Qed.

Lemma num_or_truthy (a : option number) (b : number) :
  ~ b == 0 -> ~ num_or a b == 0.
Proof.
  intros Hb. unfold num_or. destruct a as [x|]; [|exact Hb].
  destruct (truthy x) eqn:E; [apply truthy_spec; exact E | exact Hb].
Qed.

Lemma nonempty_spec (s : string) : nonempty s = true <-> s <> EmptyString.
Proof.
  unfold nonempty. rewrite negb_true_iff.
  destruct (String.eqb_spec s EmptyString) as [He|Hne]; split;
    intros; congruence.
Qed.

Lemma positive_spec (x : number) : positive x = true <-> 0 < x.
Proof.
  unfold positive. rewrite negb_true_iff.
  split.
  - intros Hf. apply Qnot_le_lt. intros Hle.
    apply Qle_bool_iff in Hle. congruence.
  - intros Hlt. destruct (Qle_bool x 0) eqn:E; [|reflexivity].
    apply Qle_bool_iff in E. apply Qlt_not_le in Hlt. contradiction.
Qed.

Lemma reduce_sum (A : Type) (f : A -> number) (xs : list A) :
  reduce (fun sum x => sum + f x) xs 0
  == fold_right (fun x acc => f x + acc) 0 xs.
Proof.
  assert (H : forall a : Q,
             fold_left (fun sum x => sum + f x) xs a
             == a + fold_right (fun x acc => f x + acc) 0 xs).
  { unfold number in *.
    induction xs as [|x xs IH]; intros a; simpl; [ring|].
    rewrite IH. ring. }
  unfold reduce. rewrite H. unfold number. ring.
Qed.

Lemma sum_snoc (A : Type) (f : A -> number) (xs : list A) (y : A) :
  fold_right (fun x acc => f x + acc) 0 (xs ++ [y])
  == fold_right (fun x acc => f x + acc) 0 xs + f y.
Proof.
  unfold number in *.
  induction xs as [|x xs IH]; simpl; [ring | rewrite IH; ring].
Qed.

(** ** The loan form *)

Lemma num_or_cases (a : option number) (b : number) :
  (forall x : number,
      a = Some x ->
      (~ x == 0 -> num_or a b = x) /\ (x == 0 -> num_or a b = b)) /\
  (a = None -> num_or a b = b).
Proof.
  split.
  - intros x ->. unfold num_or. split; intros Hx.
    + apply truthy_spec in Hx. rewrite Hx. reflexivity.
    + destruct (truthy x) eqn:E; [|reflexivity].
      apply truthy_spec in E. contradiction.
  - intros ->. reflexivity.
Qed.

(** [handleAddLoan] adds nothing, and keeps the form as it is, unless both
    the outstanding amount and the EMI are present and non-zero.  A loan
    that it adds is appended under the generated [id], with the type, the
    EMI and the outstanding amount of the form.  Its interest rate is the
    one of the form, or 8.5 when that is missing or zero; its tenure the
    one of the form, or 120 when that is missing or zero; its loan amount
    the one of the form, or the outstanding amount when that is missing
    or zero; so none of the three is zero.  [linked_emis] is the old sum
    of EMIs plus the new EMI, and the form is blank again. *)
Theorem handleAddLoan_guards_and_defaults
  (s : FullState) (data : LiabilityForm.LoanData) (fresh : string) :
  (truthy_opt (LiabilityForm.d_outstanding data)
   && truthy_opt (LiabilityForm.d_emi data) = false ->
   LiabilityForm.handleAddLoan s data fresh = (s, data)) /\
  (forall out e : number,
      LiabilityForm.d_outstanding data = Some out ->
      LiabilityForm.d_emi data = Some e ->
      ~ out == 0 -> ~ e == 0 ->
      let s' := fst (LiabilityForm.handleAddLoan s data fresh) in
      snd (LiabilityForm.handleAddLoan s data fresh) = LiabilityForm.blank /\
      linked_emis (outflows (cash_flow s')) == Sigma emi (liabilities s) + e /\
      exists l : Liability,
        liabilities s' = liabilities s ++ [l] /\
        liab_id l = Some fresh /\
        liab_type l = LiabilityForm.d_type data /\
        emi l = e /\ outstanding l = out /\
        (forall r : number,
            LiabilityForm.d_interest_rate data = Some r ->
            (~ r == 0 -> liab_interest_rate l = r) /\
            (r == 0 -> liab_interest_rate l = 85 # 10)) /\
        (LiabilityForm.d_interest_rate data = None ->
         liab_interest_rate l = 85 # 10) /\
        (forall t : number,
            LiabilityForm.d_tenure_months data = Some t ->
            (~ t == 0 -> tenure_months l = t) /\
            (t == 0 -> tenure_months l = 120)) /\
        (LiabilityForm.d_tenure_months data = None ->
         tenure_months l = 120) /\
        (forall a : number,
            LiabilityForm.d_total_loan_amount data = Some a ->
            (~ a == 0 -> total_loan_amount l = Some a) /\
            (a == 0 -> total_loan_amount l = Some out)) /\
        (LiabilityForm.d_total_loan_amount data = None ->
         total_loan_amount l = Some out) /\
        ~ liab_interest_rate l == 0 /\
        ~ tenure_months l == 0 /\
        (exists t : number, total_loan_amount l = Some t /\ ~ t == 0)).
Proof.
  split.
  - unfold LiabilityForm.handleAddLoan, truthy_opt.
    destruct (LiabilityForm.d_outstanding data) as [out|];
      destruct (LiabilityForm.d_emi data) as [e|];
      try reflexivity.
    intros ->. reflexivity.
  - intros out e Hout Hemi Hon Hen. cbv zeta.
    unfold LiabilityForm.handleAddLoan. rewrite Hout, Hemi.
    apply truthy_spec in Hon. apply truthy_spec in Hen.
    rewrite Hon, Hen. simpl andb. cbv iota.
    set (l0 := {| liab_id := None;
                  liab_type := LiabilityForm.d_type data;
                  total_loan_amount :=
                    Some (num_or (LiabilityForm.d_total_loan_amount data) out);
                  outstanding := out; emi := e;
                  liab_interest_rate :=
                    num_or (LiabilityForm.d_interest_rate data) (85 # 10);
                  tenure_months :=
                    num_or (LiabilityForm.d_tenure_months data) 120 |}).
    destruct (num_or_cases (LiabilityForm.d_interest_rate data) (85 # 10))
      as [Hrate Hrate0].
    destruct (num_or_cases (LiabilityForm.d_tenure_months data) 120)
      as [Hten Hten0].
    destruct (num_or_cases (LiabilityForm.d_total_loan_amount data) out)
      as [Htot Htot0].
    split; [reflexivity|]. split.
    + change (linked_emis
                (outflows (cash_flow (fst (addLiability s l0 fresh,
                                           LiabilityForm.blank)))))
        with (reduce (fun sum x => sum + emi x)
                (liabilities s ++ [Liability_with_id l0 fresh]) 0).
      rewrite reduce_sum, sum_snoc. reflexivity.
    + exists (Liability_with_id l0 fresh).
      split; [reflexivity|]. split; [reflexivity|].
      split; [reflexivity|]. split; [reflexivity|].
      split; [reflexivity|].
      split; [exact Hrate|]. split; [exact Hrate0|].
      split; [exact Hten|]. split; [exact Hten0|].
      split.
      { intros a Ha. destruct (Htot a Ha) as [Hk Hd].
        split; intros Hc; simpl; f_equal; [apply Hk | apply Hd]; exact Hc. }
      split.
      { intros Hnone. simpl. f_equal. apply Htot0. exact Hnone. }
      split; [apply num_or_truthy; discriminate|].
      split; [apply num_or_truthy; discriminate|].
      eexists. split; [reflexivity|].
      apply num_or_truthy. apply truthy_spec. exact Hon.
Qed.

(** ** The assets form *)

(** [handleAddInvestment] adds nothing unless a type and a current value
    are present (a zero value passes).  The investment that it adds is
    appended under the generated [id] with the SIP of the form, a missing
    SIP counting as 0, and [linked_investments] is the old sum of SIPs
    plus that SIP. *)
Theorem handleAddInvestment_links_sip
  (s : FullState) (d : AssetsForm.InvestmentData) (fresh : string) :
  (AssetsForm.i_type d = None \/ AssetsForm.i_current_value d = None ->
   AssetsForm.handleAddInvestment s d fresh = s) /\
  (forall (ty : InvestmentType) (v : number),
      AssetsForm.i_type d = Some ty ->
      AssetsForm.i_current_value d = Some v ->
      let s' := AssetsForm.handleAddInvestment s d fresh in
      let sip := num_or (AssetsForm.i_monthly_sip d) 0 in
      (AssetsForm.i_monthly_sip d = None -> sip = 0) /\
      (forall x : number, AssetsForm.i_monthly_sip d = Some x -> sip == x) /\
      linked_investments (outflows (cash_flow s'))
      == Sigma monthly_sip (investments (assets s)) + sip /\
      exists a : InvestmentAsset,
        investments (assets s') = investments (assets s) ++ [a] /\
        inv_id a = Some fresh /\ inv_type a = ty /\
        current_value a = v /\ monthly_sip a = sip).
Proof.
  split.
  - unfold AssetsForm.handleAddInvestment.
    intros [H|H]; rewrite H; [reflexivity|].
    destruct (AssetsForm.i_type d); reflexivity.
  - intros ty v Hty Hv. cbv zeta.
    unfold AssetsForm.handleAddInvestment. rewrite Hty, Hv.
    split; [intros ->; reflexivity|]. split.
    + intros x ->. unfold num_or.
      destruct (truthy x) eqn:E; [reflexivity|].
      unfold truthy in E. apply negb_false_iff in E.
      apply Qeq_bool_iff in E. symmetry. exact E.
    + split.
      * match goal with
        | |- linked_investments
               (outflows (cash_flow (addInvestment s ?a fresh))) == _ =>
            change (linked_investments
                      (outflows (cash_flow (addInvestment s a fresh))))
              with (reduce (fun sum x => sum + monthly_sip x)
                      (investments (assets s)
                       ++ [InvestmentAsset_with_id a fresh]) 0)
        end.
        rewrite reduce_sum, sum_snoc. reflexivity.
      * eexists. split; [reflexivity|]. repeat split.
Qed.


(** ** The goal form *)

Lemma Number_toString_nonempty (n : Z) : Number_toString n <> EmptyString.
Proof.
  unfold Number_toString. intros H.
  destruct (Z.to_int n) as [u|u]; simpl in H.
  - destruct u; discriminate H.
  - discriminate H.
Qed.

Lemma Z_to_int_not_nil (n : Z) :
  Z.to_int n <> Decimal.Pos Decimal.Nil /\
  Z.to_int n <> Decimal.Neg Decimal.Nil.
Proof.
  split; intros H.
  - assert (Hz : n = 0%Z) by (rewrite <- (DecimalZ.of_to n), H; reflexivity).
    subst n. discriminate H.
  - assert (Hz : n = 0%Z) by (rewrite <- (DecimalZ.of_to n), H; reflexivity).
    subst n. discriminate H.
Qed.

Lemma Number_toString_injective (n m : Z) :
  Number_toString n = Number_toString m -> n = m.
Proof.
  unfold Number_toString. intros H.
  destruct (Z_to_int_not_nil n) as [Hn1 Hn2].
  destruct (Z_to_int_not_nil m) as [Hm1 Hm2].
  pose proof (NilZero.isi (Z.to_int n) Hn1 Hn2) as Hn.
  pose proof (NilZero.isi (Z.to_int m) Hm1 Hm2) as Hm.
  rewrite H, Hm in Hn. injection Hn as Hn.
  rewrite <- (DecimalZ.of_to n), <- (DecimalZ.of_to m), Hn. reflexivity.
Qed.

Lemma id_or_nonempty (i fresh : string) :
  i <> EmptyString -> id_or i fresh = i.
Proof.
  intros Hi. unfold id_or.
  destruct (String.eqb_spec i EmptyString); [contradiction | reflexivity].
Qed.

Lemma id_differs_spec (x i : string) : id_differs x i = true <-> x <> i.
Proof.
  unfold id_differs. rewrite negb_true_iff.
  destruct (String.eqb_spec x i); split; intros; congruence.
Qed.

(** The goal that [handleAddGoal] builds when its guard passes. *)
Lemma handleAddGoal_value
  (s : FullState) (g : GoalForm.NewGoal) (now : Z) (fresh : string) :
  GoalForm.n_name g <> EmptyString ->
  0 < GoalForm.n_current_cost g ->
  GoalForm.n_target_value g <> EmptyString ->
  exists goal : Goal,
    GoalForm.handleAddGoal s g now fresh
    = (set s (key_goals (goals s ++ [goal])), GoalForm.blank) /\
    goal_id goal = Number_toString now /\
    current_cost goal = GoalForm.n_current_cost g /\
    target_type goal = GoalForm.n_target_type g /\
    target_value goal = TV_string (GoalForm.n_target_value g) /\
    (GoalForm.n_person_name g = EmptyString ->
     goal_name goal = GoalForm.n_name g /\ goal_person_name goal = None) /\
    (GoalForm.n_person_name g <> EmptyString ->
     goal_name goal
     = (GoalForm.n_person_name g ++ " " ++ GoalForm.n_name g)%string /\
     goal_person_name goal = Some (GoalForm.n_person_name g)).
Proof.
  intros Hn Hc Ht.
  unfold GoalForm.handleAddGoal.
  apply nonempty_spec in Hn. apply positive_spec in Hc.
  apply nonempty_spec in Ht. rewrite Hn, Hc, Ht. simpl andb. cbv iota.
  eexists. split.
  - unfold addGoal. cbn [goal_id].
    rewrite (id_or_nonempty _ fresh (Number_toString_nonempty now)).
    reflexivity.
  - split; [reflexivity|]. split; [reflexivity|].
    split; [reflexivity|]. split; [reflexivity|].
    cbn [Goal_with_id goal_name goal_person_name]. split.
    + intros He. rewrite He. split; reflexivity.
    + intros He. apply nonempty_spec in He. rewrite He. split; reflexivity.
Qed.

(** [handleAddGoal] adds nothing, and keeps the form as it is, unless the
    name is non-empty, the cost is positive and the target is non-empty.
    The goal that it adds goes to the end of the list with the time in
    milliseconds, in decimal, as its [id] (the generated identifier is
    never used), a positive cost, the target as a string, and the person's
    name, when one is chosen, put in front of the goal's name; the form is
    blank again. *)
Theorem handleAddGoal_guards
  (s : FullState) (g : GoalForm.NewGoal) (now : Z) (fresh : string) :
  (GoalForm.n_name g = EmptyString \/ GoalForm.n_current_cost g <= 0 \/
   GoalForm.n_target_value g = EmptyString ->
   GoalForm.handleAddGoal s g now fresh = (s, g)) /\
  (GoalForm.n_name g <> EmptyString ->
   0 < GoalForm.n_current_cost g ->
   GoalForm.n_target_value g <> EmptyString ->
   let r := GoalForm.handleAddGoal s g now fresh in
   snd r = GoalForm.blank /\
   exists goal : Goal,
     goals (fst r) = goals s ++ [goal] /\
     goal_id goal = Number_toString now /\
     goal_id goal <> EmptyString /\
     0 < current_cost goal /\
     target_value goal = TV_string (GoalForm.n_target_value g) /\
     (GoalForm.n_person_name g = EmptyString ->
      goal_name goal = GoalForm.n_name g /\ goal_person_name goal = None) /\
     (GoalForm.n_person_name g <> EmptyString ->
      goal_name goal
      = (GoalForm.n_person_name g ++ " " ++ GoalForm.n_name g)%string /\
      goal_person_name goal = Some (GoalForm.n_person_name g))).
Proof.
  split.
  - unfold GoalForm.handleAddGoal. intros [H|[H|H]].
    + rewrite H. reflexivity.
    + destruct (positive (GoalForm.n_current_cost g)) eqn:E.
      * apply positive_spec in E. apply Qlt_not_le in E. contradiction.
      * rewrite andb_false_r. reflexivity.
    + rewrite H. simpl. rewrite andb_false_r. reflexivity.
  - intros Hn Hc Ht. cbv zeta.
    destruct (handleAddGoal_value s g now fresh Hn Hc Ht)
      as (goal & Hr & Hid & Hcost & _ & Htv & Hnone & Hsome).
    rewrite Hr. split; [reflexivity|].
    exists goal. split; [reflexivity|]. split; [exact Hid|].
    split; [rewrite Hid; apply Number_toString_nonempty|].
    split; [rewrite Hcost; exact Hc|].
    split; [exact Htv|]. split; assumption.
Qed.

(** Goal ids are timestamps.  Two goals added at different milliseconds
    have different ids, and removing the second by its id keeps the
    first; two goals added within the same millisecond share their id,
    and removing by it takes both out. *)
Theorem goals_added_by_timestamp
  (s : FullState) (g1 g2 : GoalForm.NewGoal) (t1 t2 : Z)
  (fresh1 fresh2 : string) :
  GoalForm.n_name g1 <> EmptyString -> 0 < GoalForm.n_current_cost g1 ->
  GoalForm.n_target_value g1 <> EmptyString ->
  GoalForm.n_name g2 <> EmptyString -> 0 < GoalForm.n_current_cost g2 ->
  GoalForm.n_target_value g2 <> EmptyString ->
  Forall (fun g => goal_id g <> Number_toString t2) (goals s) ->
  let s1 := fst (GoalForm.handleAddGoal s g1 t1 fresh1) in
  let s2 := fst (GoalForm.handleAddGoal s1 g2 t2 fresh2) in
  (t1 <> t2 -> goals (removeGoal s2 (Number_toString t2)) = goals s1) /\
  (t1 = t2 -> goals (removeGoal s2 (Number_toString t2)) = goals s).
Proof.
  intros Hn1 Hc1 Ht1 Hn2 Hc2 Ht2 Hall. cbv zeta.
  destruct (handleAddGoal_value s g1 t1 fresh1 Hn1 Hc1 Ht1)
    as (goal1 & Hr1 & Hid1 & _).
  rewrite Hr1. cbn [fst].
  destruct (handleAddGoal_value (set s (key_goals (goals s ++ [goal1])))
              g2 t2 fresh2 Hn2 Hc2 Ht2)
    as (goal2 & Hr2 & Hid2 & _).
  rewrite Hr2. cbn [fst].
  assert (Hkeep : Forall (fun g => id_differs (goal_id g) (Number_toString t2)
                                   = true) (goals s)).
  { apply Forall_forall. intros g Hg. apply id_differs_spec.
    rewrite Forall_forall in Hall. apply Hall. exact Hg. }
  assert (Hdrop2 : id_differs (goal_id goal2) (Number_toString t2) = false).
  { rewrite Hid2. unfold id_differs. rewrite String.eqb_refl. reflexivity. }
  unfold removeGoal. simpl.
  split; intros Ht.
  - rewrite filter_app. cbn [filter]. rewrite Hdrop2, app_nil_r.
    rewrite filter_app. cbn [filter].
    assert (Hkeep1 : id_differs (goal_id goal1) (Number_toString t2) = true).
    { apply id_differs_spec. rewrite Hid1. intros He.
      apply Number_toString_injective in He. contradiction. }
    rewrite Hkeep1. rewrite (filter_keeps_all _ _ _ Hkeep). reflexivity.
  - subst t2.
    rewrite filter_app. cbn [filter]. rewrite Hdrop2, app_nil_r.
    rewrite filter_app. cbn [filter].
    assert (Hdrop1 : id_differs (goal_id goal1) (Number_toString t1) = false).
    { rewrite Hid1. unfold id_differs. rewrite String.eqb_refl.
      reflexivity. }
    rewrite Hdrop1, app_nil_r. apply filter_keeps_all. exact Hkeep.
Qed.

Lemma handleAddLoan_guards_and_defaults_witness :
  LiabilityForm.handleAddLoan initialState LiabilityForm.blank "g"
  = (initialState, LiabilityForm.blank) /\
  linked_emis
    (outflows
       (cash_flow
          (fst (LiabilityForm.handleAddLoan Samples.stale_store
                  FormSamples.loan_without_rate "g"))))
  == 71000 /\
  (exists l : Liability,
      liabilities
        (fst (LiabilityForm.handleAddLoan Samples.stale_store
                FormSamples.loan_without_rate "g"))
      = liabilities Samples.stale_store ++ [l] /\
      liab_type l = Loan_Education /\
      liab_interest_rate l = 85 # 10 /\
      tenure_months l = 120 /\
      total_loan_amount l = Some 400000) /\
  (exists l : Liability,
      liabilities
        (fst (LiabilityForm.handleAddLoan Samples.stale_store
                FormSamples.loan_with_rate "g"))
      = liabilities Samples.stale_store ++ [l] /\
      liab_interest_rate l = 95 # 10 /\
      tenure_months l = 84 /\
      total_loan_amount l = Some 500000).
Proof.
  destruct (handleAddLoan_guards_and_defaults initialState
              LiabilityForm.blank "g") as [Hskip _].
  destruct (handleAddLoan_guards_and_defaults Samples.stale_store
              FormSamples.loan_without_rate "g") as [_ Hadd].
  destruct (handleAddLoan_guards_and_defaults Samples.stale_store
              FormSamples.loan_with_rate "g") as [_ Hkeep].
  destruct (Hadd 400000 18000)
    as (_ & Hlink & l & Hl & _ & Hty & _ & _ & Hr & _ & _ & Ht & Ha & _);
    [reflexivity | reflexivity | discriminate | discriminate |].
  destruct (Hkeep 400000 9000)
    as (_ & _ & k & Hk & _ & _ & _ & _ & Kr & _ & Kt & _ & Ka & _);
    [reflexivity | reflexivity | discriminate | discriminate |].
  split; [apply Hskip; reflexivity|].
  split; [rewrite Hlink; reflexivity|].
  split.
  - exists l. split; [exact Hl|]. split; [exact Hty|].
    split; [apply (Hr 0 eq_refl); reflexivity|].
    split; [apply Ht; reflexivity|].
    apply (Ha 0 eq_refl). reflexivity.
  - exists k. split; [exact Hk|].
    split; [apply (Kr (95 # 10) eq_refl); discriminate|].
    split; [apply (Kt 84 eq_refl); discriminate|].
    apply (Ka 500000 eq_refl). discriminate.
Defined.

Lemma handleAddInvestment_links_sip_witness :
  linked_investments
    (outflows
       (cash_flow
          (AssetsForm.handleAddInvestment Samples.stale_store
             FormSamples.fund_without_sip "g")))
  == 0.
Proof.
  destruct (handleAddInvestment_links_sip Samples.stale_store
              FormSamples.fund_without_sip "g") as [_ Hadd].
  destruct (Hadd Inv_MF 0 eq_refl eq_refl) as (_ & _ & Hlink & _).
  rewrite Hlink. reflexivity.
Defined.


Lemma handleAddGoal_guards_witness :
  GoalForm.handleAddGoal initialState GoalForm.blank 1768608000000 "g"
  = (initialState, GoalForm.blank) /\
  exists goal : Goal,
    goals (fst (GoalForm.handleAddGoal initialState FormSamples.goal_marriage
                  1768608000000 "g"))
    = [goal] /\
    goal_id goal = "1768608000000"%string /\
    goal_name goal = "Arjun Marriage"%string.
Proof.
  destruct (handleAddGoal_guards initialState GoalForm.blank
              1768608000000 "g") as [Hskip _].
  destruct (handleAddGoal_guards initialState FormSamples.goal_marriage
              1768608000000 "g") as [_ Hadd].
  split.
  - apply Hskip. left. reflexivity.
  - destruct Hadd as (_ & goal & Hg & Hid & _ & _ & _ & _ & Hname);
      try discriminate; try reflexivity.
    exists goal. split; [exact Hg|]. split; [exact Hid|].
    apply Hname. discriminate.
Defined.

Lemma goals_added_by_timestamp_witness :
  goals
    (removeGoal
       (fst (GoalForm.handleAddGoal
               (fst (GoalForm.handleAddGoal initialState
                       FormSamples.goal_car 1768608000000 "g"))
               FormSamples.goal_marriage 1768608000000 "h"))
       "1768608000000")
  = [].
Proof.
  apply (goals_added_by_timestamp initialState FormSamples.goal_car
           FormSamples.goal_marriage 1768608000000 1768608000000 "g" "h");
    try discriminate; try reflexivity.
  constructor.
Defined.

(** Templates.  A template without a target age (the car and the house)
    leaves the target empty, so adding it as it is does nothing; a
    template with a target age, a name and a positive cost can be added as
    it is, and gives a goal by age whose target is that age in decimal. *)
Theorem applyTemplate_then_add
  (s : FullState) (g : GoalForm.NewGoal) (tpl : GoalForm.Template)
  (now : Z) (fresh : string) :
  let g' := GoalForm.applyTemplate g tpl in
  ((GoalForm.targetAge tpl <= 0)%Z ->
   GoalForm.n_target_type g' = DATE /\
   GoalForm.handleAddGoal s g' now fresh = (s, g')) /\
  ((0 < GoalForm.targetAge tpl)%Z ->
   GoalForm.t_name tpl <> EmptyString ->
   0 < GoalForm.defaultCost tpl ->
   exists goal : Goal,
     goals (fst (GoalForm.handleAddGoal s g' now fresh)) = goals s ++ [goal] /\
     target_type goal = AGE /\
     target_value goal
     = TV_string (Number_toString (GoalForm.targetAge tpl)) /\
     current_cost goal = GoalForm.defaultCost tpl).
Proof.
  cbv zeta. split.
  - intros Hage.
    assert (Hlt : (0 <? GoalForm.targetAge tpl)%Z = false)
      by (apply Z.ltb_ge; exact Hage).
    unfold GoalForm.applyTemplate. rewrite Hlt. split; [reflexivity|].
    unfold GoalForm.handleAddGoal. cbn [GoalForm.n_target_value].
    unfold nonempty at 3. simpl. rewrite !andb_false_r. reflexivity.
  - intros Hage Hname Hcost.
    assert (Hlt : (0 <? GoalForm.targetAge tpl)%Z = true)
      by (apply Z.ltb_lt; exact Hage).
    destruct (handleAddGoal_value s (GoalForm.applyTemplate g tpl) now fresh)
      as (goal & Hr & _ & Hc & Hty & Htv & _).
    + exact Hname.
    + exact Hcost.
    + unfold GoalForm.applyTemplate. cbn [GoalForm.n_target_value].
      rewrite Hlt. apply Number_toString_nonempty.
    + exists goal. rewrite Hr. split; [reflexivity|].
      unfold GoalForm.applyTemplate in Hc, Hty, Htv.
      cbn [GoalForm.n_target_value GoalForm.n_target_type
             GoalForm.n_current_cost] in Hc, Hty, Htv.
      rewrite Hlt in Hty, Htv.
      split; [exact Hty|]. split; [exact Htv | exact Hc].
Qed.

Lemma applyTemplate_then_add_witness :
  GoalForm.handleAddGoal initialState
    (GoalForm.applyTemplate GoalForm.blank FormSamples.template_car)
    1768608000000 "g"
  = (initialState,
     GoalForm.applyTemplate GoalForm.blank FormSamples.template_car) /\
  exists goal : Goal,
    goals (fst (GoalForm.handleAddGoal initialState
                  (GoalForm.applyTemplate GoalForm.blank
                     FormSamples.template_graduation)
                  1768608000000 "g"))
    = [goal] /\
    target_value goal = TV_string "18".
Proof.
  destruct (applyTemplate_then_add initialState GoalForm.blank
              FormSamples.template_car 1768608000000 "g") as [Hcar _].
  destruct (applyTemplate_then_add initialState GoalForm.blank
              FormSamples.template_graduation 1768608000000 "g")
    as [_ Hgrad].
  split.
  - apply Hcar. simpl. lia.
  - destruct Hgrad as (goal & Hg & _ & Htv & _);
      [reflexivity | discriminate | reflexivity |].
    exists goal. split; [exact Hg | exact Htv].
Defined.

(** ** The cash-flow form *)

Lemma spread_EssentialExpenses_all (o e : EssentialExpenses) :
  spread_EssentialExpenses o (CashFlowForm.essential_arg e) = e.
Proof. destruct e. reflexivity. Qed.

Lemma spread_LifestyleExpenses_all (o l : LifestyleExpenses) :
  spread_LifestyleExpenses o (CashFlowForm.lifestyle_arg l) = l.
Proof. destruct l. reflexivity. Qed.

Lemma updateEssentialDetails_all (s : FullState) (e : EssentialExpenses) :
  essential_details
    (outflows (cash_flow
                 (updateEssentialDetails s (CashFlowForm.essential_arg e))))
  = Some e /\
  essential
    (outflows (cash_flow
                 (updateEssentialDetails s (CashFlowForm.essential_arg e))))
  = reduce (fun a b => a + b) (Object_values_Essential e) 0.
Proof.
  unfold updateEssentialDetails. cbv zeta. simpl.
  rewrite spread_EssentialExpenses_all. split; reflexivity.
Qed.

Lemma updateLifestyleDetails_all (s : FullState) (l : LifestyleExpenses) :
  lifestyle_details
    (outflows (cash_flow
                 (updateLifestyleDetails s (CashFlowForm.lifestyle_arg l))))
  = Some l /\
  lifestyle
    (outflows (cash_flow
                 (updateLifestyleDetails s (CashFlowForm.lifestyle_arg l))))
  = reduce (fun a b => a + b) (Object_values_Lifestyle l) 0.
Proof.
  unfold updateLifestyleDetails. cbv zeta. simpl.
  rewrite spread_LifestyleExpenses_all. split; reflexivity.
Qed.

(** Submitting the cash-flow form stores the totals that the form
    displays: [essential] is the form's essential total and [lifestyle]
    its lifestyle total, in either mode.  In itemised mode the itemised
    values of the form replace the stored details; in lump-sum mode the
    stored details, if any, stay as they were. *)
Theorem handleSubmit_stores_displayed_totals
  (s : FullState) (f : CashFlowForm.FormState) :
  let o := outflows (cash_flow s) in
  let o' := outflows (cash_flow (CashFlowForm.handleSubmit s f)) in
  essential o' = CashFlowForm.totalEssential f /\
  lifestyle o' = CashFlowForm.totalLifestyle f /\
  essential_details o'
  = (if CashFlowForm.showEssentialDetails f
     then Some (CashFlowForm.form_essential f) else essential_details o) /\
  lifestyle_details o'
  = (if CashFlowForm.showLifestyleDetails f
     then Some (CashFlowForm.form_lifestyle f) else lifestyle_details o).
Proof.
  cbv zeta.
  unfold CashFlowForm.handleSubmit, CashFlowForm.totalEssential,
    CashFlowForm.totalLifestyle.
  destruct (CashFlowForm.showEssentialDetails f);
    destruct (CashFlowForm.showLifestyleDetails f); cbv zeta.
  - set (s1 := updateInflows s _).
    destruct (updateEssentialDetails_all s1 (CashFlowForm.form_essential f))
      as [Hd Ht].
    set (s2 := updateEssentialDetails s1 _) in *.
    destruct (updateLifestyleDetails_all s2 (CashFlowForm.form_lifestyle f))
      as [Hd' Ht'].
    repeat split; assumption.
  - set (s1 := updateInflows s _).
    destruct (updateEssentialDetails_all s1 (CashFlowForm.form_essential f))
      as [Hd Ht].
    repeat split; assumption.
  - set (s1 := updateInflows s _).
    set (s2 := updateOutflows s1 _).
    destruct (updateLifestyleDetails_all s2 (CashFlowForm.form_lifestyle f))
      as [Hd' Ht'].
    repeat split; assumption.
  - repeat split.
Qed.

(** What submitting the cash-flow form leaves alone: the income called
    [other] and the child inflation, for which the form has no field, the
    linked values, the investment details, and every section outside the
    cash flow and the assumptions.  The four incomes and the three rates of
    the form are stored as they are. *)
Theorem handleSubmit_frame (s : FullState) (f : CashFlowForm.FormState) :
  let s' := CashFlowForm.handleSubmit s f in
  (in_other (inflows (cash_flow s')) = in_other (inflows (cash_flow s)) /\
   child_inflation (assumptions s') = child_inflation (assumptions s) /\
   linked_emis (outflows (cash_flow s'))
   = linked_emis (outflows (cash_flow s)) /\
   linked_investments (outflows (cash_flow s'))
   = linked_investments (outflows (cash_flow s)) /\
   investment_details (outflows (cash_flow s'))
   = investment_details (outflows (cash_flow s))) /\
  (user_profile s' = user_profile s /\ goals s' = goals s /\
   assets s' = assets s /\ liabilities s' = liabilities s /\
   analysisResults s' = analysisResults s) /\
  (primary_income (inflows (cash_flow s'))
   = CashFlowForm.f_primary_income (CashFlowForm.form_inflows f) /\
   spouse_income (inflows (cash_flow s'))
   = CashFlowForm.f_spouse_income (CashFlowForm.form_inflows f) /\
   rental_income (inflows (cash_flow s'))
   = CashFlowForm.f_rental_income (CashFlowForm.form_inflows f) /\
   additional_income (inflows (cash_flow s'))
   = CashFlowForm.f_additional_income (CashFlowForm.form_inflows f)) /\
  (inflation (assumptions s')
   = CashFlowForm.la_inflation (CashFlowForm.localAssumptions f) /\
   pre_retire_roi (assumptions s')
   = CashFlowForm.la_pre_retire_roi (CashFlowForm.localAssumptions f) /\
   post_retire_roi (assumptions s')
   = CashFlowForm.la_post_retire_roi (CashFlowForm.localAssumptions f)).
Proof.
  cbv zeta. unfold CashFlowForm.handleSubmit.
  destruct (CashFlowForm.showEssentialDetails f);
    destruct (CashFlowForm.showLifestyleDetails f);
    cbv zeta; repeat split.
Qed.

Lemma handleSubmit_stores_displayed_totals_witness :
  essential
    (outflows (cash_flow (CashFlowForm.handleSubmit Samples.stale_store
                            FormSamples.mixed_form)))
  == 60000 /\
  lifestyle
    (outflows (cash_flow (CashFlowForm.handleSubmit Samples.stale_store
                            FormSamples.mixed_form)))
  == 25000.
Proof.
  destruct (handleSubmit_stores_displayed_totals Samples.stale_store
              FormSamples.mixed_form) as (He & Hl & _ & _).
  rewrite He, Hl. split; reflexivity.
Defined.

End FormFacts.

(* ================================================================== *)
(** * Properties of the test-data page *)
(* ================================================================== *)

Section LoadFacts.

Import Store LoadTestData LoadLaws.
Local Open Scope Q_scope.

Lemma forEach_add_cons (A : Type)
  (add : FullState -> A -> string -> FullState)
  (x : A) (xs : list A) (fresh : nat -> string) (s : FullState) (n : nat) :
  forEach_add add (x :: xs) fresh (s, n)
  = forEach_add add xs fresh (add s x (fresh n), S n).
Proof. reflexivity. Qed.

Lemma forEach_add_count (A : Type)
  (add : FullState -> A -> string -> FullState)
  (xs : list A) (fresh : nat -> string) (s : FullState) (n : nat) :
  snd (forEach_add add xs fresh (s, n)) = (n + List.length xs)%nat.
Proof.
  revert s n. induction xs as [|x xs IH]; intros s n.
  - simpl. lia.
  - rewrite forEach_add_cons, IH. simpl. lia.
Qed.

Lemma forEach_add_table (A : Type)
  (add : FullState -> A -> string -> FullState)
  (table : FullState -> list A) (stamp : A -> string -> A)
  (fresh : nat -> string) :
  (forall s x f, table (add s x f) = table s ++ [stamp x f]) ->
  forall (xs : list A) (s : FullState) (n : nat),
    table (fst (forEach_add add xs fresh (s, n)))
    = table s ++ stamped stamp xs fresh n.
Proof.
  intros Hadd xs. induction xs as [|x xs IH]; intros s n.
  - simpl. rewrite app_nil_r. reflexivity.
  - rewrite forEach_add_cons, IH, Hadd. simpl.
    rewrite <- app_assoc. reflexivity.
Qed.

Lemma forEach_add_frame (A B : Type)
  (add : FullState -> A -> string -> FullState)
  (proj : FullState -> B) (fresh : nat -> string) :
  (forall s x f, proj (add s x f) = proj s) ->
  forall (xs : list A) (s : FullState) (n : nat),
    proj (fst (forEach_add add xs fresh (s, n))) = proj s.
Proof.
  intros Hadd xs. induction xs as [|x xs IH]; intros s n.
  - reflexivity.
  - rewrite forEach_add_cons, IH, Hadd. reflexivity.
Qed.

Lemma pair_fst_snd (A B : Type) (p : A * B) : p = (fst p, snd p).
Proof. destruct p. reflexivity. Qed.

Lemma Sigma_stamped_emi (xs : list Liability) (fresh : nat -> string)
  (n : nat) :
  Sigma emi (stamped stamp_Liability xs fresh n) == Sigma emi xs.
Proof.
  revert n. unfold Sigma, number.
  induction xs as [|x xs IH]; intros n; simpl; [reflexivity|].
  rewrite IH. reflexivity.
Qed.

Lemma Sigma_stamped_sip (xs : list InvestmentAsset) (fresh : nat -> string)
  (n : nat) :
  Sigma monthly_sip (stamped stamp_Investment xs fresh n)
  == Sigma monthly_sip xs.
Proof.
  revert n. unfold Sigma, number.
  induction xs as [|x xs IH]; intros n; simpl; [reflexivity|].
  rewrite IH. reflexivity.
Qed.

Lemma reduce_Sigma_load (A : Type) (f : A -> number) (xs : list A) :
  reduce (fun sum x => sum + f x) xs 0 == Sigma f xs.
Proof.
  assert (H : forall a : Q,
             fold_left (fun sum x => sum + f x) xs a == a + Sigma f xs).
  { unfold Sigma, number in *.
    induction xs as [|x xs IH]; intros a; simpl; [ring|].
    rewrite IH. ring. }
  unfold reduce. rewrite H. unfold number. ring.
Qed.

(** The store just before the cash-flow calls of [handleLoadData]. *)
Lemma handleLoadData_tables_loaded
  (s : FullState) (data : Payload) (fresh : nat -> string) :
  liabilities (handleLoadData s data fresh)
  = stamped stamp_Liability (payload_liabilities data) fresh
      (calls_before_liabilities data) /\
  investments (assets (handleLoadData s data fresh))
  = stamped stamp_Investment (investments (payload_assets data)) fresh
      (calls_before_investments data) /\
  goals (handleLoadData s data fresh)
  = stamped stamp_Goal (payload_goals data) fresh 0.
Proof.
  unfold handleLoadData. cbv zeta.
  set (up := payload_user_profile data).
  set (s0 := match spouse up with
             | Some sp => setSpouse (setProfile (reset s) up) (Some sp)
             | None => setProfile (reset s) up
             end).
  assert (H0 : goals s0 = [] /\ liabilities s0 = [] /\
               investments (assets s0) = [])
    by (unfold s0; destruct (spouse up); repeat split).
  destruct H0 as (Hg0 & Hl0 & Hi0).
  set (sn1 := forEach_add addGoal (payload_goals data) fresh (s0, 0%nat)).
  set (sn2 := forEach_add addRealEstate _ fresh sn1).
  set (sn3 := forEach_add addBankAccount _ fresh sn2).
  set (sn4 := forEach_add addInvestment _ fresh sn3).
  set (sn5 := forEach_add addInsurancePolicy _ fresh sn4).
  set (s6 := updateLiquidCash (fst sn5) _).
  set (sn7 := forEach_add addLiability _ fresh (s6, snd sn5)).
  assert (Hn1 : snd sn1 = List.length (payload_goals data))
    by (unfold sn1; rewrite forEach_add_count; reflexivity).
  assert (Hn2 : snd sn2
                = (List.length (payload_goals data)
                   + List.length (real_estate (payload_assets data)))%nat)
    by (unfold sn2; rewrite (pair_fst_snd _ _ sn1), forEach_add_count, Hn1;
        reflexivity).
  assert (Hn3 : snd sn3 = calls_before_investments data)
    by (unfold sn3; rewrite (pair_fst_snd _ _ sn2), forEach_add_count, Hn2;
        reflexivity).
  assert (Hn4 : snd sn4
                = (calls_before_investments data
                   + List.length (investments (payload_assets data)))%nat)
    by (unfold sn4; rewrite (pair_fst_snd _ _ sn3), forEach_add_count, Hn3;
        reflexivity).
  assert (Hn5 : snd sn5 = calls_before_liabilities data)
    by (unfold sn5; rewrite (pair_fst_snd _ _ sn4), forEach_add_count, Hn4;
        reflexivity).
  (* goals *)
  assert (Hg1 : goals (fst sn1)
                = stamped stamp_Goal (payload_goals data) fresh 0).
  { unfold sn1.
    rewrite (forEach_add_table _ addGoal goals stamp_Goal fresh
               (fun _ _ _ => eq_refl)), Hg0.
    reflexivity. }
  assert (Hg2 : goals (fst sn2) = goals (fst sn1)).
  { unfold sn2. rewrite (pair_fst_snd _ _ sn1).
    apply (forEach_add_frame _ _ addRealEstate goals fresh
             (fun _ _ _ => eq_refl)). }
  assert (Hg3 : goals (fst sn3) = goals (fst sn2)).
  { unfold sn3. rewrite (pair_fst_snd _ _ sn2).
    apply (forEach_add_frame _ _ addBankAccount goals fresh
             (fun _ _ _ => eq_refl)). }
  assert (Hg4 : goals (fst sn4) = goals (fst sn3)).
  { unfold sn4. rewrite (pair_fst_snd _ _ sn3).
    apply (forEach_add_frame _ _ addInvestment goals fresh
             (fun _ _ _ => eq_refl)). }
  assert (Hg5 : goals (fst sn5) = goals (fst sn4)).
  { unfold sn5. rewrite (pair_fst_snd _ _ sn4).
    apply (forEach_add_frame _ _ addInsurancePolicy goals fresh
             (fun _ _ _ => eq_refl)). }
  assert (Hg7 : goals (fst sn7) = goals s6).
  { unfold sn7.
    apply (forEach_add_frame _ _ addLiability goals fresh
             (fun _ _ _ => eq_refl)). }
  (* investments *)
  assert (Hi1 : investments (assets (fst sn1)) = investments (assets s0)).
  { unfold sn1.
    apply (forEach_add_frame _ _ addGoal
             (fun s => investments (assets s)) fresh
             (fun _ _ _ => eq_refl)). }
  assert (Hi2 : investments (assets (fst sn2))
                = investments (assets (fst sn1))).
  { unfold sn2. rewrite (pair_fst_snd _ _ sn1).
    apply (forEach_add_frame _ _ addRealEstate
             (fun s => investments (assets s)) fresh
             (fun _ _ _ => eq_refl)). }
  assert (Hi3 : investments (assets (fst sn3))
                = investments (assets (fst sn2))).
  { unfold sn3. rewrite (pair_fst_snd _ _ sn2).
    apply (forEach_add_frame _ _ addBankAccount
             (fun s => investments (assets s)) fresh
             (fun _ _ _ => eq_refl)). }
  assert (Hi4 : investments (assets (fst sn4))
                = investments (assets (fst sn3))
                  ++ stamped stamp_Investment
                       (investments (payload_assets data)) fresh
                       (calls_before_investments data)).
  { unfold sn4. rewrite (pair_fst_snd _ _ sn3), Hn3.
    apply (forEach_add_table _ addInvestment
             (fun s => investments (assets s)) stamp_Investment fresh
             (fun _ _ _ => eq_refl)). }
  assert (Hi5 : investments (assets (fst sn5))
                = investments (assets (fst sn4))).
  { unfold sn5. rewrite (pair_fst_snd _ _ sn4).
    apply (forEach_add_frame _ _ addInsurancePolicy
             (fun s => investments (assets s)) fresh
             (fun _ _ _ => eq_refl)). }
  assert (Hi7 : investments (assets (fst sn7)) = investments (assets s6)).
  { unfold sn7.
    apply (forEach_add_frame _ _ addLiability
             (fun s => investments (assets s)) fresh
             (fun _ _ _ => eq_refl)). }
  (* liabilities *)
  assert (Hl1 : liabilities (fst sn1) = liabilities s0).
  { unfold sn1.
    apply (forEach_add_frame _ _ addGoal liabilities fresh
             (fun _ _ _ => eq_refl)). }
  assert (Hl2 : liabilities (fst sn2) = liabilities (fst sn1)).
  { unfold sn2. rewrite (pair_fst_snd _ _ sn1).
    apply (forEach_add_frame _ _ addRealEstate liabilities fresh
             (fun _ _ _ => eq_refl)). }
  assert (Hl3 : liabilities (fst sn3) = liabilities (fst sn2)).
  { unfold sn3. rewrite (pair_fst_snd _ _ sn2).
    apply (forEach_add_frame _ _ addBankAccount liabilities fresh
             (fun _ _ _ => eq_refl)). }
  assert (Hl4 : liabilities (fst sn4) = liabilities (fst sn3)).
  { unfold sn4. rewrite (pair_fst_snd _ _ sn3).
    apply (forEach_add_frame _ _ addInvestment liabilities fresh
             (fun _ _ _ => eq_refl)). }
  assert (Hl5 : liabilities (fst sn5) = liabilities (fst sn4)).
  { unfold sn5. rewrite (pair_fst_snd _ _ sn4).
    apply (forEach_add_frame _ _ addInsurancePolicy liabilities fresh
             (fun _ _ _ => eq_refl)). }
  assert (Hl7 : liabilities (fst sn7)
                = liabilities s6
                  ++ stamped stamp_Liability (payload_liabilities data)
                       fresh (calls_before_liabilities data)).
  { unfold sn7. rewrite Hn5.
    apply (forEach_add_table _ addLiability liabilities stamp_Liability
             fresh (fun _ _ _ => eq_refl)). }
  assert (Hl6 : liabilities s6 = liabilities (fst sn5)) by reflexivity.
  assert (Hi6 : investments (assets s6) = investments (assets (fst sn5)))
    by reflexivity.
  assert (Hg6 : goals s6 = goals (fst sn5)) by reflexivity.
  set (o := outflows (payload_cash_flow data)).
  destruct (essential_details o); destruct (lifestyle_details o);
    cbn [liabilities investments assets goals recalculateLinkedValues];
    simpl;
    (split; [|split]).
  all: try (rewrite Hl7, Hl6, Hl5, Hl4, Hl3, Hl2, Hl1, Hl0; reflexivity).
  all: try (rewrite Hi7, Hi6, Hi5, Hi4, Hi3, Hi2, Hi1, Hi0; reflexivity).
  all: try (rewrite Hg7, Hg6, Hg5, Hg4, Hg3, Hg2, Hg1; reflexivity).
Qed.

Lemma stamp_Liability_keeps (l : Liability) (f i : string) :
  liab_id l = Some i -> i <> EmptyString -> stamp_Liability l f = l.
Proof.
  intros Hi Hne. destruct l as [id ty tot out e ir ten]. simpl in Hi.
  subst id. unfold stamp_Liability, Liability_with_id, opt_id_or, id_or.
  simpl.
  destruct (String.eqb_spec i EmptyString); [contradiction | reflexivity].
Qed.

Lemma stamped_keeps_all (xs : list Liability) (fresh : nat -> string)
  (n : nat) :
  Forall (fun l => exists i, liab_id l = Some i /\ i <> EmptyString) xs ->
  stamped stamp_Liability xs fresh n = xs.
Proof.
  intros Hall. revert n.
  induction Hall as [|x xs (i & Hi & Hne) _ IH]; intros n; simpl;
    [reflexivity|].
  rewrite (stamp_Liability_keeps x (fresh n) i Hi Hne), IH. reflexivity.
Qed.

(** Loading a profile on the test-data page fills the liabilities and the
    investments with the entries of the profile, in order, each under its
    own [id] or a generated one, and leaves the two linked values at the
    sums over those entries, whatever linked values the profile itself
    states.  Liabilities that all come with a non-empty [id] are stored
    exactly as the profile has them. *)
Theorem handleLoadData_relinks
  (s : FullState) (data : Payload) (fresh : nat -> string) :
  let s' := handleLoadData s data fresh in
  liabilities s'
  = stamped stamp_Liability (payload_liabilities data) fresh
      (calls_before_liabilities data) /\
  investments (assets s')
  = stamped stamp_Investment (investments (payload_assets data)) fresh
      (calls_before_investments data) /\
  linked_emis (outflows (cash_flow s'))
  == Sigma emi (payload_liabilities data) /\
  linked_investments (outflows (cash_flow s'))
  == Sigma monthly_sip (investments (payload_assets data)) /\
  (Forall (fun l => exists i, liab_id l = Some i /\ i <> EmptyString)
     (payload_liabilities data) ->
   liabilities s' = payload_liabilities data).
Proof.
  cbv zeta.
  destruct (handleLoadData_tables_loaded s data fresh) as (Hl & Hi & _).
  assert (Hsync : linked_in_sync (handleLoadData s data fresh))
    by (unfold handleLoadData; cbv zeta; split; reflexivity).
  destruct Hsync as [He Hs].
  split; [exact Hl|]. split; [exact Hi|]. split; [|split].
  - rewrite He. unfold totalEmi. rewrite Hl, reduce_Sigma_load.
    apply Sigma_stamped_emi.
  - rewrite Hs. unfold totalSip. rewrite Hi, reduce_Sigma_load.
    apply Sigma_stamped_sip.
  - intros Hall. rewrite Hl. apply stamped_keeps_all. exact Hall.
Qed.

Lemma handleLoadData_relinks_witness :
  linked_emis
    (outflows
       (cash_flow
          (handleLoadData Samples.stale_store FormSamples.profile
             FormSamples.same_id)))
  == 53000 /\
  liabilities
    (handleLoadData Samples.stale_store FormSamples.profile
       FormSamples.same_id)
  = [Samples.home_loan; Samples.car_loan].
Proof.
  destruct (handleLoadData_relinks Samples.stale_store FormSamples.profile
              FormSamples.same_id) as (_ & _ & He & _ & Hl).
  split.
  - rewrite He. reflexivity.
  - apply Hl. repeat constructor.
    + exists "lib-1"%string. split; [reflexivity | discriminate].
    + exists "lib-2"%string. split; [reflexivity | discriminate].
Defined.

Lemma spread_Inflows_all (o i : Inflows) :
  spread_Inflows o (Inflows_arg i) = i.
Proof. destruct i. reflexivity. Qed.

Lemma spread_Assumptions_all (o a : Assumptions) :
  spread_Assumptions o (Assumptions_arg a) = a.
Proof. destruct a. reflexivity. Qed.

Lemma essential_arg_all (o e : EssentialExpenses) :
  spread_EssentialExpenses o (CashFlowForm.essential_arg e) = e.
Proof. destruct e. reflexivity. Qed.

Lemma lifestyle_arg_all (o l : LifestyleExpenses) :
  spread_LifestyleExpenses o (CashFlowForm.lifestyle_arg l) = l.
Proof. destruct l. reflexivity. Qed.

(** A projection that no add action and no [updateLiquidCash] changes is
    the same after the table calls of [handleLoadData] as before them. *)
Lemma load_tables_frame (B : Type) (proj : FullState -> B)
  (fresh : nat -> string)
  (gs : list Goal) (res : list RealEstateAsset) (bas : list BankAccount)
  (invs : list InvestmentAsset) (pols : list InsurancePolicy)
  (cash : number) (ls : list Liability) (s0 : FullState) :
  (forall s x f, proj (addGoal s x f) = proj s) ->
  (forall s x f, proj (addRealEstate s x f) = proj s) ->
  (forall s x f, proj (addBankAccount s x f) = proj s) ->
  (forall s x f, proj (addInvestment s x f) = proj s) ->
  (forall s x f, proj (addInsurancePolicy s x f) = proj s) ->
  (forall s x f, proj (addLiability s x f) = proj s) ->
  (forall s c, proj (updateLiquidCash s c) = proj s) ->
  let sn5 :=
    forEach_add addInsurancePolicy pols fresh
      (forEach_add addInvestment invs fresh
         (forEach_add addBankAccount bas fresh
            (forEach_add addRealEstate res fresh
               (forEach_add addGoal gs fresh (s0, 0%nat))))) in
  proj (fst (forEach_add addLiability ls fresh
               (updateLiquidCash (fst sn5) cash, snd sn5)))
  = proj s0.
Proof.
  intros Hg Hre Hba Hinv Hpol Hl Hc. cbv zeta.
  rewrite (forEach_add_frame _ _ addLiability proj fresh Hl), Hc.
  set (sn1 := forEach_add addGoal gs fresh (s0, 0%nat)).
  set (sn2 := forEach_add addRealEstate res fresh sn1).
  set (sn3 := forEach_add addBankAccount bas fresh sn2).
  set (sn4 := forEach_add addInvestment invs fresh sn3).
  rewrite (pair_fst_snd _ _ sn4),
    (forEach_add_frame _ _ addInsurancePolicy proj fresh Hpol).
  unfold sn4. rewrite (pair_fst_snd _ _ sn3),
    (forEach_add_frame _ _ addInvestment proj fresh Hinv).
  unfold sn3. rewrite (pair_fst_snd _ _ sn2),
    (forEach_add_frame _ _ addBankAccount proj fresh Hba).
  unfold sn2. rewrite (pair_fst_snd _ _ sn1),
    (forEach_add_frame _ _ addRealEstate proj fresh Hre).
  unfold sn1.
  apply (forEach_add_frame _ _ addGoal proj fresh Hg).
Qed.

(** Loading a profile does not depend on what the store held: the result
    is the same from every store, and the cached analysis results are
    cleared.  The incomes and the assumptions are those of the profile.
    An expense total of the profile is kept only when the profile has no
    details for it: where it has, the total stored is the sum of the
    details, whatever total the profile states. *)
Theorem handleLoadData_cash_flow
  (s : FullState) (data : Payload) (fresh : nat -> string) :
  let s' := handleLoadData s data fresh in
  let o := outflows (payload_cash_flow data) in
  let o' := outflows (cash_flow s') in
  s' = handleLoadData initialState data fresh /\
  inflows (cash_flow s') = inflows (payload_cash_flow data) /\
  assumptions s' = payload_assumptions data /\
  essential_details o' = essential_details o /\
  lifestyle_details o' = lifestyle_details o /\
  (forall m : EssentialExpenses,
      essential_details o = Some m ->
      essential o'
      = reduce (fun a b => a + b) (Object_values_Essential m) 0) /\
  (essential_details o = None -> essential o' = essential o) /\
  (forall m : LifestyleExpenses,
      lifestyle_details o = Some m ->
      lifestyle o'
      = reduce (fun a b => a + b) (Object_values_Lifestyle m) 0) /\
  (lifestyle_details o = None -> lifestyle o' = lifestyle o).
Proof.
  cbv zeta.
  split; [reflexivity|].
  unfold handleLoadData. cbv zeta.
  set (sn := forEach_add addLiability _ fresh _).
  assert (Hed : essential_details (outflows (cash_flow (fst sn))) = None).
  { unfold sn.
    rewrite (load_tables_frame _
               (fun s => essential_details (outflows (cash_flow s))) fresh)
      by (intros; reflexivity).
    destruct (spouse (payload_user_profile data)); reflexivity. }
  assert (Hld : lifestyle_details (outflows (cash_flow (fst sn))) = None).
  { unfold sn.
    rewrite (load_tables_frame _
               (fun s => lifestyle_details (outflows (cash_flow s))) fresh)
      by (intros; reflexivity).
    destruct (spouse (payload_user_profile data)); reflexivity. }
  set (o := outflows (payload_cash_flow data)).
  destruct (essential_details o) as [e|] eqn:Ee;
    destruct (lifestyle_details o) as [l|] eqn:El; simpl;
    rewrite ?spread_Inflows_all, ?spread_Assumptions_all,
      ?essential_arg_all, ?lifestyle_arg_all, ?Hed, ?Hld, ?Ee, ?El;
    (split; [reflexivity|]); (split; [reflexivity|]);
    (split; [reflexivity|]); (split; [reflexivity|]);
    (split;
     [intros m Hm;
      first [discriminate Hm | injection Hm as <-; reflexivity]|]);
    (split; [intros Hn; first [discriminate Hn | reflexivity]|]);
    (split;
     [intros m Hm;
      first [discriminate Hm | injection Hm as <-; reflexivity]|]);
    intros Hn; first [discriminate Hn | reflexivity].
Qed.

Lemma handleLoadData_cash_flow_witness :
  essential
    (outflows
       (cash_flow
          (handleLoadData Samples.stale_store FormSamples.profile
             FormSamples.same_id)))
  == 60000 /\
  lifestyle
    (outflows
       (cash_flow
          (handleLoadData Samples.stale_store FormSamples.profile
             FormSamples.same_id)))
  = 25000.
Proof.
  destruct (handleLoadData_cash_flow Samples.stale_store FormSamples.profile
              FormSamples.same_id)
    as (_ & _ & _ & _ & _ & He & _ & _ & Hl).
  split.
  - rewrite (He _ eq_refl). reflexivity.
  - rewrite (Hl eq_refl). reflexivity.
Defined.

End LoadFacts.

(* ================================================================== *)
(** * Properties of the analysis pages *)
(* ================================================================== *)

Section PageFacts.

Import Store Js Pages.
Local Open Scope Q_scope.

Lemma step_keeps_cache (s : FullState) (a : Action) :
  keeps_cache a = true -> analysisResults (step s a) = analysisResults s.
Proof. destruct a; simpl; intros H; try discriminate H; reflexivity. Qed.

Lemma run_keeps_cache (acts : list Action) (s : FullState) :
  Forall (fun a => keeps_cache a = true) acts ->
  analysisResults (run s acts) = analysisResults s.
Proof.
  revert s. induction acts as [|a acts IH]; intros s Hall; [reflexivity|].
  inversion Hall as [|? ? Ha Hrest]; subst. simpl.
  rewrite IH by exact Hrest. apply step_keeps_cache. exact Ha.
Qed.

(** No edit invalidates a cached analysis: once results that are truthy
    are cached, whatever calls follow, short of [reset] and
    [setAnalysisResults], the report page shows those same results, does
    not ask the server, and does not even re-derive the linked values.  A
    cached value that is falsy ([null], [false], [0], the empty string)
    counts as no cache: the report page then does what the dashboard does,
    asking the server and storing its answer. *)
Theorem report_shows_cached_results
  (analyze : Payload -> Response) (s : FullState) (acts : list Action) :
  Forall (fun a => keeps_cache a = true) acts ->
  (forall r : AnalysisResults,
      analysisResults s = Some r ->
      truthy_results r = true ->
      report_fetchData analyze (run s acts)
      = (run s acts, Results (Some r))) /\
  (truthy_cached (analysisResults s) = false ->
   report_fetchData analyze (run s acts)
   = dashboard_fetchData analyze (run s acts)).
Proof.
  intros Hall. unfold report_fetchData. cbv zeta.
  rewrite (run_keeps_cache acts s Hall). split.
  - intros r Hr Ht. rewrite Hr. simpl truthy_cached. rewrite Ht.
    reflexivity.
  - intros Hf. rewrite Hf. reflexivity.
Qed.

Lemma report_shows_cached_results_witness :
  report_fetchData (fun _ => Failed)
    (run (setAnalysisResults initialState
            (Some FormSamples.report_body))
       [A_addLiability Samples.home_loan "g"])
  = (run (setAnalysisResults initialState
            (Some FormSamples.report_body))
       [A_addLiability Samples.home_loan "g"],
     Results (Some FormSamples.report_body))
  /\
  snd (report_fetchData (fun _ => Body (Some FormSamples.report_body))
         (run (setAnalysisResults initialState (Some (Res_number 0)))
            [A_addLiability Samples.home_loan "g"]))
  = Results (Some FormSamples.report_body).
Proof.
  split.
  - apply (report_shows_cached_results (fun _ => Failed)
             (setAnalysisResults initialState
                (Some FormSamples.report_body))
             [A_addLiability Samples.home_loan "g"]);
      [repeat constructor | reflexivity | reflexivity].
  - destruct (report_shows_cached_results
                (fun _ => Body (Some FormSamples.report_body))
                (setAnalysisResults initialState (Some (Res_number 0)))
                [A_addLiability Samples.home_loan "g"])
      as [_ H]; [repeat constructor|].
    rewrite (H eq_refl). reflexivity.
Defined.

(** The dashboard always asks the server, with a payload whose linked
    values are the sums over its own tables; when the server answers, the
    answer replaces any cached results.  An answer that is truthy is what
    the report page shows next, without a request of its own; after an
    answer that is falsy the report page asks again.  When the request
    fails, the cache is left as it was. *)
Theorem dashboard_refreshes_the_cache
  (analyze other : Payload -> Response) (s : FullState) :
  let payload := getPayload (recalculateLinkedValues s) in
  let s' := fst (dashboard_fetchData analyze s) in
  linked_emis (outflows (payload_cash_flow payload))
  == Sigma emi (payload_liabilities payload) /\
  linked_investments (outflows (payload_cash_flow payload))
  == Sigma monthly_sip (investments (payload_assets payload)) /\
  (forall data : option AnalysisResults,
      analyze payload = Body data ->
      snd (dashboard_fetchData analyze s) = Results data /\
      analysisResults s' = data /\
      (truthy_cached data = true ->
       report_fetchData other s' = (s', Results data)) /\
      (truthy_cached data = false ->
       report_fetchData other s' = dashboard_fetchData other s')) /\
  (analyze payload = Failed ->
   snd (dashboard_fetchData analyze s) = Error /\
   analysisResults s' = analysisResults s).
Proof.
  cbv zeta. split; [|split; [|split]].
  - change (linked_emis
              (outflows
                 (payload_cash_flow (getPayload (recalculateLinkedValues s)))))
      with (reduce (fun sum x => sum + emi x) (liabilities s) 0).
    apply reduce_is_Sigma.
  - change (linked_investments
              (outflows
                 (payload_cash_flow (getPayload (recalculateLinkedValues s)))))
      with (reduce (fun sum x => sum + monthly_sip x)
              (investments (assets s)) 0).
    apply reduce_is_Sigma.
  - intros data Hd.
    assert (Hdash : dashboard_fetchData analyze s
                    = (setAnalysisResults (recalculateLinkedValues s) data,
                       Results data)).
    { unfold dashboard_fetchData. cbv zeta. rewrite Hd. reflexivity. }
    rewrite Hdash. cbn [fst snd].
    split; [reflexivity|]. split; [reflexivity|].
    unfold report_fetchData. cbv zeta.
    change (analysisResults
              (setAnalysisResults (recalculateLinkedValues s) data))
      with data.
    split; intros Ht; rewrite Ht; reflexivity.
  - intros Hn. unfold dashboard_fetchData. cbv zeta. rewrite Hn.
    split; reflexivity.
Qed.

Lemma dashboard_refreshes_the_cache_witness :
  snd (dashboard_fetchData (fun _ => Body (Some FormSamples.report_body))
         (setAnalysisResults initialState (Some FormSamples.stale_body)))
  = Results (Some FormSamples.report_body)
  /\
  snd (report_fetchData (fun _ => Failed)
         (fst (dashboard_fetchData
                 (fun _ => Body (Some FormSamples.report_body))
                 (setAnalysisResults initialState
                    (Some FormSamples.stale_body)))))
  = Results (Some FormSamples.report_body)
  /\
  snd (report_fetchData (fun _ => Failed)
         (fst (dashboard_fetchData (fun _ => Body None) initialState)))
  = Error.
Proof.
  destruct (dashboard_refreshes_the_cache
              (fun _ => Body (Some FormSamples.report_body))
              (fun _ => Failed)
              (setAnalysisResults initialState (Some FormSamples.stale_body)))
    as (_ & _ & H & _).
  destruct (H (Some FormSamples.report_body) eq_refl) as (H1 & _ & H2 & _).
  destruct (dashboard_refreshes_the_cache
              (fun _ => Body None) (fun _ => Failed) initialState)
    as (_ & _ & N & _).
  destruct (N None eq_refl) as (_ & _ & _ & N2).
  split; [exact H1|]. split.
  - rewrite (H2 eq_refl). reflexivity.
  - rewrite (N2 eq_refl). reflexivity.
Defined.

End PageFacts.
